(** * CyberScope: log preprocessing and model bank

    A shallow embedding of [enhanced_preprocessing.py]
    ([EnhancedLogPreprocessor]) and [enhanced_model.py]
    ([EnhancedLogAnalysisModel]), with the properties of the specification
    stated over it.

    Conventions.
    - A Python [str] is a [string] (or a [list ascii] where the code works
      character by character); the characters are ASCII code points.
    - A Python [dict] is an insertion-ordered association list ([Py.dict]).
    - A method that can raise returns a [Py.result]; a method that also
      mutates [self], the file system or the log is a function in the
      state-and-exception monad [Py.M].
    - What pandas, numpy, scikit-learn, torch and transformers compute is
      taken as a [Variable] of the enclosing [Section]. *)

From Stdlib Require Import List String Ascii ZArith Lia Bool Arith Permutation Sorted.
From Stdlib Require Import Decimal DecimalString OrderedTypeEx.
Import ListNotations.

Set Implicit Arguments.
Set Warnings "-register-all".

(* ================================================================== *)
(** ** Python values shared by both modules *)

Module Py.

Open Scope string_scope.

(** The outcome of a call: a value, or a raised exception. *)
Inductive result (E A : Type) : Type :=
| Ok (a : A)
| Raise (e : E).
Arguments Ok {E A} a.
Arguments Raise {E A} e.

Definition is_ok {E A} (r : result E A) : bool :=
match r with Ok _ => true | Raise _ => false end.

(** State-and-exception monad: the state survives a raised exception, as
  the attributes of [self] do in Python. *)
Definition M (S E A : Type) : Type := S -> result E A * S.

Definition ret {S E A} (a : A) : M S E A := fun s => (Ok a, s).

Definition bind {S E A B} (m : M S E A) (k : A -> M S E B) : M S E B :=
fun s => match m s with
         | (Ok a, s') => k a s'
         | (Raise e, s') => (Raise e, s')
         end.

Definition raise {S E A} (e : E) : M S E A := fun s => (Raise e, s).

Definition get_state {S E} : M S E S := fun s => (Ok s, s).

Definition modify {S E} (f : S -> S) : M S E unit := fun s => (Ok tt, f s).

(** [try: body except Exception as e: handler e]. *)
Definition try_except {S E A} (body : M S E A) (handler : E -> M S E A) : M S E A :=
fun s => match body s with
         | (Ok a, s') => (Ok a, s')
         | (Raise e, s') => handler e s'
         end.

(** [for x in xs: body x]. *)
Fixpoint for_each {S E X} (xs : list X) (body : X -> M S E unit) : M S E unit :=
match xs with
| [] => ret tt
| x :: rest => bind (body x) (fun _ => for_each rest body)
end.

(** Every run of [m] relates the state before to the state after. *)
Definition preserves {S E A} (R : S -> S -> Prop) (m : M S E A) : Prop :=
forall s r s', m s = (r, s') -> R s s'.

(** *** dict: insertion-ordered, keys unique *)

Definition dict (V : Type) : Type := list (string * V).

Fixpoint get {V} (d : dict V) (k : string) : option V :=
match d with
| [] => None
| (k', v) :: rest => if String.eqb k' k then Some v else get rest k
end.

(** [k in d] *)
Definition contains {V} (d : dict V) (k : string) : bool :=
match get d k with Some _ => true | None => false end.

(** [d[k] = v]: an existing key keeps its position, a new key goes last. *)
Fixpoint set {V} (d : dict V) (k : string) (v : V) : dict V :=
match d with
| [] => [(k, v)]
| (k', v') :: rest =>
    if String.eqb k' k then (k', v) :: rest else (k', v') :: set rest k v
end.

(** [list(d.keys())] *)
Definition keys {V} (d : dict V) : list string := map fst d.

(** [d.items()] *)
Definition items {V} (d : dict V) : list (string * V) := d.

(** *** f-strings, exceptions, log records *)

(** An f-string as the code builds it: literal text and interpolated
  values.  [str(e)] of an exception is the nested f-string it carries. *)
Inductive fpart : Type :=
| Lit (text : string)
| Interp (value : string)              (* {name} for a str *)
| InterpList (values : list string)    (* {list(d.keys())} *)
| InterpNum (what : string)            (* a formatted number, e.g. {x:.4f} *)
| Nested (parts : list fpart).         (* {e} for an exception *)

Definition fstring : Type := list fpart.

(** The exceptions that occur; all are subclasses of [Exception]. *)
Inductive exn : Type :=
| ValueError (msg : fstring)
| FileNotFoundError (path : string)
| OSError (path : string)
| IndexError
| KeyError (key : string)
| UnpicklingError (path : string)
| LibraryError (origin : string).      (* raised inside an external library *)

Definition str_exn (e : exn) : fstring :=
match e with
| ValueError msg => msg
| FileNotFoundError path => [Lit "No such file or directory: "; Interp path]
| OSError path => [Lit "cannot open: "; Interp path]
| IndexError => [Lit "list index out of range"]
| KeyError key => [Interp key]
| UnpicklingError path => [Lit "could not unpickle: "; Interp path]
| LibraryError origin => [Interp origin]
end.

Inductive level : Type := INFO | WARNING | ERROR.

(** One call of [logger.info], [logger.warning] or [logger.error]. *)
Definition log_record : Type := (level * fstring)%type.

Definition is_error (r : log_record) : bool :=
match fst r with ERROR => true | _ => false end.

(** *** pandas *)

(** A cell of an object column as [pd.read_csv] delivers it, or of an
  integer column the method adds. *)
Inductive cell : Type :=
| CStr (s : string)
| CInt (z : Z)
| CNaN
| CNone.

(** A DataFrame: column name to column, in column order. *)
Definition DataFrame : Type := dict (list cell).

(** [str(x)] of a cell, as [.astype(str)] applies it. *)
Definition str_cell (c : cell) : string :=
match c with
| CStr s => s
| CInt z => NilZero.string_of_int (Z.to_int z)
| CNaN => "nan"
| CNone => "None"
end.

Definition astype_str (column : list cell) : list string := map str_cell column.

(** *** Files *)

(** The file system: the files that exist, and the paths that cannot be
  opened for writing. *)
Record FS (File : Type) : Type := {
files : dict File;
denied : string -> bool
}.

End Py.

Import Py.

Declare Scope py_scope.
Delimit Scope py_scope with py.
Notation "x <- m ;; k" := (Py.bind m (fun x => k))
  (at level 61, m at next level, right associativity) : py_scope.
Notation "m ;;; k" := (Py.bind m (fun _ => k))
  (at level 61, right associativity) : py_scope.

(* ================================================================== *)
(** ** Temporal feature extractor
    [EnhancedLogPreprocessor.extract_temporal_features] *)

Module Temporal.

Open Scope string_scope.
Open Scope Z_scope.

(** What the code reads of a parsed pandas [Timestamp]: the accessors
  [.dt.hour] and [.dt.dayofweek] (Monday is 0).  [minute] is kept so that
  a clock time such as 21:59 can be written down. *)
Record Timestamp : Type := {
hour : Z;
minute : Z;
dayofweek : Z
}.

(** An element of the datetime Series: a timestamp, or [NaT] for a missing
  cell. *)
Inductive datetime : Type :=
| At (t : Timestamp)
| NaT.

(** The DataFrame built by the method, column by column. *)
Record TemporalFeatures : Type := {
col_hour : list cell;
col_day_of_week : list cell;
col_is_weekend : list cell;
col_is_business_hours : list cell;
col_is_night : list cell
}.

(** [.astype(int)] on a boolean Series. *)
Definition astype_int (b : bool) : cell := CInt (if b then 1 else 0).

(** [.dt.hour] and [.dt.dayofweek]: NaN on [NaT]. *)
Definition dt_hour (d : datetime) : cell :=
match d with At t => CInt (hour t) | NaT => CNaN end.
Definition dt_dayofweek (d : datetime) : cell :=
match d with At t => CInt (dayofweek t) | NaT => CNaN end.

(** Comparisons of a Series with a constant: False on NaN. *)
Definition ge (c : cell) (k : Z) : bool :=
match c with CInt z => k <=? z | _ => false end.
Definition le (c : cell) (k : Z) : bool :=
match c with CInt z => z <=? k | _ => false end.

(** What [pd.to_datetime] raises on a cell it cannot parse. *)
Definition ParserError (raw : cell) : exn :=
ValueError [Lit "Unknown datetime string format, unable to parse: ";
            Interp (str_cell raw)].

Section Extract.

(** [pd.to_datetime] on one cell of a column, under the format pandas
settles on for that column; [None] when the cell does not parse under
it. *)
Variable parse_cell : cell -> option datetime.

(** [pd.to_datetime(timestamps)]: raises when a cell does not parse
(errors='raise' is the default). *)
Fixpoint to_datetime (timestamps : list cell) : result exn (list datetime) :=
match timestamps with
| [] => Ok []
| raw :: rest =>
  match parse_cell raw with
  | None => Raise (ParserError raw)
  | Some t =>
      match to_datetime rest with
      | Ok ts => Ok (t :: ts)
      | Raise e => Raise e
      end
  end
end.

Definition is_business_hours (d : datetime) : cell :=
astype_int (ge (dt_hour d) 9 && le (dt_hour d) 17).

Definition is_night (d : datetime) : cell :=
astype_int (ge (dt_hour d) 22 || le (dt_hour d) 6).

Definition temporal_of_series (dt_series : list datetime) : TemporalFeatures :=
{| col_hour := map dt_hour dt_series;
 col_day_of_week := map dt_dayofweek dt_series;
 col_is_weekend := map (fun d => astype_int (ge (dt_dayofweek d) 5)) dt_series;
 col_is_business_hours := map is_business_hours dt_series;
 col_is_night := map is_night dt_series |}.

Definition extract_temporal_features (timestamps : list cell)
: result exn TemporalFeatures :=
match to_datetime timestamps with
| Ok dt_series => Ok (temporal_of_series dt_series)
| Raise e => Raise e
end.

End Extract.

(** A parser for the one layout YYYY-MM-DD HH:MM:SS (or with a T between
  date and time), used to run the extractor on concrete rows. *)

Definition digit_val (c : ascii) : option Z :=
let n := Z.of_nat (nat_of_ascii c) in
if (48 <=? n) && (n <=? 57) then Some (n - 48) else None.

Fixpoint digits_val (acc : Z) (cs : list ascii) : option Z :=
match cs with
| [] => Some acc
| c :: rest =>
    match digit_val c with
    | Some d => digits_val (10 * acc + d) rest
    | None => None
    end
end.

Definition number (cs : list ascii) : option Z :=
match cs with [] => None | _ => digits_val 0 cs end.

(** Day of the week of a Gregorian date, Monday = 0 (Sakamoto's method). *)
Definition weekday (y m d : Z) : Z :=
let t := nth (Z.to_nat (m - 1)) [0; 3; 2; 5; 0; 3; 5; 1; 4; 6; 2; 4] 0 in
let y' := if m <? 3 then y - 1 else y in
((y' + y' / 4 - y' / 100 + y' / 400 + t + d) + 6) mod 7.

Definition parse_iso_str (raw : string) : option Timestamp :=
match list_ascii_of_string raw with
| [y1; y2; y3; y4; d1; m1; m2; d2; a1; a2; sep; h1; h2; c1; n1; n2; c2; s1; s2] =>
    match number [y1; y2; y3; y4], number [m1; m2], number [a1; a2],
          number [h1; h2], number [n1; n2], number [s1; s2] with
    | Some y, Some m, Some d, Some h, Some n, Some s =>
        if (Ascii.eqb d1 "-" && Ascii.eqb d2 "-" && Ascii.eqb c1 ":" && Ascii.eqb c2 ":"
            && (Ascii.eqb sep " " || Ascii.eqb sep "T")
            && (1 <=? m) && (m <=? 12) && (1 <=? d) && (d <=? 31)
            && (h <=? 23) && (n <=? 59) && (s <=? 59))%bool
        then Some {| hour := h; minute := n; dayofweek := weekday y m d |}
        else None
    | _, _, _, _, _, _ => None
    end
| _ => None
end.

Definition parse_iso (raw : cell) : option datetime :=
match raw with
| CStr s => option_map At (parse_iso_str s)
| CNaN | CNone => Some NaT
| CInt _ => None
end.

End Temporal.

(* ================================================================== *)
(** ** Categorical encoder
    [EnhancedLogPreprocessor.encode_categorical_features] *)

Module Encoder.

Open Scope string_scope.

(** *** sklearn.preprocessing.LabelEncoder

  The fitted state is the array [classes_].  [fit] stores the sorted
  distinct values ([sorted(set(values))] for an object column);
  [transform] looks every value up in the table
  [{val: i for i, val in enumerate(classes_)}] and raises [ValueError] on a
  value that is not a key. *)
Definition LabelEncoder : Type := list string.

Fixpoint insert_sorted (v : string) (sorted : list string) : list string :=
match sorted with
| [] => [v]
| x :: rest =>
    match String.compare v x with
    | Lt => v :: x :: rest
    | Eq => x :: rest
    | Gt => x :: insert_sorted v rest
    end
end.

(** Ascending order of strings: by code point, a proper prefix first. *)
Definition slt (a b : string) : Prop := String.compare a b = Lt.

(** [sorted(set(values))]: the distinct values in ascending order. *)
Definition sorted_unique (values : list string) : list string :=
fold_right insert_sorted [] values.

(** [{val: i for i, val in enumerate(uniques)}] *)
Fixpoint enumerate_from {A} (i : nat) (l : list A) : list (nat * A) :=
match l with
| [] => []
| x :: rest => (i, x) :: enumerate_from (S i) rest
end.

Definition swap (iv : nat * string) : string * nat := (snd iv, fst iv).

Definition table_of (uniques : list string) : dict nat :=
fold_left (fun d iv => Py.set d (snd iv) (fst iv)) (enumerate_from 0 uniques) [].

Definition unseen_labels (v : string) : exn :=
ValueError [Lit "y contains previously unseen labels: "; Interp v].

Fixpoint map_to_integer (table : dict nat) (values : list string)
: result exn (list Z) :=
match values with
| [] => Ok []
| v :: rest =>
    match Py.get table v with
    | None => Raise (unseen_labels v)
    | Some i =>
        match map_to_integer table rest with
        | Ok codes => Ok (Z.of_nat i :: codes)
        | Raise e => Raise e
        end
    end
end.

Definition transform (classes_ : LabelEncoder) (values : list string)
: result exn (list Z) :=
map_to_integer (table_of classes_) values.

(** The code of a value is its position among the classes. *)
Definition coded (classes_ : list string) (v : string) (code : Z) : Prop :=
exists n, code = Z.of_nat n /\ nth_error classes_ n = Some v.

(** A finished first fit of [col]: its classes are the sorted distinct
  values and the encoded column holds their positions. *)
Definition fitted (col : string) (column : list cell)
(encoded_df : DataFrame) (les : dict (list string)) : Prop :=
Py.get les col = Some (sorted_unique (astype_str column))
/\ exists codes,
    Py.get encoded_df (col ++ "_encoded") = Some (map CInt codes)
    /\ Forall2 (coded (sorted_unique (astype_str column))) (astype_str column) codes.

(** [fit_transform]: the new [classes_] and the codes of the values. *)
Definition fit_transform (values : list string)
: LabelEncoder * result exn (list Z) :=
let classes_ := sorted_unique values in
(classes_, map_to_integer (table_of classes_) values).

(** [Series.unique()]: the distinct values in order of first appearance. *)
Fixpoint pd_unique (values : list string) : list string :=
match values with
| [] => []
| v :: rest => v :: filter (fun x => negb (String.eqb x v)) (pd_unique rest)
end.

Definition mem (v : string) (l : list string) : bool :=
existsb (String.eqb v) l.

Section Encode.

(** [list(s)] for a set [s] built from the given elements: the order in
which CPython iterates over a set of strings depends on their hashes
(randomised per process), so it is a parameter.  Whatever the order,
every element is listed once. *)
Variable set_iter : list string -> list string.

Definition set_iter_valid : Prop :=
forall l, NoDup (set_iter l) /\ (forall x, In x (set_iter l) <-> In x l).

(** The vocabulary after the [else] branch, lines 190-197. *)
Definition extend_classes (classes_ : LabelEncoder) (values : list string)
: LabelEncoder :=
let unique_values := set_iter (pd_unique values) in
let known_values := set_iter classes_ in
let new_values :=
set_iter (filter (fun v => negb (mem v known_values)) unique_values) in
match new_values with
| [] => classes_
| _ :: _ => (known_values ++ new_values)%list
end.

Definition encoded_name (col : string) : string := col ++ "_encoded".

(** The body of the loop for one column; the state is
[self.label_encoders], the accumulator is [encoded_df]. *)
Definition encode_column (df : DataFrame) (col : string) (encoded_df : DataFrame)
: M (dict LabelEncoder) exn DataFrame :=
fun label_encoders =>
match Py.get df col with
| None => (Ok encoded_df, label_encoders)
| Some column =>
    let values := astype_str column in
    match Py.get label_encoders col with
    | None =>
        let (classes_, codes) := fit_transform values in
        let label_encoders' := Py.set label_encoders col classes_ in
        match codes with
        | Ok codes =>
            (Ok (Py.set encoded_df (encoded_name col) (map CInt codes)),
             label_encoders')
        | Raise e => (Raise e, label_encoders')
        end
    | Some classes_ =>
        let classes_' := extend_classes classes_ values in
        let label_encoders' := Py.set label_encoders col classes_' in
        match transform classes_' values with
        | Ok codes =>
            (Ok (Py.set encoded_df (encoded_name col) (map CInt codes)),
             label_encoders')
        | Raise e => (Raise e, label_encoders')
        end
    end
end.

Fixpoint encode_columns (df : DataFrame) (categorical_columns : list string)
(encoded_df : DataFrame) : M (dict LabelEncoder) exn DataFrame :=
match categorical_columns with
| [] => Py.ret encoded_df
| col :: rest =>
  Py.bind (encode_column df col encoded_df) (encode_columns df rest)
end.

Definition encode_categorical_features (df : DataFrame)
(categorical_columns : list string) : M (dict LabelEncoder) exn DataFrame :=
encode_columns df categorical_columns df.

End Encode.

(** Two iteration orders a set of strings can have: ascending and
  descending. *)
Definition iter_ascending (l : list string) : list string := sorted_unique l.
Definition iter_descending (l : list string) : list string := List.rev (sorted_unique l).

(** The reading of the specification: indices in order of first
  appearance. *)
Definition first_seen_codes (values : list string) : result exn (list Z) :=
map_to_integer (table_of (pd_unique values)) values.

End Encoder.

(* ================================================================== *)
(** ** str methods and glob *)

Module PyStr.

Open Scope string_scope.

Fixpoint drop (n : nat) (s : string) : string :=
match n, s with
| O, _ => s
| S n', String _ t => drop n' t
| S _, EmptyString => EmptyString
end.

(** [s.partition(sep)] when [sep] occurs: the text before the first
  (leftmost) occurrence and the text after it. *)
Fixpoint partition (sep s : string) : option (string * string) :=
if String.prefix sep s then Some ("", drop (String.length sep) s)
else match s with
     | EmptyString => None
     | String c t =>
         match partition sep t with
         | Some (before, after) => Some (String c before, after)
         | None => None
         end
     end.

Fixpoint split_fuel (fuel : nat) (sep s : string) : list string :=
match fuel with
| O => [s]
| S fuel' =>
    match partition sep s with
    | None => [s]
    | Some (before, after) => before :: split_fuel fuel' sep after
    end
end.

(** [s.split(sep)] for a non-empty [sep]: occurrences are taken from left
  to right and do not overlap.  Each occurrence removes at least one
  character, so [length s] rounds are enough. *)
Definition split (sep s : string) : list string :=
split_fuel (String.length s) sep s.

(** [sep.join(parts)] *)
Fixpoint join (sep : string) (parts : list string) : string :=
match parts with
| [] => ""
| [p] => p
| p :: rest => p ++ sep ++ join sep rest
end.

(** [s.replace(old, new)] for a non-empty [old]. *)
Definition replace (old new s : string) : string := join new (split old s).

(** *** fnmatch and glob

  A pattern is cut into tokens the way [fnmatch.translate] does: [*],
  [?], a bracket expression [[...]] when a closing bracket is found, and
  literal characters otherwise. *)
Inductive token : Type :=
| TLit (c : ascii)
| TStar
| TAny
| TClass (stuff : string).

(** The text up to the first "]" and the text after it. *)
Fixpoint upto_close (p : string) : option (string * string) :=
match p with
| EmptyString => None
| String c r =>
    if Ascii.eqb c "]" then Some ("", r)
    else match upto_close r with
         | Some (stuff, rest) => Some (String c stuff, rest)
         | None => None
         end
end.

(** After an opening bracket: a leading "!" and a "]" right after it belong
  to the expression. *)
Definition class_body (p : string) : option (string * string) :=
let (bang, p1) :=
  match p with
  | String "!" r => ("!", r)
  | _ => ("", p)
  end in
let (rb, p2) :=
  match p1 with
  | String "]" r => ("]", r)
  | _ => ("", p1)
  end in
match upto_close p2 with
| Some (stuff, rest) => Some (bang ++ rb ++ stuff, rest)
| None => None
end.

Fixpoint tokenize_fuel (fuel : nat) (pat : string) : list token :=
match fuel with
| O => []
| S fuel' =>
    match pat with
    | EmptyString => []
    | String c r =>
        if Ascii.eqb c "*" then TStar :: tokenize_fuel fuel' r
        else if Ascii.eqb c "?" then TAny :: tokenize_fuel fuel' r
        else if Ascii.eqb c "[" then
          match class_body r with
          | Some (stuff, rest) => TClass stuff :: tokenize_fuel fuel' rest
          | None => TLit c :: tokenize_fuel fuel' r
          end
        else TLit c :: tokenize_fuel fuel' r
    end
end.

Definition tokenize (pat : string) : list token :=
tokenize_fuel (String.length pat) pat.

Definition is_slash (c : ascii) : bool := Ascii.eqb c "/".
Definition is_dot (c : ascii) : bool := Ascii.eqb c ".".

Section Glob.

(** Whether a character belongs to a bracket expression, as [re] decides
it for the class that [fnmatch.translate] builds. *)
Variable class_match : string -> ascii -> bool.

(** A path is matched as a whole.  As [glob] matches component by
component, a wildcard never matches "/", and at the start of a
component ([at_start]) it does not match the "." of a hidden name. *)
Fixpoint match_tokens (ts : list token) (at_start : bool) (s : string) : bool :=
match ts with
| [] => match s with EmptyString => true | _ => false end
| TLit c :: ts' =>
  match s with
  | String c' s' => Ascii.eqb c c' && match_tokens ts' (is_slash c') s'
  | EmptyString => false
  end
| TAny :: ts' =>
  match s with
  | String c' s' =>
      negb (is_slash c') && negb (at_start && is_dot c')
      && match_tokens ts' false s'
  | EmptyString => false
  end
| TClass stuff :: ts' =>
  match s with
  | String c' s' =>
      class_match stuff c' && negb (is_slash c')
      && negb (at_start && is_dot c') && match_tokens ts' false s'
  | EmptyString => false
  end
| TStar :: ts' =>
  let hidden :=
    match s with
    | String c' _ => at_start && is_dot c'
    | EmptyString => false
    end in
  negb hidden &&
  (fix star (s : string) : bool :=
     match_tokens ts' false s
     || match s with
        | String c' s' => negb (is_slash c') && star s'
        | EmptyString => false
        end) s
end.

Definition fnmatch (pat name : string) : bool :=
match_tokens (tokenize pat) true name.

(** [glob.glob(pattern)] over the paths that exist, in the order the
directory is listed. *)
Definition glob (pat : string) (listing : list string) : list string :=
filter (fnmatch pat) listing.

End Glob.

Definition tail (s : string) : string :=
match s with String _ t => t | EmptyString => EmptyString end.

(** [sub in s] *)
Definition occurs (sub s : string) : bool :=
match partition sub s with Some _ => true | None => false end.

Fixpoint has_char (c : ascii) (s : string) : bool :=
match s with
| EmptyString => false
| String x r => Ascii.eqb x c || has_char c r
end.

(** Whether a wildcard would stand at the start of a path component after
  the literal text [l]. *)
Definition after_literal (l : string) (at_start : bool) : bool :=
fold_left (fun _ c => is_slash c) (list_ascii_of_string l) at_start.

(** No "*", "?" or "[": the text stands for itself in a pattern. *)
Fixpoint no_magic (s : string) : bool :=
match s with
| EmptyString => true
| String c r =>
    negb (Ascii.eqb c "*") && negb (Ascii.eqb c "?") && negb (Ascii.eqb c "[")
    && no_magic r
end.

Fixpoint no_slash (s : string) : bool :=
match s with
| EmptyString => true
| String c r => negb (is_slash c) && no_slash r
end.

End PyStr.

(* ================================================================== *)
(** ** Model bank, scorer and artifact store
    [EnhancedLogAnalysisModel] *)

Module ModelBank.

Open Scope string_scope.
Open Scope py_scope.

(** A keyword argument or grid value of an estimator. *)
Inductive pval : Type :=
| PInt (z : Z)
| PFloat (literal : string)
| PStr (s : string)
| PBool (b : bool)
| PTuple (zs : list Z)
| PNone.

(** An estimator as constructed, before [fit]: class and keyword
  arguments. *)
Record Estimator : Type := {
cls : string;
kwargs : list (string * pval)
}.

Definition RandomForestClassifier (kw : list (string * pval)) : Estimator :=
{| cls := "RandomForestClassifier"; kwargs := kw |}.
Definition LogisticRegression (kw : list (string * pval)) : Estimator :=
{| cls := "LogisticRegression"; kwargs := kw |}.
Definition MLPClassifier (kw : list (string * pval)) : Estimator :=
{| cls := "MLPClassifier"; kwargs := kw |}.

Section Bank.

(** [np.ndarray] *)
Variable ndarray : Type.
(** A Python object as the registries hold it and as pickle stores it: a
fitted estimator, a report dict. *)
Variable Obj : Type.
(** The empty dict [{}] as an object. *)
Variable empty_dict : Obj.

(** What a file holds: a pickled object, or bytes that do not unpickle. *)
Inductive File : Type :=
| Pickle (o : Obj)
| Garbage.

(** The attributes assigned in [__init__]. *)
Record Bank : Type := {
classification_models : dict Obj;
anomaly_models : dict Obj;
model_performance : Obj;
is_trained : bool
}.

Definition init : Bank :=
{| classification_models := [];
 anomaly_models := [];
 model_performance := empty_dict;
 is_trained := false |}.

(** What a method can read and change: [self], the files, the log. *)
Record State : Type := {
self : Bank;
fs : FS File;
log : list log_record
}.

Definition meth (A : Type) : Type := M State exn A.

Definition logger (lv : level) (msg : fstring) : meth unit :=
Py.modify (fun st => {| self := self st; fs := fs st; log := (log st ++ [(lv, msg)])%list |}).

Definition get_self : meth Bank := fun st => (Ok (self st), st).

Definition set_self (f : Bank -> Bank) : meth unit :=
Py.modify (fun st => {| self := f (self st); fs := fs st; log := log st |}).

Definition set_classification_model (name : string) (model : Obj) : meth unit :=
set_self (fun b =>
{| classification_models := Py.set (classification_models b) name model;
   anomaly_models := anomaly_models b;
   model_performance := model_performance b;
   is_trained := is_trained b |}).

Definition set_anomaly_model (name : string) (model : Obj) : meth unit :=
set_self (fun b =>
{| classification_models := classification_models b;
   anomaly_models := Py.set (anomaly_models b) name model;
   model_performance := model_performance b;
   is_trained := is_trained b |}).

Definition set_model_performance (perf : Obj) : meth unit :=
set_self (fun b =>
{| classification_models := classification_models b;
   anomaly_models := anomaly_models b;
   model_performance := perf;
   is_trained := is_trained b |}).

Definition set_is_trained (flag : bool) : meth unit :=
set_self (fun b =>
{| classification_models := classification_models b;
   anomaly_models := anomaly_models b;
   model_performance := model_performance b;
   is_trained := flag |}).

(** Lift a library call that returns or raises. *)
Definition call {A} (r : result exn A) : meth A := fun st => (r, st).

(** *** scikit-learn *)

(** [model.fit(X, y)]: the fitted estimator, or the exception raised. *)
Variable fit : Estimator -> ndarray -> ndarray -> result exn Obj.
(** [cross_val_score(model, X, y, cv=5, scoring='accuracy')] *)
Variable cross_val_score : Obj -> ndarray -> ndarray -> result exn ndarray.
(** [GridSearchCV(base, grid, cv=5, scoring='accuracy', ...).fit(X, y)]:
[best_params_], [best_score_] and [best_estimator_]. *)
Variable grid_search_fit :
Estimator -> list (string * list pval) -> ndarray -> ndarray
-> result exn (list (string * pval) * ndarray * Obj).
Variable predict : Obj -> ndarray -> result exn ndarray.
Variable has_predict_proba : Obj -> bool.
Variable predict_proba : Obj -> ndarray -> result exn ndarray.
Variable has_decision_function : Obj -> bool.
Variable decision_function : Obj -> ndarray -> result exn ndarray.

(** The three classifiers of lines 73-94, in dict order. *)
Definition configured_classifiers : dict Estimator :=
[ ("random_forest",
 RandomForestClassifier
   [("n_estimators", PInt 200); ("max_depth", PInt 15);
    ("min_samples_split", PInt 5); ("min_samples_leaf", PInt 2);
    ("random_state", PInt 42); ("n_jobs", PInt (-1))]);
("logistic_regression",
 LogisticRegression
   [("max_iter", PInt 1000); ("random_state", PInt 42);
    ("multi_class", PStr "ovr")]);
("mlp_classifier",
 MLPClassifier
   [("hidden_layer_sizes", PTuple [128; 64; 32]%Z); ("max_iter", PInt 500);
    ("random_state", PInt 42); ("early_stopping", PBool true);
    ("validation_fraction", PFloat "0.1")]) ].

(** The record of line 108. *)
Definition train_failure (name : string) (e : exn) : log_record :=
(ERROR, [Lit "Failed to train "; Interp name; Lit ": "; Nested (str_exn e)]).

(** One round of the training loop, lines 97-108. *)
Definition train_one (X_train y_train : ndarray) (item : string * Estimator)
: meth unit :=
let (name, model) := item in
logger INFO [Lit "Training "; Interp name; Lit "..."] ;;;
Py.try_except
(fitted <- call (fit model X_train y_train) ;;
 set_classification_model name fitted ;;;
 _ <- call (cross_val_score fitted X_train y_train) ;;
 logger INFO [Interp name; Lit " - CV Accuracy: "; InterpNum "cv_scores.mean()";
              Lit " (+/- "; InterpNum "cv_scores.std() * 2"; Lit ")"])
(fun e => logger (fst (train_failure name e)) (snd (train_failure name e))).

Definition train_classification_models (X_train y_train : ndarray)
: meth (dict Obj) :=
logger INFO [Lit "Training classification models..."] ;;;
Py.for_each (Py.items configured_classifiers) (train_one X_train y_train) ;;;
b <- get_self ;;
Py.ret (classification_models b).

(** *** hyperparameter_tuning *)

(** A value of the returned dict. *)
Inductive tuned : Type :=
| BestParams (p : list (string * pval))
| BestScore (s : ndarray)
| BestModel (m : Obj).

Definition rf_grid : list (string * list pval) :=
[ ("n_estimators", [PInt 100; PInt 200; PInt 300]);
("max_depth", [PInt 10; PInt 15; PInt 20; PNone]);
("min_samples_split", [PInt 2; PInt 5; PInt 10]);
("min_samples_leaf", [PInt 1; PInt 2; PInt 4]) ].

Definition lr_grid : list (string * list pval) :=
[ ("C", [PFloat "0.1"; PInt 1; PInt 10; PInt 100]);
("penalty", [PStr "l1"; PStr "l2"]);
("solver", [PStr "liblinear"; PStr "saga"]) ].

(** Lines 287-316: the grid search and its [except] clause. *)
Definition tune_with (X_train y_train : ndarray) (model_name : string)
(base_model : Estimator) (param_grid : list (string * list pval))
: meth (dict tuned) :=
Py.try_except
(gs <- call (grid_search_fit base_model param_grid X_train y_train) ;;
 let '(best_params, best_score, best_estimator) := gs in
 set_classification_model (model_name ++ "_tuned") best_estimator ;;;
 logger INFO [Lit "Best parameters for "; Interp model_name; Lit ": ";
              InterpNum "grid_search.best_params_"] ;;;
 logger INFO [Lit "Best CV score: "; InterpNum "grid_search.best_score_"] ;;;
 Py.ret [ ("best_params", BestParams best_params);
          ("best_score", BestScore best_score);
          ("best_model", BestModel best_estimator) ])
(fun e =>
   logger ERROR [Lit "Hyperparameter tuning failed for "; Interp model_name;
                 Lit ": "; Nested (str_exn e)] ;;;
   Py.ret []).

Definition hyperparameter_tuning (X_train y_train : ndarray) (model_name : string)
: meth (dict tuned) :=
logger INFO [Lit "Performing hyperparameter tuning for "; Interp model_name; Lit "..."] ;;;
if String.eqb model_name "random_forest" then
tune_with X_train y_train model_name
  (RandomForestClassifier [("random_state", PInt 42); ("n_jobs", PInt (-1))])
  rf_grid
else if String.eqb model_name "logistic_regression" then
tune_with X_train y_train model_name
  (LogisticRegression [("max_iter", PInt 1000); ("random_state", PInt 42)])
  lr_grid
else
logger WARNING [Lit "Hyperparameter tuning not implemented for "; Interp model_name] ;;;
Py.ret [].

(** *** Scorer *)

Definition not_found (kind model_name : string) (available : list string) : exn :=
ValueError [Lit kind; Interp model_name; Lit "' not found. Available models: ";
          InterpList available].

Definition predict_log_level (features : ndarray) (model_name : string)
: meth (ndarray * option ndarray) :=
b <- get_self ;;
match Py.get (classification_models b) model_name with
| None =>
  Py.raise (not_found "Model '" model_name (Py.keys (classification_models b)))
| Some model =>
  predictions <- call (predict model features) ;;
  if has_predict_proba model then
    probabilities <- call (predict_proba model features) ;;
    Py.ret (predictions, Some probabilities)
  else Py.ret (predictions, None)
end.

Definition detect_anomalies (features : ndarray) (model_name : string)
: meth (ndarray * option ndarray) :=
b <- get_self ;;
match Py.get (anomaly_models b) model_name with
| None =>
  Py.raise (not_found "Anomaly model '" model_name (Py.keys (anomaly_models b)))
| Some model =>
  anomaly_predictions <- call (predict model features) ;;
  if has_decision_function model then
    anomaly_scores <- call (decision_function model features) ;;
    Py.ret (anomaly_predictions, Some anomaly_scores)
  else Py.ret (anomaly_predictions, None)
end.

(** *** Artifact store *)

(** [open(path, 'wb')] followed by a dump of [content]. *)
Definition write_file (path : string) (content : File) : meth unit :=
fun st =>
if denied (fs st) path then (Raise (OSError path), st)
else (Ok tt,
      {| self := self st;
         fs := {| files := Py.set (files (fs st)) path content;
                  denied := denied (fs st) |};
         log := log st |}).

(** [joblib.load(path)] and [pickle.load(open(path, 'rb'))]. *)
Definition read_pickle (path : string) : meth Obj :=
fun st =>
match Py.get (files (fs st)) path with
| None => (Raise (FileNotFoundError path), st)
| Some (Pickle o) => (Ok o, st)
| Some Garbage => (Raise (UnpicklingError path), st)
end.

Definition classification_path (filepath_prefix name : string) : string :=
filepath_prefix ++ "_classification_" ++ name ++ ".pkl".

Definition anomaly_path (filepath_prefix name : string) : string :=
filepath_prefix ++ "_anomaly_" ++ name ++ ".pkl".

Definition performance_path (filepath_prefix : string) : string :=
filepath_prefix ++ "_performance.pkl".

(** The files after the dumps of one registry. *)
Definition written (path : string -> string) (registry : dict Obj)
(fls : dict File) : dict File :=
fold_left (fun f item => Py.set f (path (fst item)) (Pickle (snd item))) registry fls.

Definition save_models (filepath_prefix : string) : meth unit :=
Py.try_except
(b <- get_self ;;
 Py.for_each (Py.items (classification_models b))
   (fun item => write_file (classification_path filepath_prefix (fst item))
                           (Pickle (snd item))) ;;;
 Py.for_each (Py.items (anomaly_models b))
   (fun item => write_file (anomaly_path filepath_prefix (fst item))
                           (Pickle (snd item))) ;;;
 write_file (performance_path filepath_prefix) (Pickle (model_performance b)) ;;;
 logger INFO [Lit "All models saved successfully"])
(fun e => logger ERROR [Lit "Failed to save models: "; Nested (str_exn e)]).

(** A prefix that can be told apart from what [save_models] appends to
it: it has no glob metacharacter and does not contain the text
_classification or _anomaly. *)
Definition plain_prefix (filepath_prefix : string) : bool :=
PyStr.no_magic filepath_prefix
&& negb (PyStr.occurs "_classification" filepath_prefix)
&& negb (PyStr.occurs "_anomaly" filepath_prefix).

(** A model name that can be read back from its file name: it contains
neither a slash, nor .pkl, nor the separator of its kind. *)
Definition plain_name (sep name : string) : bool :=
PyStr.no_slash name && negb (PyStr.occurs sep name) && negb (PyStr.occurs ".pkl" name).

(** The order in which the directory is listed (unspecified), and the
meaning of bracket expressions in a glob pattern. *)
Variable scandir : list string -> list string.
Variable class_match : string -> ascii -> bool.

(** No file that is not about to be overwritten matches the two glob
patterns of [load_models]. *)
Definition no_stale_artifacts (filepath_prefix : string) (b : Bank)
(fls : dict File) : Prop :=
(forall p, In p (Py.keys fls) ->
PyStr.fnmatch class_match (filepath_prefix ++ "_classification_*.pkl") p = true ->
exists n, In n (Py.keys (classification_models b))
         /\ p = classification_path filepath_prefix n)
/\ (forall p, In p (Py.keys fls) ->
  PyStr.fnmatch class_match (filepath_prefix ++ "_anomaly_*.pkl") p = true ->
  exists n, In n (Py.keys (anomaly_models b))
            /\ p = anomaly_path filepath_prefix n).

(** A bank as Python can hold it: the keys of a dict are distinct. *)
Definition well_formed (b : Bank) : Prop :=
NoDup (Py.keys (classification_models b)) /\ NoDup (Py.keys (anomaly_models b)).

Definition glob_files (pattern : string) : meth (list string) :=
fun st => (Ok (PyStr.glob class_match pattern (scandir (Py.keys (files (fs st))))), st).

(** [filepath.split(sep)[1].replace('.pkl', '')] *)
Definition name_of_path (sep filepath : string) : result exn string :=
match nth_error (PyStr.split sep filepath) 1 with
| Some part => Ok (PyStr.replace ".pkl" "" part)
| None => Raise IndexError
end.

Definition load_one (sep : string) (register : string -> Obj -> meth unit)
(filepath : string) : meth unit :=
name <- call (name_of_path sep filepath) ;;
model <- read_pickle filepath ;;
register name model.

Definition load_models (filepath_prefix : string) : meth unit :=
Py.try_except
(classification_files <- glob_files (filepath_prefix ++ "_classification_*.pkl") ;;
 Py.for_each classification_files
   (load_one "_classification_" set_classification_model) ;;;
 anomaly_files <- glob_files (filepath_prefix ++ "_anomaly_*.pkl") ;;
 Py.for_each anomaly_files (load_one "_anomaly_" set_anomaly_model) ;;;
 Py.try_except
   (perf <- read_pickle (performance_path filepath_prefix) ;;
    set_model_performance perf)
   (fun e =>
      match e with
      | FileNotFoundError _ =>
          logger WARNING [Lit "Performance metrics file not found"]
      | _ => Py.raise e
      end) ;;;
 set_is_trained true ;;;
 logger INFO [Lit "All models loaded successfully"])
(fun e => logger ERROR [Lit "Failed to load models: "; Nested (str_exn e)]).

(** [get_model_summary] *)
Record Summary : Type := {
summary_classification_models : list string;
summary_anomaly_models : list string;
summary_performance : Obj;
summary_is_trained : bool
}.

Definition get_model_summary (b : Bank) : Summary :=
{| summary_classification_models := Py.keys (classification_models b);
 summary_anomaly_models := Py.keys (anomaly_models b);
 summary_performance := model_performance b;
 summary_is_trained := is_trained b |}.

End Bank.

End ModelBank.

(* ================================================================== *)
(** ** Message normalizer
    [EnhancedLogPreprocessor.clean_log_message] *)

Module Normalizer.

Open Scope char_scope.

(** The text of a message, character by character. *)
Definition str : Type := list ascii.

Definition code (c : ascii) : nat := nat_of_ascii c.

Definition in_range (lo hi : nat) (c : ascii) : bool :=
((lo <=? code c) && (code c <=? hi))%nat.

(** The character classes of [re] on ASCII text. *)
Definition is_digit (c : ascii) : bool := in_range 48 57 c.            (* \d *)
Definition is_upper (c : ascii) : bool := in_range 65 90 c.
Definition is_lower (c : ascii) : bool := in_range 97 122 c.
Definition is_alpha (c : ascii) : bool := is_upper c || is_lower c.
Definition is_word (c : ascii) : bool :=                               (* \w *)
is_alpha c || is_digit c || Ascii.eqb c "_".
Definition is_space (c : ascii) : bool :=                              (* \s *)
in_range 9 13 c || in_range 28 32 c.
Definition is_hex (c : ascii) : bool := is_digit c || in_range 97 102 c.
Definition is_char (x c : ascii) : bool := Ascii.eqb x c.
Definition one_of (chars : list ascii) (c : ascii) : bool :=
existsb (Ascii.eqb c) chars.

(** Code points below 128. *)
Definition is_ascii7 (c : ascii) : bool := (code c <? 128)%nat.

(** [str.lower()] on ASCII text: the theorems on the normalizer are
stated for messages of code points below 128, where these classes and
this lower-casing are those of Python. *)
Definition lower_char (c : ascii) : ascii :=
if is_upper c then ascii_of_nat (code c + 32) else c.
Definition lower (s : str) : str := map lower_char s.

(** *** Regular expressions

  The fragment of [re] the patterns of [clean_log_message] are written
  in: classes, counted and unbounded greedy repetition of a class,
  concatenation, alternation, and [\b]. *)
Inductive regex : Type :=
| Eps
| Cls (p : ascii -> bool)
| Many (p : ascii -> bool) (lo : nat) (hi : option nat)
| Seq (r1 r2 : regex)
| Alt (r1 r2 : regex)
| WordB.

(** A position in the subject: the character before it, if any, and the
  text from it on. *)
Definition pos : Type := (option ascii * str)%type.

Definition word_opt (c : option ascii) : bool :=
match c with Some c => is_word c | None => false end.

(** [\b]: exactly one side is a word character. *)
Definition is_boundary (prev : option ascii) (s : str) : bool :=
xorb (word_opt prev) (word_opt (hd_error s)).

Definition exhausted (hi : option nat) : bool :=
match hi with Some O => true | _ => false end.

Definition dec (hi : option nat) : option nat :=
match hi with Some n => Some (Nat.pred n) | None => None end.

(** [p{lo,hi}], greedy: the positions after each admissible number of
  characters, the longest first. *)
Fixpoint many (p : ascii -> bool) (lo : nat) (hi : option nat)
(prev : option ascii) (s : str) : list pos :=
let stop := if (lo =? 0)%nat then [(prev, s)] else [] in
match s with
| c :: t =>
    if p c && negb (exhausted hi)
    then (many p (Nat.pred lo) (dec hi) (Some c) t ++ stop)%list
    else stop
| [] => stop
end.

(** All the ways a pattern matches at a position, in the order in which
  the backtracking matcher tries them. *)
Fixpoint run (r : regex) (prev : option ascii) (s : str) : list pos :=
match r with
| Eps => [(prev, s)]
| Cls p =>
    match s with
    | c :: t => if p c then [(Some c, t)] else []
    | [] => []
    end
| Many p lo hi => many p lo hi prev s
| Seq r1 r2 => flat_map (fun q => run r2 (fst q) (snd q)) (run r1 prev s)
| Alt r1 r2 => (run r1 prev s ++ run r2 prev s)%list
| WordB => if is_boundary prev s then [(prev, s)] else []
end.

(** The match found at a position: the first way. *)
Definition match_here (r : regex) (prev : option ascii) (s : str) : option pos :=
hd_error (run r prev s).

(** [re.sub(r, repl, s)]: leftmost matches, not overlapping.  Every
  pattern below consumes at least one character, so [length s] rounds
  are enough; the character before the next search is the last one of
  the match, as the search runs on the original text. *)
Fixpoint sub_fuel (fuel : nat) (r : regex) (repl : str) (prev : option ascii)
(s : str) : str :=
match fuel with
| O => s
| S fuel' =>
    match match_here r prev s with
    | Some (prev', rest) => (repl ++ sub_fuel fuel' r repl prev' rest)%list
    | None =>
        match s with
        | [] => []
        | c :: t => c :: sub_fuel fuel' r repl (Some c) t
        end
    end
end.

Definition sub (r : regex) (repl : str) (s : str) : str :=
sub_fuel (S (List.length s)) r repl None s.

(** *** The patterns *)

Fixpoint lit (text : str) : regex :=
match text with
| [] => Eps
| c :: t => Seq (Cls (is_char c)) (lit t)
end.

Definition chr (c : ascii) : regex := Cls (is_char c).
Definition exactly (n : nat) (p : ascii -> bool) : regex := Many p n (Some n).
Definition plus (p : ascii -> bool) : regex := Many p 1 None.
Definition at_least (n : nat) (p : ascii -> bool) : regex := Many p n None.

Fixpoint seqs (rs : list regex) : regex :=
match rs with
| [] => Eps
| [r] => r
| r :: rest => Seq r (seqs rest)
end.

Fixpoint alts (r : regex) (rs : list regex) : regex :=
match rs with
| [] => r
| r' :: rest => Alt r (alts r' rest)
end.

Definition txt (s : string) : str := list_ascii_of_string s.

(** \d{4}-\d{2}-\d{2}[T\s]\d{2}:\d{2}:\d{2} *)
Definition re_timestamp : regex :=
seqs [exactly 4 is_digit; chr "-"; exactly 2 is_digit; chr "-"; exactly 2 is_digit;
      Cls (fun c => is_char "T" c || is_space c);
      exactly 2 is_digit; chr ":"; exactly 2 is_digit; chr ":"; exactly 2 is_digit].

(** \b\d+\.\d+\.\d+\.\d+\b *)
Definition re_ip : regex :=
seqs [WordB; plus is_digit; chr "."; plus is_digit; chr "."; plus is_digit;
      chr "."; plus is_digit; WordB].

(** \b[a-f0-9]{8}-[a-f0-9]{4}-[a-f0-9]{4}-[a-f0-9]{4}-[a-f0-9]{12}\b *)
Definition re_uuid : regex :=
seqs [WordB; exactly 8 is_hex; chr "-"; exactly 4 is_hex; chr "-"; exactly 4 is_hex;
      chr "-"; exactly 4 is_hex; chr "-"; exactly 12 is_hex; WordB].

(** \b\d+\b *)
Definition re_num : regex := seqs [WordB; plus is_digit; WordB].

Definition email_local (c : ascii) : bool :=
is_alpha c || is_digit c || one_of (txt "._%+-") c.
Definition email_domain (c : ascii) : bool :=
is_alpha c || is_digit c || one_of (txt ".-") c.

(** \b[a-zA-Z0-9._%+-]+@[a-zA-Z0-9.-]+\.[a-zA-Z]{2,}\b *)
Definition re_email : regex :=
seqs [WordB; plus email_local; chr "@"; plus email_domain; chr ".";
      at_least 2 is_alpha; WordB].

(** \b(user_|order_|sess_|req_|log_|client_|srv_|vol_|q_|cache_)\w+ *)
Definition re_id : regex :=
seqs [WordB;
      alts (lit (txt "user_"))
           [lit (txt "order_"); lit (txt "sess_"); lit (txt "req_");
            lit (txt "log_"); lit (txt "client_"); lit (txt "srv_");
            lit (txt "vol_"); lit (txt "q_"); lit (txt "cache_")];
      plus is_word].

(** \s+ *)
Definition re_spaces : regex := plus is_space.

(** [str.strip()] *)
Fixpoint lstrip (s : str) : str :=
match s with
| c :: t => if is_space c then lstrip t else s
| [] => []
end.

Definition rstrip (s : str) : str := List.rev (lstrip (List.rev s)).

Definition strip (s : str) : str := rstrip (lstrip s).

(** The six substitutions of lines 69-74, in order. *)
Definition substitute (message : str) : str :=
let message := sub re_timestamp (txt "[TIMESTAMP]") message in
let message := sub re_ip (txt "[IP]") message in
let message := sub re_uuid (txt "[UUID]") message in
let message := sub re_num (txt "[NUM]") message in
let message := sub re_email (txt "[EMAIL]") message in
let message := sub re_id (txt "[ID]") message in
message.

(** Line 77. *)
Definition squeeze (message : str) : str :=
strip (sub re_spaces (txt " ") message).

(** The method on a [str]. *)
Definition clean_str (message : str) : str :=
squeeze (substitute (lower message)).

(** The method on a cell of the message column: anything that is not a
  [str] gives the empty string. *)
Definition clean_log_message (message : cell) : string :=
match message with
| CStr s => string_of_list_ascii (clean_str (list_ascii_of_string s))
| CInt _ | CNaN | CNone => EmptyString
end.

(** *** Occurrences of a pattern *)

(** The positions of a text, from a position on. *)
Fixpoint positions (prev : option ascii) (s : str) : list pos :=
(prev, s) :: match s with
             | c :: t => positions (Some c) t
             | [] => []
             end.

(** [re.search(r, s) is not None], the scan starting at a position. *)
Fixpoint search_from (r : regex) (prev : option ascii) (s : str) : bool :=
match match_here r prev s with
| Some _ => true
| None =>
    match s with
    | c :: t => search_from r (Some c) t
    | [] => false
    end
end.

Definition search (r : regex) (s : str) : bool := search_from r None s.

(** One of the six patterns of lines 69-74 occurs in the message. *)
Definition volatile (message : str) : bool :=
search re_timestamp message || search re_ip message || search re_uuid message
|| search re_num message || search re_email message || search re_id message.

(** *** White space, by automata

  What [re.sub(r'\s+', ' ', s)] comes to: a run of white space becomes
  one blank. *)
Fixpoint collapse (in_run : bool) (s : str) : str :=
match s with
| [] => []
| c :: t =>
    if is_space c
    then if in_run then collapse true t else " " :: collapse true t
    else c :: collapse false t
end.

(** What line 77 comes to, [' '.join(s.split())]: the words of the text,
  one blank between two of them.  The phase tells whether a word has been
  written, and whether white space has been read since. *)
Inductive phase : Type := Start | Word | Gap.

Fixpoint join_words (ph : phase) (s : str) : str :=
match s with
| [] => []
| c :: t =>
    if is_space c
    then join_words (match ph with Start => Start | _ => Gap end) t
    else match ph with
         | Gap => " " :: c :: join_words Word t
         | _ => c :: join_words Word t
         end
end.

(** *** Texts a pattern cannot tell apart *)

(** No class of the pattern holds a white-space character. *)
Fixpoint spacefree (r : regex) : Prop :=
match r with
| Cls p | Many p _ _ => forall c, p c = true -> is_space c = false
| Seq r1 r2 | Alt r1 r2 => spacefree r1 /\ spacefree r2
| Eps | WordB => True
end.

(** Two texts with the same first word, or both at white space or at
  their end. *)
Fixpoint agree (u t : str) : Prop :=
match u, t with
| [], [] => True
| [], d :: _ => is_space d = true
| c :: _, [] => is_space c = true
| c :: u', d :: t' =>
    if is_space c then is_space d = true else c = d /\ agree u' t'
end.

Definition alike (q q' : pos) : Prop :=
word_opt (fst q) = word_opt (fst q') /\ agree (snd q) (snd q').

End Normalizer.

(* ================================================================== *)
(** ** The preprocessing pipeline
    [EnhancedLogPreprocessor]: text features, assembly, scaling, persistence *)

Module Preprocess.

Open Scope string_scope.
Open Scope py_scope.

Section Pipeline.

(** A float64 entry of a numeric array. *)
Variable num : Type.
(** The entry a cell becomes in [df[columns].values]. *)
Variable of_cell : cell -> num.

Definition matrix : Type := list (list num).

Inductive ndarray : Type :=
| Matrix (m : matrix)
| Vector (v : list cell).

(** [a.size] *)
Definition size (m : matrix) : nat := fold_right (fun row n => (List.length row + n)%nat) 0%nat m.

(** *** External libraries *)

(** pandas *)
Variable parse_cell : cell -> option Temporal.datetime.
(** Lines 230-232: the hourly ERROR counts above their 0.95 quantile,
as a 0/1 column. *)
Variable high_error_period : list Temporal.datetime -> list cell -> list cell.
(** CPython: iteration order of a set of strings. *)
Variable set_iter : list string -> list string.
(** transformers: [AutoTokenizer] and [AutoModel] loaded from a name, and
the [CLS] embeddings of one batch. *)
Variable Bert : Type.
Variable from_pretrained : string -> result exn Bert.
Variable embed_batch : Bert -> list string -> nat -> result exn matrix.
(** scikit-learn: [TfidfVectorizer(max_features, stop_words='english',
ngram_range=(1, 2), min_df=2, max_df=0.95)]. *)
Variable Tfidf : Type.
Variable tfidf_fit_transform : nat -> list string -> result exn (Tfidf * matrix).
Variable tfidf_transform : Tfidf -> list string -> result exn matrix.
(** scikit-learn: input validation of [StandardScaler.fit], and the
standardisation of [X] by the column means and variances of the data
of the fit. *)
Variable scaler_validate : matrix -> result exn unit.
Variable standardize : matrix -> matrix -> matrix.
(** scikit-learn: [train_test_split(X, y, test_size, random_state=42,
stratify=y)]. *)
Variable train_test_split :
matrix -> list cell -> num -> result exn (matrix * matrix * list cell * list cell).

(** *** The object *)

(** A [StandardScaler]: unfitted, or fitted.  [mean_], [var_], [scale_]
and [n_samples_seen_] are functions of the data of the last [fit];
that data stands for them. *)
Definition StandardScaler : Type := option matrix.

Definition n_samples_seen_ (sc : StandardScaler) : option nat :=
option_map (@List.length _) sc.

Inductive TfidfVectorizer : Type :=
| Unfitted
| Fitted (v : Tfidf).

Record Preprocessor : Type := {
bert_model_name : string;
bert : option Bert;                       (* tokenizer and bert_model *)
label_encoders : dict Encoder.LabelEncoder;
tfidf_vectorizer : option TfidfVectorizer;
scaler : StandardScaler;
use_bert : bool
}.

(** A dict pickled into preprocessor_objects.pkl: the value under each
of the five keys, [None] for a key the dict does not have. *)
Record Objects : Type := {
o_label_encoders : option (dict Encoder.LabelEncoder);
o_tfidf_vectorizer : option (option TfidfVectorizer);
o_scaler : option StandardScaler;
o_use_bert : option bool;
o_bert_model_name : option string
}.

(** [objects[key]] *)
Definition item {S A} (key : string) (value : option A) : M S exn A :=
match value with
| Some a => Py.ret a
| None => Py.raise (KeyError key)
end.

Inductive File : Type :=
| Csv (df : DataFrame)
| Npy (a : ndarray)
| PickledObjects (o : Objects).

Record State : Type := {
self : Preprocessor;
fs : FS File;
log : list log_record
}.

Definition meth (A : Type) : Type := M State exn A.

Definition logger (lv : level) (msg : fstring) : meth unit :=
Py.modify (fun st => {| self := self st; fs := fs st; log := (log st ++ [(lv, msg)])%list |}).

Definition get_self : meth Preprocessor := fun st => (Ok (self st), st).

Definition set_self (f : Preprocessor -> Preprocessor) : meth unit :=
Py.modify (fun st => {| self := f (self st); fs := fs st; log := log st |}).

Definition call {A} (r : result exn A) : meth A := fun st => (r, st).

Definition with_label_encoders (le : dict Encoder.LabelEncoder) (p : Preprocessor) :=
{| bert_model_name := bert_model_name p; bert := bert p; label_encoders := le;
 tfidf_vectorizer := tfidf_vectorizer p; scaler := scaler p; use_bert := use_bert p |}.

Definition with_tfidf_vectorizer (v : option TfidfVectorizer) (p : Preprocessor) :=
{| bert_model_name := bert_model_name p; bert := bert p;
 label_encoders := label_encoders p;
 tfidf_vectorizer := v; scaler := scaler p; use_bert := use_bert p |}.

Definition with_scaler (sc : StandardScaler) (p : Preprocessor) :=
{| bert_model_name := bert_model_name p; bert := bert p;
 label_encoders := label_encoders p;
 tfidf_vectorizer := tfidf_vectorizer p; scaler := sc; use_bert := use_bert p |}.

(** The attribute [f] of the object is as before, and the log has only
grown. *)
Definition steady {T} (f : Preprocessor -> T) (st st' : State) : Prop :=
f (self st') = f (self st) /\ (exists added, log st' = (log st ++ added)%list).

(** [__init__]: the object, and the line it logs. *)
Definition init (name : string) : Preprocessor * log_record :=
match from_pretrained name with
| Ok b =>
  ({| bert_model_name := name; bert := Some b; label_encoders := [];
      tfidf_vectorizer := None; scaler := None; use_bert := true |},
   (INFO, [Lit "BERT model '"; Interp name; Lit "' loaded successfully"]))
| Raise e =>
  ({| bert_model_name := name; bert := None; label_encoders := [];
      tfidf_vectorizer := None; scaler := None; use_bert := false |},
   (WARNING, [Lit "Failed to load BERT model: "; Nested (str_exn e);
              Lit ". Using TF-IDF instead."]))
end.

(** *** Files *)

Definition write_file (path : string) (content : File) : meth unit :=
fun st =>
if denied (fs st) path then (Raise (OSError path), st)
else (Ok tt,
      {| self := self st;
         fs := {| files := Py.set (files (fs st)) path content;
                  denied := denied (fs st) |};
         log := log st |}).

Definition read_file (path : string) : meth File :=
fun st =>
match Py.get (files (fs st)) path with
| None => (Raise (FileNotFoundError path), st)
| Some f => (Ok f, st)
end.

Definition read_csv (path : string) : meth DataFrame :=
f <- read_file path ;;
match f with
| Csv df => Py.ret df
| _ => Py.raise (LibraryError "pandas.errors.ParserError")
end.

Definition np_load (path : string) : meth ndarray :=
f <- read_file path ;;
match f with
| Npy a => Py.ret a
| _ => Py.raise (UnpicklingError path)
end.

Definition pickle_load (path : string) : meth Objects :=
f <- read_file path ;;
match f with
| PickledObjects o => Py.ret o
| _ => Py.raise (UnpicklingError path)
end.

(** *** Text features *)

Definition batch_size : nat := 32.

(** The loop of lines 124-141 over the batches; [length messages] rounds
are enough. *)
Fixpoint embed_batches (fuel : nat) (model : option Bert) (messages : list string)
(max_length : nat) : result exn matrix :=
match fuel, messages with
| O, _ | _, [] => Ok []
| S fuel', _ :: _ =>
  match model with
  | None => Raise (LibraryError "TypeError: 'NoneType' object is not callable")
  | Some b =>
      match embed_batch b (firstn batch_size messages) max_length with
      | Raise e => Raise e
      | Ok batch_embeddings =>
          match embed_batches fuel' model (skipn batch_size messages) max_length with
          | Ok more => Ok (batch_embeddings ++ more)%list
          | Raise e => Raise e
          end
      end
  end
end.

Definition get_bert_embeddings (messages : list string) (max_length : nat)
: meth matrix :=
p <- get_self ;;
if negb (use_bert p) then
logger WARNING [Lit "BERT model not available"] ;;;
Py.ret []
else
logger INFO [Lit "Generating BERT embeddings for "; InterpNum "len(messages)";
             Lit " messages"] ;;;
call (embed_batches (List.length messages) (bert p) messages max_length).

Definition get_tfidf_features (messages : list string) (max_features : nat)
: meth matrix :=
p <- get_self ;;
match tfidf_vectorizer p with
| None =>
  set_self (with_tfidf_vectorizer (Some Unfitted)) ;;;
  r <- call (tfidf_fit_transform max_features messages) ;;
  set_self (with_tfidf_vectorizer (Some (Fitted (fst r)))) ;;;
  Py.ret (snd r)
| Some Unfitted => Py.raise (LibraryError "sklearn.exceptions.NotFittedError")
| Some (Fitted v) => call (tfidf_transform v messages)
end.

(** *** Feature assembly *)

Definition encode_categorical_features (df : DataFrame)
(categorical_columns : list string) : meth DataFrame :=
fun st =>
let (r, le) := Encoder.encode_categorical_features set_iter df categorical_columns
                 (label_encoders (self st)) in
(r, {| self := with_label_encoders le (self st); fs := fs st; log := log st |}).

(** [len(df)] *)
Definition len_df (df : DataFrame) : nat :=
match df with
| [] => O
| (_, column) :: _ => List.length column
end.

Definition isna (c : cell) : bool :=
match c with CNaN | CNone => true | _ => false end.

Definition detect_anomalous_patterns (df : DataFrame) : result exn DataFrame :=
let anomaly_df :=
Py.set df "is_anomaly"
  match Py.get df "anomaly_type" with
  | Some column => map (fun c => Temporal.astype_int (negb (isna c))) column
  | None => repeat (CInt 0) (len_df df)
  end in
match Py.get df "timestamp" with
| None => Ok anomaly_df
| Some timestamps =>
  match Temporal.to_datetime parse_cell timestamps with
  | Raise e => Raise e
  | Ok dt_series =>
      let anomaly_df :=
        Py.set anomaly_df "unusual_timing" (map Temporal.is_night dt_series) in
      match Py.get df "level" with
      | Some levels =>
          Ok (Py.set anomaly_df "high_error_period"
                (high_error_period dt_series levels))
      | None => Ok anomaly_df
      end
  end
end.

(** [pd.concat([df, temporal_features], axis=1)] *)
Definition concat_temporal (df : DataFrame) (t : Temporal.TemporalFeatures)
: DataFrame :=
(df ++ [ ("hour", Temporal.col_hour t);
       ("day_of_week", Temporal.col_day_of_week t);
       ("is_weekend", Temporal.col_is_weekend t);
       ("is_business_hours", Temporal.col_is_business_hours t);
       ("is_night", Temporal.col_is_night t) ])%list.

Definition present (df : DataFrame) (cols : list string) : list string :=
filter (Py.contains df) cols.

(** [df[feature_columns].values] *)
Definition values (df : DataFrame) (feature_columns : list string) : matrix :=
let columns :=
map (fun c => match Py.get df c with Some column => column | None => [] end)
    feature_columns in
map (fun i => map (fun column => of_cell (nth i column CNaN)) columns)
  (seq 0 (len_df df)).

(** [np.hstack([a, b])] *)
Fixpoint zip_rows (a b : matrix) : matrix :=
match a, b with
| ra :: a', rb :: b' => (ra ++ rb)%list :: zip_rows a' b'
| _, _ => []
end.

Definition hstack (a b : matrix) : result exn matrix :=
if (List.length a =? List.length b)%nat then Ok (zip_rows a b)
else Raise (ValueError [Lit "all the input array dimensions except for the concatenation axis must match exactly"]).

(** [self.scaler.fit_transform(X)]: [fit] resets the scaler, validates
the input and computes the statistics of [X]. *)
Definition scaler_fit_transform (X : matrix) : meth matrix :=
set_self (with_scaler None) ;;;
call (scaler_validate X) ;;;
set_self (with_scaler (Some X)) ;;;
Py.ret (standardize X X).

Definition cell_text (c : cell) : string :=
match c with CStr s => s | _ => str_cell c end.

(** Lines 300-313: the text features and the combined matrix. *)
Definition text_features (use_bert_arg : bool) (messages : list string)
(X_basic : matrix) : meth matrix :=
p <- get_self ;;
if use_bert_arg && use_bert p then
logger INFO [Lit "Using BERT embeddings for text features"] ;;;
text <- get_bert_embeddings messages 128 ;;
if (0 <? size text)%nat then call (hstack X_basic text)
else
  logger WARNING [Lit "BERT embeddings failed, falling back to TF-IDF"] ;;;
  text <- get_tfidf_features messages 1000 ;;
  call (hstack X_basic text)
else
logger INFO [Lit "Using TF-IDF features for text"] ;;;
text <- get_tfidf_features messages 1000 ;;
call (hstack X_basic text).

Definition save_processed_data (X_train X_test : matrix) (y_train y_test : list cell)
(df : DataFrame) : meth unit :=
write_file "X_train_enhanced.npy" (Npy (Matrix X_train)) ;;;
write_file "X_test_enhanced.npy" (Npy (Matrix X_test)) ;;;
write_file "y_train_enhanced.npy" (Npy (Vector y_train)) ;;;
write_file "y_test_enhanced.npy" (Npy (Vector y_test)) ;;;
p <- get_self ;;
write_file "preprocessor_objects.pkl"
(PickledObjects {| o_label_encoders := Some (label_encoders p);
                   o_tfidf_vectorizer := Some (tfidf_vectorizer p);
                   o_scaler := Some (scaler p);
                   o_use_bert := Some (use_bert p);
                   o_bert_model_name := Some (bert_model_name p) |}) ;;;
write_file "logs_enhanced_processed.csv" (Csv df) ;;;
logger INFO [Lit "Processed data saved successfully"].

Definition reraise_not_found {A} (msg : fstring) (body : meth A) : meth A :=
Py.try_except body
(fun e =>
   match e with
   | FileNotFoundError _ => logger ERROR msg ;;; Py.raise e
   | _ => Py.raise e
   end).

Definition preprocess_logs (file_path : string) (use_bert_arg : bool)
(test_size : num) (save_processed : bool)
: meth (matrix * matrix * list cell * list cell) :=
logger INFO [Lit "Starting log preprocessing from '"; Interp file_path; Lit "'"] ;;;
df <- reraise_not_found [Lit "File '"; Interp file_path; Lit "' not found"]
      (df <- read_csv file_path ;;
       logger INFO [Lit "Loaded "; InterpNum "len(df)"; Lit " log entries"] ;;;
       Py.ret df) ;;
df <- match Py.get df "message" with
    | Some column =>
        Py.ret (Py.set df "cleaned_message"
                  (map (fun c => CStr (Normalizer.clean_log_message c)) column))
    | None =>
        logger ERROR [Lit "No 'message' column found in the data"] ;;;
        Py.raise (ValueError [Lit "Missing 'message' column"])
    end ;;
df <- match Py.get df "timestamp" with
    | Some timestamps =>
        t <- call (Temporal.extract_temporal_features parse_cell timestamps) ;;
        Py.ret (concat_temporal df t)
    | None => Py.ret df
    end ;;
df <- call (detect_anomalous_patterns df) ;;
let categorical_columns := ["level"; "source"] in
df <- encode_categorical_features df categorical_columns ;;
let temporal_cols :=
["hour"; "day_of_week"; "is_weekend"; "is_business_hours"; "is_night"] in
let encoded_cols := present df (map Encoder.encoded_name categorical_columns) in
let anomaly_cols := ["unusual_timing"; "high_error_period"] in
let feature_columns :=
(present df temporal_cols ++ encoded_cols ++ present df anomaly_cols)%list in
let X_basic := values df feature_columns in
messages <- match Py.get df "cleaned_message" with
          | Some column => Py.ret (map cell_text column)
          | None => Py.raise (KeyError "cleaned_message")
          end ;;
X_combined <- text_features use_bert_arg messages X_basic ;;
y <- (if Py.contains df "level" then
      match Py.get df "level_encoded" with
      | Some column => Py.ret column
      | None => Py.raise (KeyError "level_encoded")
      end
    else
      logger ERROR [Lit "No target variable found"] ;;;
      Py.raise (ValueError [Lit "Missing target variable"])) ;;
X_scaled <- scaler_fit_transform X_combined ;;
parts <- call (train_test_split X_scaled y test_size) ;;
let '(X_train, X_test, y_train, y_test) := parts in
logger INFO [Lit "Training set: "; InterpNum "X_train.shape"; Lit ", Test set: ";
           InterpNum "X_test.shape"] ;;;
(if save_processed then save_processed_data X_train X_test y_train y_test df
else Py.ret tt) ;;;
Py.ret (X_train, X_test, y_train, y_test).

Definition load_processed_data : meth (ndarray * ndarray * ndarray * ndarray) :=
reraise_not_found [Lit "No processed data found. Please run preprocessing first."]
(X_train <- np_load "X_train_enhanced.npy" ;;
 X_test <- np_load "X_test_enhanced.npy" ;;
 y_train <- np_load "y_train_enhanced.npy" ;;
 y_test <- np_load "y_test_enhanced.npy" ;;
 objects <- pickle_load "preprocessor_objects.pkl" ;;
 encoders <- item "label_encoders" (o_label_encoders objects) ;;
 set_self (with_label_encoders encoders) ;;;
 vectorizer <- item "tfidf_vectorizer" (o_tfidf_vectorizer objects) ;;
 set_self (with_tfidf_vectorizer vectorizer) ;;;
 fitted_scaler <- item "scaler" (o_scaler objects) ;;
 set_self (with_scaler fitted_scaler) ;;;
 logger INFO [Lit "Processed data loaded successfully"] ;;;
 Py.ret (X_train, X_test, y_train, y_test)).

End Pipeline.

End Preprocess.

(* ================================================================== *)
(** ** Detectors and evaluation
    [EnhancedLogAnalysisModel.train_anomaly_detection_models],
    [evaluate_classification_models], [evaluate_anomaly_models] *)

Module ModelEvaluation.

Import ModelBank.

Open Scope string_scope.
Open Scope py_scope.

Definition IsolationForest (kw : list (string * pval)) : Estimator :=
{| cls := "IsolationForest"; kwargs := kw |}.
Definition OneClassSVM (kw : list (string * pval)) : Estimator :=
{| cls := "OneClassSVM"; kwargs := kw |}.

(** The two detectors of lines 125-136, in dict order. *)
Definition configured_detectors : dict Estimator :=
[ ("isolation_forest",
 IsolationForest
   [("contamination", PFloat "0.1"); ("random_state", PInt 42); ("n_jobs", PInt (-1))]);
("one_class_svm",
 OneClassSVM [("nu", PFloat "0.1"); ("kernel", PStr "rbf"); ("gamma", PStr "scale")]) ].

Section Evaluation.

Variable ndarray : Type.
Variable Obj : Type.

(** *** scikit-learn and numpy *)

(** [model.fit(X)] of a detector. *)
Variable fit_detector : Estimator -> ndarray -> result exn Obj.
Variable predict : Obj -> ndarray -> result exn ndarray.
Variable has_predict_proba : Obj -> bool.
Variable predict_proba : Obj -> ndarray -> result exn ndarray.
Variable has_decision_function : Obj -> bool.
Variable decision_function : Obj -> ndarray -> result exn ndarray.
(** [sklearn.metrics], each called as [metric(y_test, y_pred)];
[precision_recall_fscore_support] with average='weighted' gives
precision, recall and F1 (the fourth component is dropped by the code),
[roc_auc_score] is called with the probabilities. *)
Variable accuracy_score : ndarray -> ndarray -> result exn ndarray.
Variable precision_recall_fscore_support :
ndarray -> ndarray -> result exn (ndarray * ndarray * ndarray).
Variable roc_auc_score : ndarray -> ndarray -> result exn ndarray.
Variable confusion_matrix : ndarray -> ndarray -> result exn ndarray.
Variable classification_report : ndarray -> ndarray -> result exn Obj.
(** [np.sum(a == -1) / len(a)] and [np.sum(a == -1)]: numpy arithmetic,
which gives nan on an empty array and does not raise. *)
Variable anomaly_ratio : ndarray -> ndarray.
Variable num_anomalies : ndarray -> ndarray.

(** *** train_anomaly_detection_models *)

(** The record of line 152. *)
Definition detector_failure (name : string) (e : exn) : log_record :=
(ERROR, [Lit "Failed to train "; Interp name; Lit ": "; Nested (str_exn e)]).

(** One round of the loop, lines 139-152. *)
Definition train_detector (X_train : ndarray) (item : string * Estimator)
: meth Obj unit :=
let (name, model) := item in
logger INFO [Lit "Training "; Interp name; Lit "..."] ;;;
Py.try_except
(fitted <- call (fit_detector model X_train) ;;
 set_anomaly_model name fitted ;;;
 if has_decision_function fitted then
   _ <- call (decision_function fitted X_train) ;;
   logger INFO [Interp name; Lit " - Detected "; InterpNum "anomaly_ratio";
                Lit " anomalies in training data"]
 else Py.ret tt)
(fun e => logger (fst (detector_failure name e)) (snd (detector_failure name e))).

Definition train_anomaly_detection_models (X_train : ndarray) : meth Obj (dict Obj) :=
logger INFO [Lit "Training anomaly detection models..."] ;;;
Py.for_each (Py.items configured_detectors) (train_detector X_train) ;;;
b <- @get_self Obj ;;
Py.ret (anomaly_models b).

(** *** evaluate_classification_models *)

(** An entry of the performance dict: the metrics of lines 192-200, or
the [{'error': str(e)}] of line 206. *)
Inductive performance_entry : Type :=
| Metrics (accuracy precision recall f1_score : ndarray) (auc : option ndarray)
        (confusion : ndarray) (report : Obj)
| EvaluationError (error : fstring).

Definition evaluation_failure (name : string) (e : exn) : log_record :=
(ERROR, [Lit "Failed to evaluate "; Interp name; Lit ": "; Nested (str_exn e)]).

(** Lines 184-190: the inner [try], whose bare [except] gives [None]. *)
Definition auc_of (y_test : ndarray) (y_pred_proba : option ndarray)
: meth Obj (option ndarray) :=
Py.try_except
(match y_pred_proba with
 | Some proba => auc <- call (roc_auc_score y_test proba) ;; Py.ret (Some auc)
 | None => Py.ret None
 end)
(fun _ => Py.ret None).

(** One round of the loop, lines 172-206: the entry stored under the
name of the model. *)
Definition evaluate_classifier (X_test y_test : ndarray) (item : string * Obj)
: meth Obj performance_entry :=
let (name, model) := item in
logger INFO [Lit "Evaluating "; Interp name; Lit "..."] ;;;
Py.try_except
(y_pred <- call (predict model X_test) ;;
 y_pred_proba <- (if has_predict_proba model then
                    proba <- call (predict_proba model X_test) ;; Py.ret (Some proba)
                  else Py.ret None) ;;
 accuracy <- call (accuracy_score y_test y_pred) ;;
 prf <- call (precision_recall_fscore_support y_test y_pred) ;;
 let '(precision, recall, f1) := prf in
 auc <- auc_of y_test y_pred_proba ;;
 confusion <- call (confusion_matrix y_test y_pred) ;;
 report <- call (classification_report y_test y_pred) ;;
 logger INFO [Interp name; Lit " - Accuracy: "; InterpNum "accuracy"; Lit ", F1: ";
              InterpNum "f1"] ;;;
 Py.ret (Metrics accuracy precision recall f1 auc confusion report))
(fun e =>
   logger (fst (evaluation_failure name e)) (snd (evaluation_failure name e)) ;;;
   Py.ret (EvaluationError (str_exn e))).

(** [for name, model in registry.items(): results[name] = entry]. *)
Fixpoint evaluate_each {R} (evaluate : string * Obj -> meth Obj R)
(registry : list (string * Obj)) (results : dict R) : meth Obj (dict R) :=
match registry with
| [] => Py.ret results
| item :: rest =>
  entry <- evaluate item ;;
  evaluate_each evaluate rest (Py.set results (fst item) entry)
end.

(** The performance dict as the object stored in [self.model_performance]. *)
Variable as_object : dict performance_entry -> Obj.

Definition evaluate_classification_models (X_test y_test : ndarray)
: meth Obj (dict performance_entry) :=
logger INFO [Lit "Evaluating classification models..."] ;;;
b <- @get_self Obj ;;
performance <- evaluate_each (evaluate_classifier X_test y_test)
               (Py.items (classification_models b)) [] ;;
set_model_performance (as_object performance) ;;;
Py.ret performance.

(** *** evaluate_anomaly_models *)

Inductive anomaly_entry : Type :=
| Detection (anomaly_predictions : ndarray) (anomaly_scores : option ndarray)
          (ratio : ndarray) (num : ndarray)
| DetectionError (error : fstring).

Definition evaluate_detector (X_test : ndarray) (item : string * Obj)
: meth Obj anomaly_entry :=
let (name, model) := item in
logger INFO [Lit "Evaluating "; Interp name; Lit "..."] ;;;
Py.try_except
(anomaly_pred <- call (predict model X_test) ;;
 anomaly_scores <- (if has_decision_function model then
                      scores <- call (decision_function model X_test) ;;
                      Py.ret (Some scores)
                    else Py.ret None) ;;
 logger INFO [Interp name; Lit " - Detected "; InterpNum "anomaly_ratio";
              Lit " anomalies in test data"] ;;;
 Py.ret (Detection anomaly_pred anomaly_scores (anomaly_ratio anomaly_pred)
           (num_anomalies anomaly_pred)))
(fun e =>
   logger (fst (evaluation_failure name e)) (snd (evaluation_failure name e)) ;;;
   Py.ret (DetectionError (str_exn e))).

Definition evaluate_anomaly_models (X_test : ndarray) : meth Obj (dict anomaly_entry) :=
logger INFO [Lit "Evaluating anomaly detection models..."] ;;;
b <- @get_self Obj ;;
evaluate_each (evaluate_detector X_test) (Py.items (anomaly_models b)) [].

End Evaluation.

End ModelEvaluation.

(* ================================================================== *)
(** ** The processed data, read by the model trainer
    [EnhancedLogAnalysisModel.load_processed_data] *)

Module ProcessedData.

Import Preprocess.

Open Scope string_scope.
Open Scope py_scope.

Section Trainer.

Variable num : Type.
Variable Tfidf : Type.
Variable Obj : Type.

(** The [EnhancedLogAnalysisModel] object: the four attributes of the
bank and [label_encoders]. *)
Record Model : Type := {
bank : ModelBank.Bank Obj;
label_encoders : dict Encoder.LabelEncoder
}.

Record State : Type := {
self : Model;
fs : FS (File num Tfidf);
log : list log_record
}.

Definition meth (A : Type) : Type := M State exn A.

Definition logger (lv : level) (msg : fstring) : meth unit :=
Py.modify (fun st => {| self := self st; fs := fs st; log := (log st ++ [(lv, msg)])%list |}).

Definition set_label_encoders (le : dict Encoder.LabelEncoder) : meth unit :=
Py.modify (fun st => {| self := {| bank := bank (self st); label_encoders := le |};
                      fs := fs st; log := log st |}).

Definition read_file (path : string) : meth (File num Tfidf) :=
fun st =>
match Py.get (files (fs st)) path with
| None => (Raise (FileNotFoundError path), st)
| Some f => (Ok f, st)
end.

Definition np_load (path : string) : meth (ndarray num) :=
f <- read_file path ;;
match f with
| Npy _ a => Py.ret a
| _ => Py.raise (UnpicklingError path)
end.

Definition pickle_load (path : string) : meth (Objects num Tfidf) :=
f <- read_file path ;;
match f with
| PickledObjects o => Py.ret o
| _ => Py.raise (UnpicklingError path)
end.

(** Lines 39-57. *)
Definition load_processed_data
: meth (ndarray num * ndarray num * ndarray num * ndarray num) :=
Py.try_except
(X_train <- np_load "X_train_enhanced.npy" ;;
 X_test <- np_load "X_test_enhanced.npy" ;;
 y_train <- np_load "y_train_enhanced.npy" ;;
 y_test <- np_load "y_test_enhanced.npy" ;;
 objects <- pickle_load "preprocessor_objects.pkl" ;;
 encoders <- item "label_encoders" (o_label_encoders objects) ;;
 set_label_encoders encoders ;;;
 logger INFO [Lit "Processed data loaded successfully"] ;;;
 Py.ret (X_train, X_test, y_train, y_test))
(fun e =>
 match e with
 | FileNotFoundError _ =>
     logger ERROR [Lit "No processed data found. Please run preprocessing first."] ;;;
     Py.raise e
 | _ => Py.raise e
 end).

End Trainer.

End ProcessedData.

(* ================================================================== *)
(** ** Concrete runs

    Instances of the library parameters on which the methods can be
    evaluated. *)

Module BankRun.

Import ModelBank.
Open Scope string_scope.

(** Arrays are lists of integers; a fitted estimator is known by the name
  of its class. *)
Definition ndarray : Type := list Z.
Definition Obj : Type := string.

Definition fit_all (est : Estimator) (X y : ndarray) : result exn Obj :=
Ok (cls est).

(** [LogisticRegression.fit] raises; the other two fit. *)
Definition fit_but_logistic (est : Estimator) (X y : ndarray) : result exn Obj :=
if String.eqb (cls est) "LogisticRegression"
then Raise (ValueError [Lit "This solver needs samples of at least 2 classes in the data"])
else Ok (cls est).

Definition cross_val_score (model : Obj) (X y : ndarray) : result exn ndarray :=
Ok [1; 1; 1; 1; 1]%Z.

Definition grid_search_fit (base : Estimator) (grid : list (string * list pval))
(X y : ndarray) : result exn (list (string * pval) * ndarray * Obj) :=
Ok (map (fun p => (fst p, hd PNone (snd p))) grid, [1]%Z, cls base).

Definition predict (model : Obj) (features : ndarray) : result exn ndarray :=
Ok (map (fun _ => 0%Z) features).

Definition has_method (model : Obj) : bool := true.

Definition no_class (stuff : string) (c : ascii) : bool := false.

Definition listing (paths : list string) : list string := paths.

Definition empty_fs : FS (File Obj) := {| files := []; denied := fun _ => false |}.

Definition fresh : State Obj :=
{| self := init "{}"; fs := empty_fs; log := [] |}.

Definition X : ndarray := [1; 2; 3]%Z.
Definition y : ndarray := [0; 1; 0]%Z.

(** A bank with three classifiers, two detectors and a report. *)
Definition trained : State Obj :=
{| self := {| classification_models :=
                [("random_forest", "RandomForestClassifier");
                 ("logistic_regression", "LogisticRegression");
                 ("mlp_classifier", "MLPClassifier")];
              anomaly_models :=
                [("isolation_forest", "IsolationForest");
                 ("one_class_svm", "OneClassSVM")];
              model_performance := "{'random_forest': {'accuracy': 0.9}}";
              is_trained := false |};
   fs := empty_fs;
   log := [] |}.

(** The same bank next to a file left by an earlier run. *)
Definition trained_beside_old_file : State Obj :=
{| self := self trained;
   fs := {| files := [("enhanced_models_classification_svc.pkl", Pickle "SVC")];
            denied := fun _ => false |};
   log := [] |}.

(** A bank that holds a logistic regression fitted by an earlier call. *)
Definition trained_last_week : State Obj :=
{| self := {| classification_models :=
                [("logistic_regression", "LogisticRegression of last week")];
              anomaly_models := [];
              model_performance := "{}";
              is_trained := false |};
   fs := empty_fs;
   log := [] |}.

(** Detectors: both fit; scoring the training data fails for the
  one-class SVM. *)
Definition fit_detector (est : Estimator) (X : ndarray) : result exn Obj :=
Ok (cls est).

Definition decision_function_but_svm (model : Obj) (X : ndarray) : result exn ndarray :=
if String.eqb model "OneClassSVM"
then Raise (LibraryError "MemoryError")
else Ok (map (fun _ => 1%Z) X).

(** Metrics: every one returns, except that the area under the curve is
  not defined when the test labels hold one class. *)
Definition metric (y_true y_pred : ndarray) : result exn ndarray := Ok [1]%Z.

Definition precision_recall_fscore_support (y_true y_pred : ndarray)
: result exn (ndarray * ndarray * ndarray) :=
Ok ([1], [1], [1])%Z.

Definition roc_auc_undefined (y_true y_score : ndarray) : result exn ndarray :=
Raise (ValueError [Lit "Only one class present in y_true. ROC AUC score is not defined in that case."]).

Definition classification_report (y_true y_pred : ndarray) : result exn Obj :=
Ok "{'accuracy': 1.0}".

(** [predict] fails for the multi-layer perceptron. *)
Definition predict_but_mlp (model : Obj) (features : ndarray) : result exn ndarray :=
if String.eqb model "MLPClassifier"
then Raise (ValueError [Lit "X has 3 features, but MLPClassifier is expecting 12 features as input."])
else Ok (map (fun _ => 0%Z) features).

Definition as_object (performance : dict (ModelEvaluation.performance_entry ndarray Obj))
: Obj := "{...}".

Definition count (a : ndarray) : ndarray := [Z.of_nat (List.length a)].

(** The grid search runs out of memory. *)
Definition grid_search_fails (base : Estimator) (grid : list (string * list pval))
(X y : ndarray) : result exn (list (string * pval) * ndarray * Obj) :=
Raise (LibraryError "MemoryError").

(** Five folds cannot be cut out of three samples. *)
Definition cross_val_too_few (model : Obj) (X y : ndarray) : result exn ndarray :=
Raise (ValueError [Lit "Cannot have number of splits n_splits=5 greater than the number of samples: n_samples=3."]).

(** A directory in which nothing can be written. *)
Definition read_only : State Obj :=
{| self := self trained;
   fs := {| files := []; denied := fun _ => true |};
   log := [] |}.

(** A directory in which only the performance report cannot be written. *)
Definition report_locked : State Obj :=
{| self := self trained;
   fs := {| files := [];
            denied := fun path => String.eqb path "enhanced_models_performance.pkl" |};
   log := [] |}.

End BankRun.

Module PipelineRun.

Import Preprocess.
Open Scope string_scope.

(** Array entries are integers.  The stand-ins below keep the shape of what
  the libraries return (one row per message, one row per record) and raise
  where the libraries raise; the numbers in the rows are not those of the
  libraries. *)
Definition num : Type := Z.

Definition of_cell (c : cell) : num :=
match c with CInt z => z | _ => 0%Z end.

Definition high_error_period (dt_series : list Temporal.datetime) (levels : list cell)
: list cell :=
map (fun _ => CInt 0) dt_series.

Definition Bert : Type := unit.

Definition model_missing (name : string) : result exn Bert :=
Raise (OSError name).

Definition model_present (name : string) : result exn Bert := Ok tt.

Definition message_length (m : string) : list num := [Z.of_nat (String.length m)].

Definition embed_batch (b : Bert) (batch : list string) (max_length : nat)
: result exn (list (list num)) :=
Ok (map message_length batch).

(** The vectorizer of line 156 on short log messages: lower-cased tokens
  of two word characters or more, English stop words dropped, single
  terms and pairs of neighbours, a term kept when it occurs in at least
  two documents and in at most 95 percent of them, at most
  [max_features] terms, the vocabulary in sorted order.  A fitted
  vectorizer is known by its vocabulary.  The entries of the matrix are
  the counts of the terms: they are zero where the weights of the library
  are zero, and the checks and errors are those of the library. *)
Definition Tfidf : Type := list string.

(** Some of the library's English stop words. *)
Definition stop_words : list string :=
["a"; "about"; "above"; "across"; "after"; "again"; "against"; "all"; "almost"; "alone";
 "along"; "already"; "also"; "although"; "always"; "am"; "among"; "an"; "and"; "another";
 "any"; "anyone"; "anything"; "are"; "around"; "as"; "at"; "back"; "be"; "became";
 "because"; "become"; "been"; "before"; "behind"; "being"; "below"; "beside"; "between";
 "both"; "but"; "by"; "can"; "cannot"; "could"; "do"; "done"; "down"; "during"; "each";
 "either"; "else"; "even"; "ever"; "every"; "few"; "first"; "for"; "from"; "further";
 "get"; "give"; "go"; "had"; "has"; "have"; "he"; "her"; "here"; "him"; "his"; "how";
 "however"; "if"; "in"; "into"; "is"; "it"; "its"; "last"; "least"; "less"; "made";
 "many"; "may"; "me"; "more"; "most"; "much"; "must"; "my"; "never"; "next"; "no";
 "nobody"; "none"; "nor"; "not"; "nothing"; "now"; "of"; "off"; "often"; "on"; "once";
 "one"; "only"; "onto"; "or"; "other"; "others"; "our"; "out"; "over"; "own"; "per";
 "perhaps"; "please"; "put"; "rather"; "same"; "see"; "seem"; "several"; "she"; "should";
 "since"; "so"; "some"; "still"; "such"; "take"; "than"; "that"; "the"; "their"; "them";
 "then"; "there"; "these"; "they"; "this"; "those"; "though"; "through"; "to"; "too";
 "under"; "until"; "up"; "upon"; "us"; "very"; "via"; "was"; "we"; "well"; "were";
 "what"; "when"; "where"; "whether"; "which"; "while"; "who"; "whom"; "whose"; "why";
 "will"; "with"; "within"; "without"; "would"; "yet"; "you"; "your"].

Definition is_stop_word (w : string) : bool := existsb (String.eqb w) stop_words.

(** The maximal runs of word characters of a text, lower-cased. *)
Fixpoint word_runs (s : list ascii) (run : list ascii) : list (list ascii) :=
match s with
| [] => [List.rev run]
| c :: rest =>
  if Normalizer.is_word c then word_runs rest (Normalizer.lower_char c :: run)
  else List.rev run :: word_runs rest []
end.

Definition tokens (document : string) : list string :=
filter (fun w => negb (is_stop_word w))
(map string_of_list_ascii
   (filter (fun run => (2 <=? List.length run)%nat)
      (word_runs (list_ascii_of_string document) []))).

Fixpoint pairs (words : list string) : list string :=
match words with
| a :: (b :: _) as rest => (a ++ " " ++ b) :: pairs rest
| _ => []
end.

(** The terms of a document, with repetitions. *)
Definition terms (document : string) : list string :=
let words := tokens document in (words ++ pairs words)%list.

Definition occurrences (term : string) (l : list string) : nat :=
count_occ string_dec l term.

Definition has_term (term : string) (l : list string) : bool :=
existsb (String.eqb term) l.

(** The number of documents that hold a term. *)
Definition document_frequency (docs : list (list string)) (term : string) : nat :=
List.length (filter (has_term term) docs).

(** The number of occurrences of a term in all documents. *)
Definition term_frequency (docs : list (list string)) (term : string) : nat :=
list_sum (map (occurrences term) docs).

(** The first [limit] terms by decreasing frequency. *)
Fixpoint insert_by (weight : string -> nat) (term : string) (l : list string)
: list string :=
match l with
| [] => [term]
| x :: rest =>
  if (weight x <? weight term)%nat then term :: l else x :: insert_by weight term rest
end.

Definition most_frequent (weight : string -> nat) (limit : nat) (l : list string)
: list string :=
firstn limit (fold_left (fun acc term => insert_by weight term acc) l []).

Definition count_matrix (vocabulary : list string) (docs : list (list string))
: list (list num) :=
map (fun doc => map (fun term => Z.of_nat (occurrences term doc)) vocabulary) docs.

Definition tfidf_fit_transform (max_features : nat) (messages : list string)
: result exn (Tfidf * list (list num)) :=
let docs := map terms messages in
let all_terms := Encoder.sorted_unique (List.concat docs) in
let n_doc := List.length docs in
match all_terms with
| [] => Raise (ValueError [Lit "empty vocabulary; perhaps the documents only contain stop words"])
| _ :: _ =>
  if (95 * n_doc <? 200)%nat
  then Raise (ValueError [Lit "max_df corresponds to < documents than min_df"])
  else
    let kept :=
      filter (fun term =>
                let df := document_frequency docs term in
                (2 <=? df)%nat && (100 * df <=? 95 * n_doc)%nat) all_terms in
    let kept :=
      if (max_features <? List.length kept)%nat
      then Encoder.sorted_unique (most_frequent (term_frequency docs) max_features kept)
      else kept in
    match kept with
    | [] => Raise (ValueError [Lit "After pruning, no terms remain. Try a lower min_df or a higher max_df."])
    | _ :: _ => Ok (kept, count_matrix kept docs)
    end
end.

Definition tfidf_transform (v : Tfidf) (messages : list string)
: result exn (list (list num)) :=
Ok (count_matrix v (map terms messages)).

Definition scaler_validate (X : list (list num)) : result exn unit := Ok tt.

Definition standardize (fit_data X : list (list num)) : list (list num) := X.

(** [train_test_split(X, y, test_size, random_state=42, stratify=y)] for
  an integer [test_size], the number of test rows.  The checks and the
  number of rows of each class in the two parts are those of the library.
  Which rows of a class the library draws, and in which order it returns
  them, is its random choice: this stand-in takes the first rows of a
  class for training and keeps the order of the file. *)
Definition class_counts (labels : list string) : list (string * nat) :=
map (fun c => (c, count_occ string_dec labels c)) (Encoder.sorted_unique labels).

(** The position of the largest entry, the first one among equals. *)
Fixpoint argmax (l : list nat) : nat :=
match l with
| [] => O
| x :: rest =>
  if forallb (fun z => (z <=? x)%nat) rest then O else S (argmax rest)
end.

Fixpoint add_at (i : nat) (l : list nat) : list nat :=
match i, l with
| O, x :: rest => S x :: rest
| S i', x :: rest => x :: add_at i' rest
| _, [] => []
end.

Fixpoint clear_at (i : nat) (l : list nat) : list nat :=
match i, l with
| O, _ :: rest => O :: rest
| S i', x :: rest => x :: clear_at i' rest
| _, [] => []
end.

Fixpoint add_largest (need : nat) (remainders draws : list nat) : list nat :=
match need with
| O => draws
| S need' =>
  let i := argmax remainders in
  add_largest need' (clear_at i remainders) (add_at i draws)
end.

(** The number of draws from each class, in proportion to its size. *)
Definition approximate_mode (counts : list nat) (n_draws : nat) : list nat :=
let total := list_sum counts in
let floored := map (fun c => (c * n_draws / total)%nat) counts in
let remainders := map (fun c => ((c * n_draws) mod total)%nat) counts in
add_largest (n_draws - list_sum floored) remainders floored.

(** Row by row: training while the class has training rows left, then
  test. *)
Fixpoint deal {A} (rows : list (A * string)) (train_left test_left : list (string * nat))
: list A * list A :=
match rows with
| [] => ([], [])
| (row, label) :: rest =>
  match Py.get train_left label, Py.get test_left label with
  | Some (S k), _ =>
      let (train, test) := deal rest (Py.set train_left label k) test_left in
      (row :: train, test)
  | _, Some (S k) =>
      let (train, test) := deal rest train_left (Py.set test_left label k) in
      (train, row :: test)
  | _, _ => deal rest train_left test_left
  end
end.

Definition train_test_split (X : list (list num)) (y : list cell) (test_size : num)
: result exn (list (list num) * list (list num) * list cell * list cell) :=
let n := List.length X in
let labels := map str_cell y in
let classes := class_counts labels in
let n_test := Z.to_nat test_size in
let n_train := (n - n_test)%nat in
if negb (n =? List.length y)%nat
then Raise (ValueError [Lit "Found input variables with inconsistent numbers of samples"])
else if (test_size <=? 0)%Z || (Z.of_nat n <=? test_size)%Z
then Raise (ValueError [Lit "test_size should be positive and smaller than the number of samples"])
else if existsb (fun c => (snd c <? 2)%nat) classes
then Raise (ValueError [Lit "The least populated class in y has only 1 member, which is too few."])
else if (n_train <? List.length classes)%nat
then Raise (ValueError [Lit "The train_size should be greater or equal to the number of classes"])
else if (n_test <? List.length classes)%nat
then Raise (ValueError [Lit "The test_size should be greater or equal to the number of classes"])
else
  let counts := map snd classes in
  let train_draws := approximate_mode counts n_train in
  let left := map (fun p => (fst p - snd p)%nat) (combine counts train_draws) in
  let test_draws := approximate_mode left n_test in
  let train_left := combine (map fst classes) train_draws in
  let test_left := combine (map fst classes) test_draws in
  let (X_train, X_test) := deal (combine X labels) train_left test_left in
  let (y_train, y_test) := deal (combine y labels) train_left test_left in
  Ok (X_train, X_test, y_train, y_test).

Definition row (timestamp level source message : string) : list cell :=
[CStr timestamp; CStr level; CStr source; CStr message].

Definition column (i : nat) (rows : list (list cell)) : list cell :=
map (fun r => nth i r CNaN) rows.

Definition table (rows : list (list cell)) : DataFrame :=
[("timestamp", column 0 rows); ("level", column 1 rows);
 ("source", column 2 rows); ("message", column 3 rows)].

Definition monday : DataFrame :=
table [ row "2024-03-04 09:15:00" "INFO" "api" "User user_17 logged in from 10.0.0.7";
        row "2024-03-04 09:16:30" "ERROR" "db" "Query q_991 failed after 3 retries";
        row "2024-03-04 23:05:00" "INFO" "api" "User user_18 logged in from 10.0.0.9";
        row "2024-03-04 23:40:10" "ERROR" "db" "Connection lost" ].

Definition tuesday : DataFrame :=
table [ row "2024-03-05 08:00:00" "INFO" "api" "Service started";
        row "2024-03-05 08:01:00" "INFO" "api" "Cache cache_7 warmed";
        row "2024-03-05 10:30:00" "ERROR" "db" "Deadlock on order_55";
        row "2024-03-05 11:45:00" "ERROR" "db" "Timeout after 30 seconds";
        row "2024-03-05 12:00:00" "INFO" "auth" "Token refreshed";
        row "2024-03-05 13:20:00" "ERROR" "auth" "Login failed for bob@example.com" ].

Definition disk : FS (File num Tfidf) :=
{| files := [("monday.csv", Csv num Tfidf monday); ("tuesday.csv", Csv num Tfidf tuesday)];
   denied := fun _ => false |}.

(** [EnhancedLogPreprocessor()] when the pretrained model cannot be loaded,
  and when it can. *)
Definition without_bert : State num Bert Tfidf :=
{| self := fst (init num model_missing Tfidf "distilbert-base-uncased");
   fs := disk;
   log := [snd (init num model_missing Tfidf "distilbert-base-uncased")] |}.

Definition with_bert : State num Bert Tfidf :=
{| self := fst (init num model_present Tfidf "distilbert-base-uncased");
   fs := disk;
   log := [snd (init num model_present Tfidf "distilbert-base-uncased")] |}.

Notation preprocess file_path use_bert_arg :=
(preprocess_logs of_cell Temporal.parse_iso high_error_period Encoder.iter_ascending
   embed_batch tfidf_fit_transform tfidf_transform scaler_validate standardize
   train_test_split file_path use_bert_arg 2%Z true).

(** What Monday's run returns and leaves behind, on an object built
  without the dense backend. *)
Definition monday_run
: result exn (list (list num) * list (list num) * list cell * list cell)
  * State num Bert Tfidf :=
Eval vm_compute in preprocess "monday.csv" false without_bert.

(** The object after Monday's run. *)
Definition monday_state : State num Bert Tfidf := snd monday_run.

(** A directory without files. *)
Definition empty_disk : FS (File num Tfidf) :=
{| files := []; denied := fun _ => false |}.

(** A table without a level column. *)
Definition unlabelled : DataFrame :=
[("timestamp", [CStr "2024-03-04 09:15:00"; CStr "2024-03-04 23:05:00"]);
 ("message", [CStr "Service started"; CStr "Connection lost"])].


(** The same object in a directory whose only file has no level column. *)
Definition beside_unlabelled : State num Bert Tfidf :=
{| self := self without_bert;
   fs := {| files := [("unlabelled.csv", Csv num Tfidf unlabelled)];
            denied := fun _ => false |};
   log := [] |}.


End PipelineRun.

(* ================================================================== *)
(** * Properties *)

(** ** Facts about dicts *)

Module PyFacts.

Lemma get_set_same {V} (d : dict V) k v : Py.get (Py.set d k v) k = Some v.
Proof.
induction d as [|[k' v'] d IH]; simpl.
- now rewrite String.eqb_refl.
- destruct (String.eqb k' k) eqn:E; simpl; now rewrite E.
Qed.

Lemma get_set_other {V} (d : dict V) k k' v :
k <> k' -> Py.get (Py.set d k v) k' = Py.get d k'.
Proof.
intros Hne. induction d as [|[k0 v0] d IH]; simpl.
- destruct (String.eqb k k') eqn:E; [apply String.eqb_eq in E; contradiction | reflexivity].
- destruct (String.eqb k0 k) eqn:E; simpl.
  + apply String.eqb_eq in E. subst k0.
    destruct (String.eqb k k') eqn:E'; [apply String.eqb_eq in E'; contradiction | reflexivity].
  + now rewrite IH.
Qed.

Lemma get_some_in_keys {V} (d : dict V) k v : Py.get d k = Some v -> In k (Py.keys d).
Proof.
induction d as [|[k' v'] d IH]; simpl; [discriminate|].
destruct (String.eqb k' k) eqn:E.
- apply String.eqb_eq in E. now left.
- intros H. right. now apply IH.
Qed.

Lemma get_none_not_in_keys {V} (d : dict V) k : Py.get d k = None <-> ~ In k (Py.keys d).
Proof.
induction d as [|[k' v'] d IH]; simpl.
- tauto.
- destruct (String.eqb k' k) eqn:E.
  + apply String.eqb_eq in E. split; [discriminate | intros H; exfalso; apply H; now left].
  + apply String.eqb_neq in E. rewrite IH. tauto.
Qed.

Lemma contains_true_iff {V} (d : dict V) k : Py.contains d k = true <-> In k (Py.keys d).
Proof.
unfold Py.contains. destruct (Py.get d k) eqn:E.
- split; [intros _; eapply get_some_in_keys; eauto | reflexivity].
- split; [discriminate|]. intros H. apply get_none_not_in_keys in E. contradiction.
Qed.

Lemma keys_set_present {V} (d : dict V) k v :
In k (Py.keys d) -> Py.keys (Py.set d k v) = Py.keys d.
Proof.
induction d as [|[k' v'] d IH]; simpl; [tauto|].
intros H. destruct (String.eqb k' k) eqn:E; simpl; [reflexivity|].
f_equal. apply IH. destruct H as [H|H]; [|exact H].
apply String.eqb_neq in E. contradiction.
Qed.

Lemma keys_set_absent {V} (d : dict V) k v :
~ In k (Py.keys d) -> Py.keys (Py.set d k v) = (Py.keys d ++ [k])%list.
Proof.
induction d as [|[k' v'] d IH]; simpl; [reflexivity|].
intros H. destruct (String.eqb k' k) eqn:E; simpl.
- apply String.eqb_eq in E. exfalso. apply H. now left.
- f_equal. apply IH. tauto.
Qed.

Lemma in_keys_set {V} (d : dict V) k v x :
In x (Py.keys (Py.set d k v)) <-> x = k \/ In x (Py.keys d).
Proof.
destruct (in_dec string_dec k (Py.keys d)) as [Hin|Hout].
- rewrite keys_set_present by exact Hin. split; [tauto|]. intros [->|H]; assumption.
- rewrite keys_set_absent by exact Hout. rewrite in_app_iff. simpl. intuition.
Qed.

Lemma nodup_keys_set {V} (d : dict V) k v :
NoDup (Py.keys d) -> NoDup (Py.keys (Py.set d k v)).
Proof.
intros Hnd. destruct (in_dec string_dec k (Py.keys d)) as [Hin|Hout].
- now rewrite keys_set_present.
- rewrite keys_set_absent by exact Hout.
  apply NoDup_app; [exact Hnd | repeat constructor; simpl; tauto |].
  intros x Hx [<-|[]]. contradiction.
Qed.

Lemma for_each_cons {S E X} (x : X) (xs : list X) (body : X -> M S E unit) (s : S) :
Py.for_each (x :: xs) body s
= match body x s with
  | (Ok _, s') => Py.for_each xs body s'
  | (Raise e, s') => (Raise e, s')
  end.
Proof. reflexivity. Qed.

Lemma bind_ok {S E A B} (m : M S E A) (k : A -> M S E B) s a s' :
  m s = (Ok a, s') -> Py.bind m k s = k a s'.
Proof. intros H. unfold Py.bind. now rewrite H. Qed.

Lemma in_keys_get {V} (d : dict V) k : In k (Py.keys d) -> exists v, Py.get d k = Some v.
Proof.
  intros H. destruct (Py.get d k) as [v|] eqn:E; [now exists v|].
  apply get_none_not_in_keys in E. contradiction.
Qed.

Lemma get_app {V} (d extra : dict V) col :
  Py.get (d ++ extra)%list col
  = match Py.get d col with Some v => Some v | None => Py.get extra col end.
Proof.
  induction d as [|[k v] d IH]; simpl; [reflexivity|].
  now destruct (String.eqb k col).
Qed.

End PyFacts.

(** ** Facts about strings *)

Module StrFacts.

Open Scope string_scope.

Lemma chars_append a b :
list_ascii_of_string (a ++ b)
= (list_ascii_of_string a ++ list_ascii_of_string b)%list.
Proof. induction a; simpl; [reflexivity | now f_equal]. Qed.

Lemma chars_inj a b : list_ascii_of_string a = list_ascii_of_string b -> a = b.
Proof.
intros H. rewrite <- (string_of_list_ascii_of_string a),
            <- (string_of_list_ascii_of_string b). now f_equal.
Qed.

Lemma length_chars a : List.length (list_ascii_of_string a) = String.length a.
Proof. induction a; simpl; [reflexivity | now f_equal]. Qed.

Lemma length_append a b : String.length (a ++ b) = (String.length a + String.length b)%nat.
Proof. induction a; simpl; [reflexivity | now f_equal]. Qed.

Lemma append_assoc a b c : (a ++ b) ++ c = a ++ (b ++ c).
Proof. induction a; simpl; [reflexivity | now f_equal]. Qed.

Lemma append_nil_r a : a ++ "" = a.
Proof. induction a; simpl; [reflexivity | now f_equal]. Qed.

Lemma append_inv_tail a b c : a ++ c = b ++ c -> a = b.
Proof.
intros H. apply chars_inj. apply (f_equal list_ascii_of_string) in H.
rewrite !chars_append in H. now apply app_inv_tail in H.
Qed.

Lemma append_inv_head a b c : a ++ b = a ++ c -> b = c.
Proof.
intros H. apply chars_inj. apply (f_equal list_ascii_of_string) in H.
rewrite !chars_append in H. now apply app_inv_head in H.
Qed.

End StrFacts.

(* ================================================================== *)
(** ** Temporal feature extractor *)

Module TemporalSpec.

Import Temporal.
Open Scope Z_scope.

Lemma to_datetime_all_parse parse_cell timestamps :
  (forall raw, In raw timestamps -> parse_cell raw <> None) ->
  exists dt_series, to_datetime parse_cell timestamps = Ok dt_series.
Proof.
  induction timestamps as [|raw rest IH]; intros Hall; simpl.
  - now exists [].
  - destruct (parse_cell raw) as [d|] eqn:E.
    + destruct IH as [ds Hds]; [intros; apply Hall; now right|].
      rewrite Hds. now exists (d :: ds).
    + exfalso. apply (Hall raw); [now left | exact E].
Qed.

Lemma to_datetime_nth parse_cell timestamps dt_series :
  to_datetime parse_cell timestamps = Ok dt_series ->
  forall i raw, nth_error timestamps i = Some raw ->
                exists d, parse_cell raw = Some d /\ nth_error dt_series i = Some d.
Proof.
  revert dt_series. induction timestamps as [|r rest IH]; intros ds H i raw Hi.
  - destruct i; discriminate.
  - simpl in H. destruct (parse_cell r) as [d|] eqn:E; [|discriminate].
    destruct (to_datetime parse_cell rest) as [ds'|] eqn:E'; [|discriminate].
    injection H as <-. destruct i as [|i]; simpl in *.
    + injection Hi as <-. now exists d.
    + eapply IH; eauto.
Qed.

Lemma business_hours_iff (t : Timestamp) :
  is_business_hours (At t) = CInt (if (9 <=? hour t) && (hour t <=? 17) then 1 else 0).
Proof. reflexivity. Qed.

Lemma night_iff (t : Timestamp) :
  is_night (At t) = CInt (if (22 <=? hour t) || (hour t <=? 6) then 1 else 0).
Proof. reflexivity. Qed.

(** C4. When every cell of the timestamp column parses,
    [extract_temporal_features] returns a table in which, for every row
    whose cell parses to a timestamp [t], [is_business_hours] is 1 exactly
    when [9 <= hour t <= 17] and 0 otherwise, and [is_night] is 1 exactly
    when [hour t >= 22] or [hour t <= 6] and 0 otherwise.  At 22:00 and
    06:59 [is_night] is 1; at 21:59 and 07:00 it is 0. *)
Theorem flags_follow_the_hour parse_cell timestamps :
  (forall raw, In raw timestamps -> parse_cell raw <> None) ->
  exists features,
    extract_temporal_features parse_cell timestamps = Ok features /\
    (forall i raw t,
        nth_error timestamps i = Some raw ->
        parse_cell raw = Some (At t) ->
        exists b n,
          nth_error (col_is_business_hours features) i = Some (CInt b) /\
          nth_error (col_is_night features) i = Some (CInt n) /\
          (b = 1 <-> 9 <= hour t <= 17) /\ (b = 0 \/ b = 1) /\
          (n = 1 <-> (22 <= hour t \/ hour t <= 6)) /\ (n = 0 \/ n = 1)) /\
    (forall t, hour t = 22 -> minute t = 0 -> is_night (At t) = CInt 1) /\
    (forall t, hour t = 6 -> minute t = 59 -> is_night (At t) = CInt 1) /\
    (forall t, hour t = 21 -> minute t = 59 -> is_night (At t) = CInt 0) /\
    (forall t, hour t = 7 -> minute t = 0 -> is_night (At t) = CInt 0).
Proof.
  intros Hall.
  destruct (to_datetime_all_parse parse_cell timestamps Hall) as [ds Hds].
  exists (temporal_of_series ds). split; [|split].
  - unfold extract_temporal_features. now rewrite Hds.
  - intros i raw t Hi Hp.
    destruct (to_datetime_nth _ _ Hds _ Hi) as [d [Hd Hnth]].
    rewrite Hp in Hd. injection Hd as <-.
    exists (if (9 <=? hour t) && (hour t <=? 17) then 1 else 0),
           (if (22 <=? hour t) || (hour t <=? 6) then 1 else 0).
    simpl. rewrite !nth_error_map, Hnth. simpl.
    repeat split; try reflexivity;
      destruct (Z.leb_spec 9 (hour t)); destruct (Z.leb_spec (hour t) 17);
      destruct (Z.leb_spec 22 (hour t)); destruct (Z.leb_spec (hour t) 6);
      simpl; intros; try discriminate; try reflexivity; try tauto; lia.
  - repeat split; intros t Hh _; rewrite night_iff, Hh; reflexivity.
Qed.

(** The extractor run on four rows at the boundary times. *)
Lemma flags_follow_the_hour_witness :
  exists features,
    extract_temporal_features parse_iso
      [CStr "2024-03-05 22:00:00"; CStr "2024-03-05 06:59:00";
       CStr "2024-03-05 21:59:00"; CStr "2024-03-05 07:00:00"] = Ok features /\
    col_is_night features = [CInt 1; CInt 1; CInt 0; CInt 0].
Proof.
  destruct (flags_follow_the_hour parse_iso
              [CStr "2024-03-05 22:00:00"; CStr "2024-03-05 06:59:00";
               CStr "2024-03-05 21:59:00"; CStr "2024-03-05 07:00:00"]%string)
    as [features [Hrun _]].
  - intros raw Hin. simpl in Hin.
    destruct Hin as [<-|[<-|[<-|[<-|[]]]]]; vm_compute; discriminate.
  - exists features. split; [exact Hrun|].
    vm_compute in Hrun. injection Hrun as <-. reflexivity.
Defined.

End TemporalSpec.

(* ================================================================== *)
(** ** Categorical encoder *)

Module EncoderSpec.

Import Encoder.
Import PyFacts.
Open Scope string_scope.

Lemma slt_trans a b c : slt a b -> slt b c -> slt a c.
Proof.
  unfold slt. intros H1 H2.
  apply OrderedTypeEx.String_as_OT.cmp_lt in H1, H2.
  apply OrderedTypeEx.String_as_OT.cmp_lt.
  eapply OrderedTypeEx.String_as_OT.lt_trans; eauto.
Qed.

Lemma slt_irrefl a : ~ slt a a.
Proof.
  unfold slt. intros H. apply OrderedTypeEx.String_as_OT.cmp_lt in H.
  apply OrderedTypeEx.String_as_OT.lt_not_eq in H. now apply H.
Qed.

(** *** [sorted_unique] *)

Lemma in_insert_sorted v l x : In x (insert_sorted v l) <-> x = v \/ In x l.
Proof.
  induction l as [|y l IH]; simpl.
  - intuition.
  - destruct (String.compare v y) eqn:E; simpl.
    + apply String.compare_eq_iff in E. subst. intuition.
    + intuition.
    + rewrite IH. intuition.
Qed.

Lemma insert_sorted_sorted v l :
  StronglySorted slt l -> StronglySorted slt (insert_sorted v l).
Proof.
  induction 1 as [|y l Hs IH Hall]; simpl.
  - repeat constructor.
  - destruct (String.compare v y) eqn:E.
    + now constructor.
    + constructor; [now constructor|].
      constructor; [exact E|].
      rewrite Forall_forall in *. intros x Hx. eapply slt_trans; [exact E|]. now apply Hall.
    + constructor; [exact IH|].
      rewrite Forall_forall in *. intros x Hx. apply in_insert_sorted in Hx.
      destruct Hx as [->|Hx]; [|now apply Hall].
      unfold slt. rewrite String.compare_antisym, E. reflexivity.
Qed.

Lemma sorted_unique_sorted values : StronglySorted slt (sorted_unique values).
Proof.
  induction values; simpl; [constructor | now apply insert_sorted_sorted].
Qed.

Lemma in_sorted_unique values x : In x (sorted_unique values) <-> In x values.
Proof.
  induction values as [|v values IH]; simpl; [tauto|].
  rewrite in_insert_sorted, IH. intuition.
Qed.

Lemma sorted_nodup l : StronglySorted slt l -> NoDup l.
Proof.
  induction 1 as [|y l Hs IH Hall]; constructor; [|exact IH].
  intros Hin. rewrite Forall_forall in Hall. exact (slt_irrefl (Hall _ Hin)).
Qed.

(** *** The lookup table *)

Lemma set_absent {V} (d : dict V) k v :
  ~ In k (Py.keys d) -> Py.set d k v = (d ++ [(k, v)])%list.
Proof.
  induction d as [|[k' v'] d IH]; simpl; [reflexivity|].
  intros H. destruct (String.eqb k' k) eqn:E.
  - apply String.eqb_eq in E. exfalso. apply H. now left.
  - f_equal. apply IH. tauto.
Qed.

Lemma table_fold_nodup l : forall i (d : dict nat),
  NoDup l -> (forall x, In x l -> ~ In x (Py.keys d)) ->
  fold_left (fun d iv => Py.set d (snd iv) (fst iv)) (enumerate_from i l) d
  = (d ++ map swap (enumerate_from i l))%list.
Proof.
  induction l as [|v l IH]; intros i d Hnd Hdis; simpl.
  - now rewrite app_nil_r.
  - inversion Hnd as [|? ? Hv Hl]; subst.
    rewrite set_absent by (apply Hdis; now left).
    rewrite IH; [now rewrite <- app_assoc | exact Hl |].
    intros x Hx. unfold Py.keys. rewrite map_app, in_app_iff. simpl.
    intros [H|[<-|[]]]; [|contradiction].
    apply (Hdis x); [now right | exact H].
Qed.

Lemma get_enumerated l : forall i v n,
  NoDup l ->
  (Py.get (map swap (enumerate_from i l)) v = Some n
   <-> (i <= n)%nat /\ nth_error l (n - i) = Some v).
Proof.
  induction l as [|x l IH]; intros i v n Hnd; simpl.
  - split; [discriminate|]. intros [_ H]. destruct (n - i)%nat; discriminate.
  - inversion Hnd as [|? ? Hx Hl]; subst.
    destruct (String.eqb x v) eqn:E.
    + apply String.eqb_eq in E. subst x. split.
      * intros H. injection H as <-. rewrite Nat.sub_diag. split; [lia | reflexivity].
      * intros [Hle H]. destruct (n - i)%nat as [|k] eqn:Ek.
        -- f_equal. lia.
        -- simpl in H. apply nth_error_In in H. contradiction.
    + apply String.eqb_neq in E. rewrite (IH (S i) v n Hl). split.
      * intros [Hle H]. split; [lia|].
        replace (n - i)%nat with (S (n - S i)) by lia. exact H.
      * intros [Hle H]. destruct (n - i)%nat as [|k] eqn:Ek.
        -- simpl in H. injection H as H. contradiction.
        -- simpl in H. split; [lia|]. replace (n - S i)%nat with k by lia. exact H.
Qed.

(** With distinct classes, the table sends a value to its position. *)
Lemma get_table_of l v n :
  NoDup l -> (Py.get (table_of l) v = Some n <-> nth_error l n = Some v).
Proof.
  intros Hnd. unfold table_of.
  rewrite table_fold_nodup by (auto; intros x _ []).
  simpl. rewrite get_enumerated by exact Hnd. rewrite Nat.sub_0_r.
  split; [tauto | intros H; split; [lia | exact H]].
Qed.

Lemma keys_table_fold l : forall i (d : dict nat) x,
  In x (Py.keys (fold_left (fun d iv => Py.set d (snd iv) (fst iv)) (enumerate_from i l) d))
  <-> In x (Py.keys d) \/ In x l.
Proof.
  induction l as [|v l IH]; intros i d x; simpl.
  - tauto.
  - rewrite IH, in_keys_set. intuition.
Qed.

(** Every class is a key of the table, whatever the order. *)
Lemma table_of_covers l v : In v l -> exists n, Py.get (table_of l) v = Some n.
Proof.
  intros Hin. destruct (Py.get (table_of l) v) as [n|] eqn:E; [now exists n|].
  apply get_none_not_in_keys in E. exfalso. apply E.
  unfold table_of. apply keys_table_fold. now right.
Qed.

Lemma map_to_integer_total table values :
  (forall v, In v values -> exists n, Py.get table v = Some n) ->
  exists codes, map_to_integer table values = Ok codes.
Proof.
  induction values as [|v values IH]; intros Hall; simpl.
  - now exists [].
  - destruct (Hall v (or_introl eq_refl)) as [n Hn]. rewrite Hn.
    destruct IH as [codes Hc]; [intros; apply Hall; now right|].
    rewrite Hc. eauto.
Qed.

Lemma map_to_integer_spec table values codes :
  map_to_integer table values = Ok codes ->
  Forall2 (fun v code => exists n, code = Z.of_nat n /\ Py.get table v = Some n)
          values codes.
Proof.
  revert codes. induction values as [|v values IH]; intros codes H; simpl in H.
  - injection H as <-. constructor.
  - destruct (Py.get table v) as [n|] eqn:E; [|discriminate].
    destruct (map_to_integer table values) as [cs|] eqn:E'; [|discriminate].
    injection H as <-. constructor; [now exists n | now apply IH].
Qed.

(** *** [fit_transform] and [transform] *)

Lemma transform_nodup classes_ values codes :
  NoDup classes_ -> transform classes_ values = Ok codes ->
  Forall2 (coded classes_) values codes.
Proof.
  intros Hnd H. apply map_to_integer_spec in H.
  eapply Forall2_impl; [|exact H]. intros v code [n [-> Hn]].
  exists n. split; [reflexivity | now apply get_table_of in Hn].
Qed.

Lemma transform_total classes_ values :
  (forall v, In v values -> In v classes_) ->
  exists codes, transform classes_ values = Ok codes.
Proof.
  intros Hall. apply map_to_integer_total. intros v Hv.
  apply table_of_covers. now apply Hall.
Qed.

Lemma fit_transform_spec values :
  exists codes,
    fit_transform values = (sorted_unique values, Ok codes)
    /\ Forall2 (coded (sorted_unique values)) values codes.
Proof.
  destruct (@transform_total (sorted_unique values) values) as [codes Hc].
  - intros v Hv. now apply in_sorted_unique.
  - exists codes. split.
    + unfold fit_transform. unfold transform in Hc. now rewrite Hc.
    + apply transform_nodup; [|exact Hc]. apply sorted_nodup, sorted_unique_sorted.
Qed.

Lemma in_pd_unique values x : In x (pd_unique values) <-> In x values.
Proof.
  induction values as [|v values IH]; simpl; [tauto|].
  rewrite filter_In, IH. destruct (String.eqb_spec x v) as [->|Hne]; simpl;
    intuition congruence.
Qed.

Lemma mem_true_iff v l : mem v l = true <-> In v l.
Proof.
  unfold mem. rewrite existsb_exists. split.
  - intros [x [Hx E]]. apply String.eqb_eq in E. now subst.
  - intros H. exists v. split; [exact H | apply String.eqb_refl].
Qed.

Section Valid.

Variable set_iter : list string -> list string.
Hypothesis valid : set_iter_valid set_iter.

Lemma in_set_iter l x : In x (set_iter l) <-> In x l.
Proof. apply valid. Qed.

Lemma set_iter_nil : set_iter [] = [].
Proof.
  destruct (set_iter []) as [|x l] eqn:E; [reflexivity|].
  exfalso. apply (in_set_iter [] x). rewrite E. now left.
Qed.

Lemma in_fresh classes_ values y :
  In y (set_iter (filter (fun v => negb (mem v (set_iter classes_)))
                         (set_iter (pd_unique values))))
  <-> In y values /\ ~ In y classes_.
Proof.
  rewrite in_set_iter, filter_In, in_set_iter, in_pd_unique.
  rewrite negb_true_iff, <- not_true_iff_false, mem_true_iff, in_set_iter. tauto.
Qed.

(** The extended vocabulary holds the old classes and the values. *)
Lemma in_extend_classes classes_ values x :
  In x (extend_classes set_iter classes_ values) <-> In x classes_ \/ In x values.
Proof.
  unfold extend_classes.
  pose proof (in_fresh classes_ values) as Hfresh.
  destruct (set_iter (filter _ _)) as [|n ns] eqn:E.
  - split; [tauto|]. intros [H|H]; [exact H|].
    destruct (in_dec string_dec x classes_) as [Hin|Hout]; [exact Hin|].
    exfalso. apply (proj2 (Hfresh x)); auto.
  - rewrite in_app_iff, in_set_iter, Hfresh.
    destruct (in_dec string_dec x classes_); tauto.
Qed.

(** Values that are all known leave the vocabulary as it is. *)
Lemma extend_classes_known classes_ values :
  (forall v, In v values -> In v classes_) ->
  extend_classes set_iter classes_ values = classes_.
Proof.
  intros Hall. unfold extend_classes.
  pose proof (in_fresh classes_ values) as Hfresh.
  destruct (set_iter (filter _ _)) as [|n ns] eqn:E; [reflexivity|].
  exfalso. destruct (proj1 (Hfresh n) (or_introl eq_refl)) as [Hv Hc].
  apply Hc, Hall, Hv.
Qed.

(** *** One round of the loop *)

Lemma encoded_name_inj a b : encoded_name a = encoded_name b -> a = b.
Proof. apply StrFacts.append_inv_tail. Qed.

(** A round never raises. *)
Lemma encode_column_total df col encoded_df les :
  exists encoded_df' les',
    encode_column set_iter df col encoded_df les = (Ok encoded_df', les').
Proof.
  unfold encode_column. destruct (Py.get df col) as [column|]; [|eauto].
  destruct (Py.get les col) as [classes_|].
  - destruct (@transform_total (extend_classes set_iter classes_ (astype_str column))
                (astype_str column)) as [codes Hc].
    + intros v Hv. apply in_extend_classes. now right.
    + rewrite Hc. eauto.
  - destruct (fit_transform_spec (astype_str column)) as [codes [Hf _]].
    rewrite Hf. eauto.
Qed.

Lemma Forall2_coded_unique classes_ values codes codes' :
  NoDup classes_ ->
  Forall2 (coded classes_) values codes -> Forall2 (coded classes_) values codes' ->
  codes = codes'.
Proof.
  intros Hnd H. revert codes'. induction H as [|v c vs cs Hc H IH]; intros codes' H'.
  - now inversion H'.
  - inversion H' as [|? c' ? cs' Hc' H'']; subst. f_equal; [|now apply IH].
    destruct Hc as [n [-> Hn]], Hc' as [n' [-> Hn']]. f_equal.
    rewrite NoDup_nth_error in Hnd. apply Hnd; [|congruence].
    apply nth_error_Some. congruence.
Qed.

(** The first fit of [col]. *)
Lemma encode_column_first df col column encoded_df les :
  Py.get df col = Some column -> Py.get les col = None ->
  exists encoded_df' les',
    encode_column set_iter df col encoded_df les = (Ok encoded_df', les')
    /\ fitted col column encoded_df' les'.
Proof.
  intros Hdf Hles. unfold encode_column. rewrite Hdf, Hles.
  destruct (fit_transform_spec (astype_str column)) as [codes [Hf Hc]].
  rewrite Hf. do 2 eexists. split; [reflexivity|].
  split; [apply get_set_same|]. exists codes. split; [apply get_set_same | exact Hc].
Qed.

(** A later round, on any column, keeps a finished fit of [col]. *)
Lemma encode_column_keeps df col column col' encoded_df les :
  Py.get df col = Some column -> fitted col column encoded_df les ->
  exists encoded_df' les',
    encode_column set_iter df col' encoded_df les = (Ok encoded_df', les')
    /\ fitted col column encoded_df' les'.
Proof.
  intros Hdf [Hles [codes [Henc Hc]]].
  destruct (String.eqb_spec col' col) as [E|Hne]; [subst col'|].
  - unfold encode_column, LabelEncoder in *. rewrite Hdf, Hles.
    rewrite extend_classes_known by (intros v Hv; now apply in_sorted_unique).
    destruct (@transform_total (sorted_unique (astype_str column)) (astype_str column))
      as [codes' Hc']; [intros v Hv; now apply in_sorted_unique|].
    rewrite Hc'. do 2 eexists. split; [reflexivity|].
    split; [apply get_set_same|]. exists codes'. split; [apply get_set_same|].
    apply transform_nodup; [apply sorted_nodup, sorted_unique_sorted | exact Hc'].
  - destruct (encode_column_total df col' encoded_df les) as [e' [l' Hrun]].
    exists e', l'. split; [exact Hrun|].
    assert (Hname : encoded_name col' <> encoded_name col)
      by (intros E; apply Hne; now apply encoded_name_inj).
    revert Hrun. unfold encode_column, LabelEncoder in *. cbv beta zeta.
    destruct (Py.get df col') as [column'|].
    + destruct (Py.get les col') as [classes_|].
      * destruct (transform _ _) as [cs|]; [|discriminate].
        intros Hrun. injection Hrun as <- <-. split.
        -- now rewrite get_set_other.
        -- exists codes. split; [now rewrite get_set_other | exact Hc].
      * destruct (fit_transform (astype_str column')) as [cl [cs|]]; [|discriminate].
        intros Hrun. injection Hrun as <- <-. split.
        -- now rewrite get_set_other.
        -- exists codes. split; [now rewrite get_set_other | exact Hc].
    + intros Hrun. injection Hrun as <- <-. split; [exact Hles | now exists codes].
Qed.

(** A round on another column leaves [col] without encoder. *)
Lemma encode_column_before df col col' encoded_df les encoded_df' les' :
  col' <> col -> Py.get les col = None ->
  encode_column set_iter df col' encoded_df les = (Ok encoded_df', les') ->
  Py.get les' col = None.
Proof.
  intros Hne Hles. unfold encode_column, LabelEncoder in *. cbv beta zeta.
  destruct (Py.get df col') as [column'|];
    [|intros Hrun; now injection Hrun as <- <-].
  destruct (Py.get les col') as [classes_|].
  - destruct (transform _ _) as [cs|]; [|discriminate].
    intros Hrun. injection Hrun as <- <-. now rewrite get_set_other.
  - destruct (fit_transform (astype_str column')) as [cl [cs|]]; [|discriminate].
    intros Hrun. injection Hrun as <- <-. now rewrite get_set_other.
Qed.

Lemma encode_columns_keeps df col column cols : forall encoded_df les,
  Py.get df col = Some column -> fitted col column encoded_df les ->
  exists encoded_df' les',
    encode_columns set_iter df cols encoded_df les = (Ok encoded_df', les')
    /\ fitted col column encoded_df' les'.
Proof.
  induction cols as [|c cols IH]; intros e l Hdf Hfit; simpl.
  - exists e, l. split; [reflexivity | exact Hfit].
  - destruct (@encode_column_keeps df col column c e l Hdf Hfit) as [e1 [l1 [Hrun Hfit1]]].
    unfold Py.bind. rewrite Hrun. now apply IH.
Qed.

Lemma encode_columns_first df col column cols : forall encoded_df les,
  In col cols -> Py.get df col = Some column -> Py.get les col = None ->
  exists encoded_df' les',
    encode_columns set_iter df cols encoded_df les = (Ok encoded_df', les')
    /\ fitted col column encoded_df' les'.
Proof.
  induction cols as [|c cols IH]; intros e l Hin Hdf Hles; [destruct Hin|].
  simpl. unfold Py.bind.
  destruct (String.eqb_spec c col) as [E|Hne]; [subst c|].
  - destruct (@encode_column_first df col column e l Hdf Hles) as [e1 [l1 [Hrun Hfit]]].
    rewrite Hrun. now apply encode_columns_keeps.
  - destruct (encode_column_total df c e l) as [e1 [l1 Hrun]]. rewrite Hrun.
    apply IH; [destruct Hin; [contradiction | assumption] | exact Hdf |].
    eapply encode_column_before; eauto.
Qed.

End Valid.

Lemma iter_ascending_valid : set_iter_valid iter_ascending.
Proof.
  intros l. split.
  - apply sorted_nodup, sorted_unique_sorted.
  - intros x. apply in_sorted_unique.
Qed.

Lemma iter_descending_valid : set_iter_valid iter_descending.
Proof.
  intros l. unfold iter_descending. split.
  - apply NoDup_rev, sorted_nodup, sorted_unique_sorted.
  - intros x. rewrite <- in_rev. apply in_sorted_unique.
Qed.

Lemma coded_in_range classes_ v code :
  coded classes_ v code ->
  (0 <= code < Z.of_nat (List.length classes_))%Z
  /\ nth_error classes_ (Z.to_nat code) = Some v.
Proof.
  intros [n [-> Hn]]. rewrite Nat2Z.id. split; [|exact Hn].
  assert (n < List.length classes_)%nat by (apply nth_error_Some; congruence). lia.
Qed.

(** C3, as the code has it.  On the first fit of a column (the column is
    in the table and has no encoder yet), [encode_categorical_features]
    returns normally; the encoder of the column then holds the [k] distinct
    values of the column (as strings) in ascending order, and the encoded
    column gives every value its position in that order, an index in
    [0..k-1]. *)
Theorem first_fit_assigns_sorted_order set_iter df categorical_columns les col column :
  set_iter_valid set_iter ->
  In col categorical_columns ->
  Py.get df col = Some column ->
  Py.get les col = None ->
  exists encoded_df les' codes,
    encode_categorical_features set_iter df categorical_columns les = (Ok encoded_df, les')
    /\ Py.get les' col = Some (sorted_unique (astype_str column))
    /\ StronglySorted slt (sorted_unique (astype_str column))
    /\ (forall v, In v (sorted_unique (astype_str column)) <-> In v (astype_str column))
    /\ Py.get encoded_df (encoded_name col) = Some (map CInt codes)
    /\ Forall2 (fun v code =>
                  (0 <= code < Z.of_nat (List.length (sorted_unique (astype_str column))))%Z
                  /\ nth_error (sorted_unique (astype_str column)) (Z.to_nat code) = Some v)
               (astype_str column) codes.
Proof.
  intros Hvalid Hin Hdf Hles.
  destruct (@encode_columns_first set_iter Hvalid df col column categorical_columns df les
              Hin Hdf Hles) as [e [l [Hrun [Hl [codes [He Hc]]]]]].
  exists e, l, codes. repeat split.
  - exact Hrun.
  - exact Hl.
  - apply sorted_unique_sorted.
  - now apply in_sorted_unique.
  - now apply in_sorted_unique.
  - exact He.
  - eapply Forall2_impl; [|exact Hc]. intros v code H. now apply coded_in_range.
Qed.

(** The first fit of the column b, a, b, c. *)
Lemma first_fit_assigns_sorted_order_witness :
  exists encoded_df les',
    encode_categorical_features iter_ascending
      [("level", [CStr "b"; CStr "a"; CStr "b"; CStr "c"])] ["level"; "source"] []
    = (Ok encoded_df, les')
    /\ Py.get les' "level" = Some ["a"; "b"; "c"]
    /\ Py.get encoded_df "level_encoded" = Some [CInt 1; CInt 0; CInt 1; CInt 2].
Proof.
  destruct (@first_fit_assigns_sorted_order iter_ascending
              [("level", [CStr "b"; CStr "a"; CStr "b"; CStr "c"])]
              ["level"; "source"] [] "level" [CStr "b"; CStr "a"; CStr "b"; CStr "c"]
              iter_ascending_valid (or_introl eq_refl) eq_refl eq_refl)
    as [e [l [codes [Hrun [Hl _]]]]].
  exists e, l. split; [exact Hrun|].
  vm_compute in Hrun. injection Hrun as <- <-. split; reflexivity.
Defined.

(** C3 as the specification words it fails: on the first fit of the column
    b, a the value a gets index 0 and b gets index 1, whereas the order of
    first appearance would give b index 0 and a index 1. *)
Lemma first_fit_is_not_first_seen :
  exists encoded_df les',
    encode_categorical_features iter_ascending
      [("level", [CStr "b"; CStr "a"])] ["level"] [] = (Ok encoded_df, les')
    /\ Py.get encoded_df "level_encoded" = Some [CInt 1; CInt 0]
    /\ first_seen_codes ["b"; "a"] = Ok [0; 1]%Z
    /\ Py.get encoded_df "level_encoded" <> Some (map CInt [0; 1]%Z).
Proof.
  do 2 eexists. split; [vm_compute; reflexivity|].
  split; [reflexivity|]. split; [reflexivity | discriminate].
Qed.

(** C2 at the failing input.  The encoder is fitted on a, b, which get the
    indices 0 and 1.  The column c, a is then encoded with a set that
    iterates in descending order (a permitted order): c is appended and
    gets index 2, but the known values are listed from the set, the
    vocabulary becomes b, a, c, and a now encodes to 1. *)
Theorem extension_reorders_known_values :
  set_iter_valid iter_descending
  /\ exists df1' les1 df2' les2,
      encode_categorical_features iter_descending
        [("level", [CStr "a"; CStr "b"])] ["level"] [] = (Ok df1', les1)
      /\ Py.get les1 "level" = Some ["a"; "b"]
      /\ Py.get df1' "level_encoded" = Some [CInt 0; CInt 1]
      /\ encode_categorical_features iter_descending
           [("level", [CStr "c"; CStr "a"])] ["level"] les1 = (Ok df2', les2)
      /\ Py.get les2 "level" = Some ["b"; "a"; "c"]
      /\ Py.get df2' "level_encoded" = Some [CInt 2; CInt 1].
Proof.
  split; [exact iter_descending_valid|].
  do 4 eexists. split; [vm_compute; reflexivity|].
  split; [reflexivity|]. split; [reflexivity|].
  split; [vm_compute; reflexivity|]. split; reflexivity.
Qed.

End EncoderSpec.

(* ================================================================== *)
(** ** Model bank and scorer *)

Module BankSpec.

Import ModelBank.
Import PyFacts.
Open Scope string_scope.

Ltac run :=
  unfold Py.bind, Py.ret, Py.raise, Py.modify, Py.try_except, Py.get_state,
    logger, set_classification_model, set_anomaly_model, set_model_performance,
    set_is_trained, set_self, get_self, call; simpl.

Section Training.

Variables ndarray Obj : Type.
Variable fit : Estimator -> ndarray -> ndarray -> result exn Obj.
Variable cross_val_score : Obj -> ndarray -> ndarray -> result exn ndarray.
Variables X_train y_train : ndarray.

Let models (st : State Obj) : dict Obj := classification_models (self st).

(** One round: it returns, touches only the entry of its own name, and
    registers the estimator exactly when [fit] returned. *)
Lemma train_one_round name est (st : State Obj) :
  exists st',
    train_one fit cross_val_score X_train y_train (name, est) st = (Ok tt, st')
    /\ fs st' = fs st
    /\ anomaly_models (self st') = anomaly_models (self st)
    /\ model_performance (self st') = model_performance (self st)
    /\ is_trained (self st') = is_trained (self st)
    /\ (exists added, log st' = (log st ++ added)%list)
    /\ (forall fitted, fit est X_train y_train = Ok fitted ->
          models st' = Py.set (models st) name fitted)
    /\ (forall e, fit est X_train y_train = Raise e ->
          models st' = models st /\ In (train_failure name e) (log st')).
Proof.
  unfold train_one, models. run.
  destruct (fit est X_train y_train) as [fitted|e]; simpl.
  - destruct (cross_val_score fitted X_train y_train) as [scores|e]; simpl;
      eexists; (split; [reflexivity|]); simpl; repeat split;
      try discriminate; try (rewrite <- app_assoc; eexists; reflexivity);
      intros f Hf; injection Hf as <-; reflexivity.
  - eexists. split; [reflexivity|]. simpl. repeat split; try discriminate.
    + rewrite <- app_assoc. eexists; reflexivity.
    + injection H as <-. apply in_or_app. right. now left.
Qed.

Lemma train_loop cfg : forall st : State Obj,
  NoDup (map fst cfg) ->
  exists st',
    Py.for_each cfg (train_one fit cross_val_score X_train y_train) st = (Ok tt, st')
    /\ fs st' = fs st
    /\ anomaly_models (self st') = anomaly_models (self st)
    /\ model_performance (self st') = model_performance (self st)
    /\ is_trained (self st') = is_trained (self st)
    /\ (exists added, log st' = (log st ++ added)%list)
    /\ (forall name est fitted,
           In (name, est) cfg -> fit est X_train y_train = Ok fitted ->
           Py.get (models st') name = Some fitted)
    /\ (forall name est e,
           In (name, est) cfg -> fit est X_train y_train = Raise e ->
           Py.get (models st') name = Py.get (models st) name
           /\ In (train_failure name e) (log st'))
    /\ (forall name, ~ In name (map fst cfg) ->
           Py.get (models st') name = Py.get (models st) name)
    /\ ((forall name, In name (map fst cfg) -> ~ In name (Py.keys (models st))) ->
        Py.keys (models st')
        = (Py.keys (models st)
           ++ map fst (filter (fun item => is_ok (fit (snd item) X_train y_train)) cfg))%list).
Proof.
  induction cfg as [|[name est] cfg IH]; intros st Hnd.
  - exists st. simpl. repeat split; try tauto.
    + exists []. now rewrite app_nil_r.
    + intros _. now rewrite app_nil_r.
  - inversion Hnd as [|? ? Hname Hnd']; subst.
    destruct (train_one_round name est st)
      as [st1 [Hrun [Hfs [Han [Hperf [Htr [[l1 Hlog1] [Hfit Hraise]]]]]]]].
    destruct (IH st1 Hnd')
      as [st' [Hloop [Hfs' [Han' [Hperf' [Htr' [[l2 Hlog2] [Hok [Hfail [Hother Hkeys]]]]]]]]]].
    exists st'. rewrite for_each_cons, Hrun.
    split; [exact Hloop|]. split; [congruence|]. split; [congruence|].
    split; [congruence|]. split; [congruence|].
    split; [exists (l1 ++ l2)%list; now rewrite Hlog2, Hlog1, app_assoc|].
    assert (Hstep : forall n, n <> name ->
               Py.get (models st1) n = Py.get (models st) n).
    { intros n Hn. destruct (fit est X_train y_train) as [fitted|e] eqn:Ef.
      - rewrite (Hfit fitted eq_refl). apply get_set_other. congruence.
      - now rewrite (proj1 (Hraise e eq_refl)). }
    split; [|split; [|split]].
    + intros n e' fitted [Heq|Hin] Hf.
      * injection Heq as <- <-. rewrite Hother by exact Hname.
        rewrite (Hfit fitted Hf). apply get_set_same.
      * eapply Hok; eauto.
    + intros n e' e [Heq|Hin] Hf.
      * injection Heq as <- <-. rewrite Hother by exact Hname.
        destruct (Hraise e Hf) as [Hsame Hlogged]. split.
        -- now rewrite Hsame.
        -- rewrite Hlog2. apply in_or_app. now left.
      * destruct (Hfail n e' e Hin Hf) as [Hget Hlogged]. split; [|exact Hlogged].
        rewrite Hget. apply Hstep. intros ->. apply Hname.
        apply (in_map fst) in Hin. exact Hin.
    + intros n Hn. simpl in Hn. rewrite Hother by tauto. apply Hstep. intuition.
    + intros Hfresh.
      assert (Hrest : forall n, In n (map fst cfg) -> ~ In n (Py.keys (models st1))).
      { intros n Hn Hin. destruct (fit est X_train y_train) as [fitted|e] eqn:Ef.
        - rewrite (Hfit fitted eq_refl) in Hin. apply in_keys_set in Hin.
          destruct Hin as [->|Hin]; [contradiction|].
          apply (Hfresh n); [now right | exact Hin].
        - rewrite (proj1 (Hraise e eq_refl)) in Hin.
          apply (Hfresh n); [now right | exact Hin]. }
      rewrite (Hkeys Hrest). simpl.
      destruct (fit est X_train y_train) as [fitted|e] eqn:Ef; simpl.
      * rewrite (Hfit fitted eq_refl), keys_set_absent by (apply Hfresh; now left).
        now rewrite <- app_assoc.
      * now rewrite (proj1 (Hraise e eq_refl)).
Qed.

Lemma configured_names_distinct : NoDup (map fst configured_classifiers).
Proof.
  simpl. repeat constructor; simpl; intuition discriminate.
Qed.

(** C6. For every bank state, every training set and every behaviour of
    [fit] and [cross_val_score], [train_classification_models] returns
    normally and what it returns is the registry.  A classifier whose [fit]
    raises is logged as a failure and leaves the registry entry of its name
    as it was before the call (absent in a fresh bank), a classifier whose
    [fit] returns is in the returned map, and no other name, file or
    attribute changes.  From an empty registry the returned map holds exactly
    the names whose [fit] returned, in the configured order. *)
Theorem training_isolates_failures (st : State Obj) :
  exists trained st',
    train_classification_models fit cross_val_score X_train y_train st = (Ok trained, st')
    /\ trained = classification_models (self st')
    /\ fs st' = fs st
    /\ anomaly_models (self st') = anomaly_models (self st)
    /\ model_performance (self st') = model_performance (self st)
    /\ is_trained (self st') = is_trained (self st)
    /\ (forall name est fitted,
           In (name, est) configured_classifiers ->
           fit est X_train y_train = Ok fitted ->
           Py.get trained name = Some fitted)
    /\ (forall name est e,
           In (name, est) configured_classifiers ->
           fit est X_train y_train = Raise e ->
           Py.get trained name = Py.get (classification_models (self st)) name
           /\ In (train_failure name e) (log st'))
    /\ (forall name, ~ In name (Py.keys configured_classifiers) ->
           Py.get trained name = Py.get (classification_models (self st)) name)
    /\ (classification_models (self st) = [] ->
        Py.keys trained
        = map fst (filter (fun item => is_ok (fit (snd item) X_train y_train))
                          configured_classifiers)).
Proof.
  destruct (@train_loop configured_classifiers
              {| self := self st; fs := fs st;
                 log := (log st ++ [(INFO, [Lit "Training classification models..."])])%list |}
              configured_names_distinct)
    as [st' [Hloop [Hfs [Han [Hperf [Htr [[added Hlog] [Hok [Hfail [Hother Hkeys]]]]]]]]]].
  exists (classification_models (self st')), st'.
  split.
  { cbv beta iota delta [train_classification_models Py.bind logger Py.modify
                            Py.items get_self Py.ret].
    match goal with
    | |- context [Py.for_each ?c ?b ?s] =>
        replace (Py.for_each c b s) with (@Ok exn unit tt, st') by (symmetry; exact Hloop)
    end.
    reflexivity. }
  split; [reflexivity|]. split; [exact Hfs|]. split; [exact Han|].
  split; [exact Hperf|]. split; [exact Htr|].
  split; [exact Hok|]. split; [exact Hfail|]. split; [exact Hother|].
  intros Hempty. unfold models in Hkeys. rewrite Hkeys.
  - simpl. now rewrite Hempty.
  - intros name _. simpl. rewrite Hempty. tauto.
Qed.

End Training.

(** The scenario of the specification: three classifier types, one of which
    fails in [fit].  Two artifacts are returned and one failure is logged. *)
Lemma training_isolates_failures_witness :
  exists trained st',
    train_classification_models BankRun.fit_but_logistic BankRun.cross_val_score
      BankRun.X BankRun.y BankRun.fresh = (Ok trained, st')
    /\ Py.keys trained = ["random_forest"; "mlp_classifier"]
    /\ List.length (filter is_error (log st')) = 1%nat.
Proof.
  destruct (training_isolates_failures BankRun.fit_but_logistic BankRun.cross_val_score
              BankRun.X BankRun.y BankRun.fresh)
    as [trained [st' [Hrun [_ [_ [_ [_ [_ [_ [_ [_ Hkeys]]]]]]]]]]].
  exists trained, st'. split; [exact Hrun|]. split.
  - rewrite (Hkeys eq_refl). reflexivity.
  - vm_compute in Hrun. injection Hrun as _ <-. reflexivity.
Defined.

(** C6 as the specification words it fails.  The bank holds a logistic
    regression from an earlier call; in this call its [fit] raises.  The
    failure is logged, and the name is in the returned map all the same,
    with the estimator of the earlier call: three artifacts are returned,
    not two. *)
Lemma failed_model_of_an_earlier_run_is_returned :
  exists trained st',
    train_classification_models BankRun.fit_but_logistic BankRun.cross_val_score
      BankRun.X BankRun.y BankRun.trained_last_week = (Ok trained, st')
    /\ is_ok (BankRun.fit_but_logistic
                (LogisticRegression
                   [("max_iter", PInt 1000); ("random_state", PInt 42);
                    ("multi_class", PStr "ovr")])
                BankRun.X BankRun.y) = false
    /\ List.length (filter is_error (log st')) = 1%nat
    /\ Py.get trained "logistic_regression" = Some "LogisticRegression of last week"
    /\ Py.keys trained = ["logistic_regression"; "random_forest"; "mlp_classifier"].
Proof.
  do 2 eexists. split; [vm_compute; reflexivity|].
  repeat split.
Qed.

Section Scorer.

Variables ndarray Obj : Type.
Variable predict : Obj -> ndarray -> result exn ndarray.
Variable has_predict_proba : Obj -> bool.
Variable predict_proba : Obj -> ndarray -> result exn ndarray.
Variable has_decision_function : Obj -> bool.
Variable decision_function : Obj -> ndarray -> result exn ndarray.

(** C7. In every state of the bank, [predict_log_level] called with a name
    that is not a key of [classification_models] raises the not-found
    [ValueError], whose message carries the requested name and the list of
    the keys of [classification_models]; [detect_anomalies] does the same
    with [anomaly_models].  Neither call changes the state. *)
Theorem unknown_model_is_reported (st : State Obj) (features : ndarray) (model_name : string) :
  (Py.contains (classification_models (self st)) model_name = false ->
   predict_log_level predict has_predict_proba predict_proba features model_name st
   = (Raise (ValueError [Lit "Model '"; Interp model_name;
                         Lit "' not found. Available models: ";
                         InterpList (Py.keys (classification_models (self st)))]),
      st))
  /\ (Py.contains (anomaly_models (self st)) model_name = false ->
      detect_anomalies predict has_decision_function decision_function features model_name st
      = (Raise (ValueError [Lit "Anomaly model '"; Interp model_name;
                            Lit "' not found. Available models: ";
                            InterpList (Py.keys (anomaly_models (self st)))]),
         st)).
Proof.
  split; intros Habsent; unfold Py.contains in Habsent.
  - unfold predict_log_level. run.
    destruct (Py.get (classification_models (self st)) model_name); [discriminate|].
    reflexivity.
  - unfold detect_anomalies. run.
    destruct (Py.get (anomaly_models (self st)) model_name); [discriminate|].
    reflexivity.
Qed.

End Scorer.

(** A bank trained on the three classifiers, asked for a model it does not
    hold. *)
Lemma unknown_model_is_reported_witness :
  let st := snd (train_classification_models BankRun.fit_all BankRun.cross_val_score
                   BankRun.X BankRun.y BankRun.fresh) in
  fst (predict_log_level BankRun.predict BankRun.has_method BankRun.predict
         BankRun.X "nonexistent" st)
  = Raise (ValueError [Lit "Model '"; Interp "nonexistent";
                       Lit "' not found. Available models: ";
                       InterpList ["random_forest"; "logistic_regression"; "mlp_classifier"]])
  /\ fst (detect_anomalies BankRun.predict BankRun.has_method BankRun.predict
            BankRun.X "nonexistent" st)
     = Raise (ValueError [Lit "Anomaly model '"; Interp "nonexistent";
                          Lit "' not found. Available models: "; InterpList []]).
Proof.
  intros st.
  destruct (unknown_model_is_reported BankRun.predict BankRun.has_method BankRun.predict
              BankRun.has_method BankRun.predict st BankRun.X "nonexistent") as [Hc Ha].
  split.
  - rewrite (Hc eq_refl). reflexivity.
  - rewrite (Ha eq_refl). reflexivity.
Defined.

Section Tuning.

Variables ndarray Obj : Type.
Variable grid_search_fit :
  Estimator -> list (string * list pval) -> ndarray -> ndarray
  -> result exn (list (string * pval) * ndarray * Obj).

(** C10. For a model name other than random_forest and
    logistic_regression, [hyperparameter_tuning] returns the empty dict
    without raising; the bank (so also [classification_models], which gets no
    tuned entry) and the files are unchanged, and the call logs its
    announcement and one warning. *)
Theorem tuning_of_other_models_is_a_no_op
  (st : State Obj) (X_train y_train : ndarray) (model_name : string) :
  model_name <> "random_forest" ->
  model_name <> "logistic_regression" ->
  exists st',
    hyperparameter_tuning grid_search_fit X_train y_train model_name st = (Ok [], st')
    /\ self st' = self st
    /\ fs st' = fs st
    /\ Py.get (classification_models (self st')) (model_name ++ "_tuned")
       = Py.get (classification_models (self st)) (model_name ++ "_tuned")
    /\ log st'
       = (log st
          ++ [(INFO, [Lit "Performing hyperparameter tuning for "; Interp model_name; Lit "..."]);
              (WARNING, [Lit "Hyperparameter tuning not implemented for "; Interp model_name])])%list.
Proof.
  intros Hrf Hlr. unfold hyperparameter_tuning.
  apply String.eqb_neq in Hrf, Hlr.
  unfold Py.bind at 1. unfold logger at 1. unfold Py.modify. rewrite Hrf, Hlr.
  run. eexists. split; [reflexivity|]. simpl.
  repeat split. now rewrite <- app_assoc.
Qed.

End Tuning.

(** Tuning the multi-layer perceptron on a fresh bank. *)
Lemma tuning_of_other_models_is_a_no_op_witness :
  exists st',
    hyperparameter_tuning BankRun.grid_search_fit BankRun.X BankRun.y "mlp_classifier"
      BankRun.fresh = (Ok [], st')
    /\ self st' = self BankRun.fresh.
Proof.
  destruct (@tuning_of_other_models_is_a_no_op _ _ BankRun.grid_search_fit BankRun.fresh
              BankRun.X BankRun.y "mlp_classifier")
    as [st' [Hrun [Hself _]]]; [discriminate | discriminate |].
  exists st'. split; [exact Hrun | exact Hself].
Defined.

End BankSpec.

(* ================================================================== *)
(** ** Artifact store *)

Module StrSearch.

Import PyStr.
Import StrFacts.
Open Scope string_scope.

Lemma prefix_nil s : String.prefix "" s = true.
Proof. destruct s; reflexivity. Qed.

Lemma prefix_cons c s x t :
  String.prefix (String c s) (String x t) = Ascii.eqb c x && String.prefix s t.
Proof.
  simpl. destruct (ascii_dec c x) as [->|Hne].
  - now rewrite Ascii.eqb_refl.
  - apply Ascii.eqb_neq in Hne. now rewrite Hne.
Qed.

Lemma prefix_append s r : String.prefix s (s ++ r) = true.
Proof.
  induction s as [|c s IH]; [apply prefix_nil|].
  cbn [append]. now rewrite prefix_cons, Ascii.eqb_refl.
Qed.

Lemma drop_append s r : drop (String.length s) (s ++ r) = r.
Proof. induction s; simpl; [now destruct r | assumption]. Qed.

(** A prefix of [a ++ w] either is a prefix of [a], or uses up [a] and goes
    on into [w]. *)
Lemma prefix_app_cases u : forall a w,
  String.prefix u (a ++ w) = true ->
  String.prefix u a = true
  \/ exists u2, u = a ++ u2 /\ u2 <> "" /\ String.prefix u2 w = true.
Proof.
  induction u as [|c u IH]; intros a w H.
  - left. apply prefix_nil.
  - destruct a as [|x a].
    + right. exists (String c u). simpl in *. repeat split; [discriminate | exact H].
    + cbn [append] in H. rewrite prefix_cons in H. apply andb_true_iff in H.
      destruct H as [Hc H]. apply Ascii.eqb_eq in Hc. subst x.
      destruct (IH a w H) as [Hp|[u2 [-> [Hne Hp]]]].
      * left. now rewrite prefix_cons, Ascii.eqb_refl.
      * right. exists u2. repeat split; assumption.
Qed.

Lemma has_char_append c a b : has_char c (a ++ b) = has_char c a || has_char c b.
Proof. induction a; simpl; [reflexivity | now rewrite IHa, orb_assoc]. Qed.

Lemma prefix_first_char u2 w c r :
  u2 <> "" -> String.prefix u2 (String c r ++ w) = true -> has_char c u2 = true.
Proof.
  intros Hne H. destruct u2 as [|x u2]; [contradiction|].
  cbn [append] in H. rewrite prefix_cons in H. apply andb_true_iff in H.
  simpl. now rewrite (proj1 H).
Qed.

Lemma partition_unfold sep s :
  partition sep s
  = if String.prefix sep s then Some ("", drop (String.length sep) s)
    else match s with
         | EmptyString => None
         | String c t =>
             match partition sep t with
             | Some (before, after) => Some (String c before, after)
             | None => None
             end
         end.
Proof. destruct s; reflexivity. Qed.

Lemma occurs_false_prefix sub s : occurs sub s = false -> String.prefix sub s = false.
Proof.
  unfold occurs. rewrite partition_unfold.
  destruct (String.prefix sub s); [discriminate | reflexivity].
Qed.

Lemma occurs_false_tail sub c s : occurs sub (String c s) = false -> occurs sub s = false.
Proof.
  intros H. pose proof (occurs_false_prefix _ _ H) as Hp.
  unfold occurs in *. rewrite partition_unfold, Hp in H.
  destruct (partition sub s) as [[b a]|]; [discriminate | reflexivity].
Qed.

(** The first occurrence of [sep] in [p ++ sep ++ r] is the one written
    out, when no occurrence starts inside [p]. *)
Lemma partition_at sep p r :
  (forall a, a <> "" -> (exists b, p = b ++ a) -> String.prefix sep (a ++ sep ++ r) = false) ->
  partition sep (p ++ sep ++ r) = Some (p, r).
Proof.
  induction p as [|c p IH]; intros Hno.
  - cbn [append]. now rewrite partition_unfold, prefix_append, drop_append.
  - rewrite partition_unfold.
    rewrite (Hno (String c p)); [|discriminate | now exists ""].
    cbn [append]. rewrite IH; [reflexivity|].
    intros a Ha [b Hb]. apply Hno; [exact Ha|]. exists (String c b). now rewrite Hb.
Qed.

Lemma partition_none sep s :
  (forall a, (exists b, s = b ++ a) -> String.prefix sep a = false) ->
  partition sep s = None.
Proof.
  induction s as [|c s IH]; intros Hno.
  - rewrite partition_unfold. now rewrite (Hno ""); [|exists ""].
  - rewrite partition_unfold. rewrite (Hno (String c s)); [|now exists ""].
    rewrite IH; [reflexivity|].
    intros a [b Hb]. apply Hno. exists (String c b). now rewrite Hb.
Qed.

Lemma occurs_false_suffix sub b a : occurs sub (b ++ a) = false -> occurs sub a = false.
Proof.
  induction b as [|c b IH]; intros H; [exact H|].
  apply IH. eapply occurs_false_tail. exact H.
Qed.

Lemma prefix_trans a b s :
  String.prefix a b = true -> String.prefix b s = true -> String.prefix a s = true.
Proof.
  revert b s. induction a as [|c a IH]; intros b s Hab Hbs; [apply prefix_nil|].
  destruct b as [|x b]; [discriminate|]. destruct s as [|z s]; [discriminate|].
  rewrite prefix_cons in *. apply andb_true_iff in Hab, Hbs.
  destruct Hab as [H1 H2], Hbs as [H3 H4].
  apply Ascii.eqb_eq in H1, H3. subst. rewrite Ascii.eqb_refl. simpl. eauto.
Qed.

Lemma prefix_occurs sub s : String.prefix sub s = true -> occurs sub s = true.
Proof. intros H. unfold occurs. now rewrite partition_unfold, H. Qed.

(** No occurrence of [sep] starts inside [p] when [p] is free of a prefix
    [core] of [sep] in which the first character of [sep] does not come
    back. *)
Lemma partition_fresh core c0 sep' p r :
  String.prefix core (String c0 sep') = true ->
  has_char c0 (tail core) = false ->
  occurs core p = false ->
  partition (String c0 sep') (p ++ String c0 sep' ++ r) = Some (p, r).
Proof.
  intros Hcore Hc0 Hfree. apply partition_at. intros a Ha [b ->].
  destruct (String.prefix (String c0 sep') (a ++ String c0 sep' ++ r)) eqn:E; [|reflexivity].
  exfalso. pose proof (prefix_trans _ _ _ Hcore E) as Hp.
  destruct (prefix_app_cases _ _ _ Hp) as [Hin|[u2 [Hsplit [Hne Hu2]]]].
  - apply prefix_occurs in Hin. apply occurs_false_suffix in Hfree. congruence.
  - apply prefix_first_char in Hu2; [|exact Hne].
    destruct a as [|x a]; [contradiction|].
    rewrite Hsplit in Hc0. simpl in Hc0. rewrite has_char_append, Hu2, orb_true_r in Hc0.
    discriminate.
Qed.

(** [sep] does not occur in [n ++ ext] when it occurs neither in [n] nor in
    [ext] and the first character of [ext] is not in [sep]. *)
Lemma partition_absent sep c0 ext' n :
  has_char c0 sep = false ->
  occurs sep (String c0 ext') = false ->
  occurs sep n = false ->
  partition sep (n ++ String c0 ext') = None.
Proof.
  intros Hc0 Hext. induction n as [|c n IH]; intros Hfree.
  - cbn [append]. unfold occurs in Hext.
    now destruct (partition sep (String c0 ext')).
  - rewrite partition_unfold.
    destruct (String.prefix sep (String c n ++ String c0 ext')) eqn:E.
    + exfalso. destruct (prefix_app_cases _ _ _ E) as [Hin|[u2 [Hsplit [Hne Hu2]]]].
      * apply prefix_occurs in Hin. congruence.
      * destruct u2 as [|x u2]; [contradiction|].
        rewrite prefix_cons in Hu2. apply andb_true_iff in Hu2.
        destruct Hu2 as [Hx _]. apply Ascii.eqb_eq in Hx. subst x.
        rewrite Hsplit, has_char_append in Hc0. simpl in Hc0.
        rewrite Ascii.eqb_refl in Hc0. simpl in Hc0. now rewrite orb_true_r in Hc0.
    + cbn [append]. rewrite IH; [reflexivity|]. eapply occurs_false_tail; eauto.
Qed.

Lemma length_pos_append p c t r : (0 < String.length (p ++ String c t ++ r))%nat.
Proof. rewrite length_append. simpl. lia. Qed.

(** The second piece of the split of [p ++ sep ++ rest]. *)
Lemma split_second sep p rest :
  sep <> "" ->
  partition sep (p ++ sep ++ rest) = Some (p, rest) ->
  partition sep rest = None ->
  nth_error (split sep (p ++ sep ++ rest)) 1 = Some rest.
Proof.
  intros Hne Hfirst Hrest. unfold split.
  destruct sep as [|c sep]; [contradiction|].
  destruct (String.length (p ++ String c sep ++ rest)) as [|fuel] eqn:E.
  - pose proof (length_pos_append p c sep rest). lia.
  - cbn [split_fuel]. rewrite Hfirst. simpl.
    destruct fuel; simpl; [reflexivity | now rewrite Hrest].
Qed.

(** Removing the extension of [n ++ ".pkl"] gives [n] back. *)
Lemma replace_extension n :
  occurs ".pkl" n = false -> replace ".pkl" "" (n ++ ".pkl") = n.
Proof.
  intros Hfree. unfold replace, split.
  assert (Hp : partition ".pkl" (n ++ ".pkl") = Some (n, "")).
  { change (n ++ ".pkl") with (n ++ ".pkl" ++ "").
    apply partition_fresh with (core := ".pkl"); [reflexivity | reflexivity | exact Hfree]. }
  rewrite length_append. simpl String.length. rewrite Nat.add_comm. simpl.
  rewrite Hp. destruct (String.length n + 3)%nat; simpl; now rewrite append_nil_r.
Qed.

End StrSearch.

Module GlobFacts.

Import PyStr.
Import StrFacts.
Open Scope string_scope.

Lemma tokenize_literal p pat :
  no_magic p = true ->
  tokenize (p ++ pat) = (map TLit (list_ascii_of_string p) ++ tokenize pat)%list.
Proof.
  unfold tokenize. induction p as [|c p IH]; intros Hp; [reflexivity|].
  simpl in Hp. rewrite !andb_true_iff, !negb_true_iff in Hp.
  destruct Hp as [[[H1 H2] H3] Hp].
  cbn [append String.length tokenize_fuel list_ascii_of_string map app].
  rewrite H1, H2, H3. cbv iota. rewrite <- app_comm_cons. f_equal. now apply IH.
Qed.

Section Match.

Variable class_match : string -> ascii -> bool.

Lemma match_literal l ts s : forall at_start,
  match_tokens class_match (map TLit (list_ascii_of_string l) ++ ts)%list at_start (l ++ s)
  = match_tokens class_match ts (after_literal l at_start) s.
Proof.
  unfold after_literal.
  induction l as [|x l IH]; intros at_start; [reflexivity|].
  cbn [append list_ascii_of_string map fold_left]. rewrite <- app_comm_cons.
  rewrite <- IH. cbn [match_tokens]. now rewrite Ascii.eqb_refl.
Qed.

Lemma after_literal_append a b at_start :
  after_literal (a ++ b) at_start = after_literal b (after_literal a at_start).
Proof. unfold after_literal. now rewrite chars_append, fold_left_app. Qed.

(** A star takes up any text without a slash. *)
Lemma match_star ts n s :
  no_slash n = true ->
  match_tokens class_match ts false s = true ->
  match_tokens class_match (TStar :: ts) false (n ++ s) = true.
Proof.
  intros Hn Hs. cbn [match_tokens].
  match goal with
  | |- negb ?h && _ = true => replace h with false by (destruct (n ++ s); reflexivity)
  end.
  cbn [negb andb].
  induction n as [|c n IH]; cbn [append].
  - destruct s; now rewrite Hs.
  - simpl in Hn. apply andb_true_iff in Hn. destruct Hn as [Hc Hn].
    rewrite Hc. simpl. rewrite (IH Hn). apply orb_true_r.
Qed.

Lemma no_magic_append a b : no_magic (a ++ b) = no_magic a && no_magic b.
Proof.
  induction a as [|c a IH]; [reflexivity|].
  cbn [append no_magic]. now rewrite IH, !andb_assoc.
Qed.

(** The pattern [p ++ lit ++ "*.pkl"] matches [p ++ lit ++ n ++ ".pkl"]. *)
Lemma star_pattern_hit p lit n :
  no_magic (p ++ lit) = true -> no_slash n = true ->
  after_literal lit true = false -> after_literal lit false = false ->
  fnmatch class_match (p ++ lit ++ "*.pkl") (p ++ lit ++ n ++ ".pkl") = true.
Proof.
  intros Hp Hn Hl1 Hl2. unfold fnmatch.
  replace (p ++ lit ++ "*.pkl") with ((p ++ lit) ++ "*.pkl") by apply append_assoc.
  replace (p ++ lit ++ n ++ ".pkl") with ((p ++ lit) ++ n ++ ".pkl") by apply append_assoc.
  rewrite tokenize_literal by exact Hp.
  change (tokenize "*.pkl")
    with [TStar; TLit "."%char; TLit "p"%char; TLit "k"%char; TLit "l"%char].
  rewrite match_literal, after_literal_append.
  replace (after_literal lit (after_literal p true)) with false
    by (destruct (after_literal p true); congruence).
  now apply match_star.
Qed.

Lemma class_pattern_hit p n :
  no_magic p = true -> no_slash n = true ->
  fnmatch class_match (p ++ "_classification_*.pkl") (p ++ "_classification_" ++ n ++ ".pkl")
  = true.
Proof.
  intros Hp Hn.
  apply (@star_pattern_hit p "_classification_" n); try reflexivity; [|exact Hn].
  now rewrite no_magic_append, Hp.
Qed.

Lemma anomaly_pattern_hit p n :
  no_magic p = true -> no_slash n = true ->
  fnmatch class_match (p ++ "_anomaly_*.pkl") (p ++ "_anomaly_" ++ n ++ ".pkl") = true.
Proof.
  intros Hp Hn.
  apply (@star_pattern_hit p "_anomaly_" n); try reflexivity; [|exact Hn].
  now rewrite no_magic_append, Hp.
Qed.

(** A pattern and a path that part after the common prefix and one
    underscore. *)
Lemma pattern_miss p c ptail x rest :
  no_magic p = true ->
  no_magic (String c EmptyString) = true ->
  Ascii.eqb c x = false ->
  fnmatch class_match (p ++ String "_" (String c ptail)) (p ++ String "_" (String x rest))
  = false.
Proof.
  intros Hp Hc Hx. unfold fnmatch.
  replace (p ++ String "_" (String c ptail)) with ((p ++ "_") ++ String c ptail)
    by (now rewrite append_assoc).
  replace (p ++ String "_" (String x rest)) with ((p ++ "_") ++ String x rest)
    by (now rewrite append_assoc).
  rewrite tokenize_literal by (now rewrite no_magic_append, Hp).
  unfold tokenize. cbn [String.length tokenize_fuel].
  simpl in Hc. rewrite !andb_true_iff, !negb_true_iff in Hc.
  destruct Hc as [[[H1 H2] H3] _]. rewrite H1, H2, H3. cbv iota.
  rewrite match_literal. cbn [match_tokens]. now rewrite Hx.
Qed.

End Match.

End GlobFacts.

Module StoreSpec.

Import ModelBank.
Import PyFacts StrFacts StrSearch GlobFacts.
Open Scope string_scope.

(** *** Reading a name back from a path *)

Lemma plain_prefix_parts p :
  plain_prefix p = true ->
  PyStr.no_magic p = true
  /\ PyStr.occurs "_classification" p = false
  /\ PyStr.occurs "_anomaly" p = false.
Proof.
  unfold plain_prefix. rewrite !andb_true_iff, !negb_true_iff. tauto.
Qed.

Lemma plain_name_parts sep n :
  plain_name sep n = true ->
  PyStr.no_slash n = true /\ PyStr.occurs sep n = false /\ PyStr.occurs ".pkl" n = false.
Proof.
  unfold plain_name. rewrite !andb_true_iff, !negb_true_iff. tauto.
Qed.

Lemma name_of_classification_path p n :
  plain_prefix p = true -> plain_name "_classification_" n = true ->
  name_of_path "_classification_" (classification_path p n) = Ok n.
Proof.
  intros Hp Hn. apply plain_prefix_parts in Hp. apply plain_name_parts in Hn.
  destruct Hp as [_ [Hp _]], Hn as [_ [Hsep Hext]].
  unfold name_of_path, classification_path.
  rewrite split_second.
  - now rewrite replace_extension.
  - discriminate.
  - apply partition_fresh with (core := "_classification"); [reflexivity | reflexivity | exact Hp].
  - apply partition_absent; [reflexivity | reflexivity | exact Hsep].
Qed.

Lemma name_of_anomaly_path p n :
  plain_prefix p = true -> plain_name "_anomaly_" n = true ->
  name_of_path "_anomaly_" (anomaly_path p n) = Ok n.
Proof.
  intros Hp Hn. apply plain_prefix_parts in Hp. apply plain_name_parts in Hn.
  destruct Hp as [_ [_ Hp]], Hn as [_ [Hsep Hext]].
  unfold name_of_path, anomaly_path.
  rewrite split_second.
  - now rewrite replace_extension.
  - discriminate.
  - apply partition_fresh with (core := "_anomaly"); [reflexivity | reflexivity | exact Hp].
  - apply partition_absent; [reflexivity | reflexivity | exact Hsep].
Qed.

Lemma classification_path_inj p n n' :
  classification_path p n = classification_path p n' -> n = n'.
Proof.
  unfold classification_path. intros H.
  apply append_inv_head in H. apply append_inv_head in H. now apply append_inv_tail in H.
Qed.

Lemma anomaly_path_inj p n n' : anomaly_path p n = anomaly_path p n' -> n = n'.
Proof.
  unfold anomaly_path. intros H.
  apply append_inv_head in H. apply append_inv_head in H. now apply append_inv_tail in H.
Qed.

Lemma kinds_differ p n n' : classification_path p n <> anomaly_path p n'.
Proof.
  unfold classification_path, anomaly_path. intros H.
  apply append_inv_head in H. discriminate.
Qed.

Lemma performance_is_no_model p n :
  classification_path p n <> performance_path p /\ anomaly_path p n <> performance_path p.
Proof.
  unfold classification_path, anomaly_path, performance_path.
  split; intros H; apply append_inv_head in H; discriminate.
Qed.

(** *** The files written by [save_models] *)

Section Written.

Variable Obj : Type.
Variable path : string -> string.
Hypothesis path_inj : forall n n', path n = path n' -> n = n'.

Lemma written_cons n (m : Obj) registry fls :
  written path ((n, m) :: registry) fls
  = written path registry (Py.set fls (path n) (Pickle m)).
Proof. reflexivity. Qed.

Lemma in_keys_written (registry : dict Obj) : forall fls p,
  In p (Py.keys (written path registry fls))
  <-> In p (Py.keys fls) \/ exists n, In n (Py.keys registry) /\ p = path n.
Proof.
  induction registry as [|[n m] registry IH]; intros fls p.
  - simpl. split; [tauto | intros [H|[n [[] _]]]; exact H].
  - rewrite written_cons, IH, in_keys_set. simpl. split.
    + intros [[->|H]|[n' [Hn' ->]]]; eauto.
    + intros [H|[n' [[<-|Hn'] ->]]]; eauto.
Qed.

Lemma nodup_keys_written (registry : dict Obj) : forall fls,
  NoDup (Py.keys fls) -> NoDup (Py.keys (written path registry fls)).
Proof.
  induction registry as [|[n m] registry IH]; intros fls Hnd; [exact Hnd|].
  rewrite written_cons. apply IH. now apply nodup_keys_set.
Qed.

Lemma get_written_other (registry : dict Obj) : forall fls p,
  (forall n, In n (Py.keys registry) -> p <> path n) ->
  Py.get (written path registry fls) p = Py.get fls p.
Proof.
  induction registry as [|[n m] registry IH]; intros fls p Hp; [reflexivity|].
  rewrite written_cons, IH.
  - apply get_set_other. intros E. apply (Hp n); [now left | now symmetry].
  - intros n' Hn'. apply Hp. now right.
Qed.

Lemma get_written (registry : dict Obj) : forall fls n,
  NoDup (Py.keys registry) ->
  Py.get (written path registry fls) (path n)
  = match Py.get registry n with
    | Some m => Some (Pickle m)
    | None => Py.get fls (path n)
    end.
Proof.
  induction registry as [|[n0 m0] registry IH]; intros fls n Hnd; [reflexivity|].
  inversion Hnd as [|? ? Hn0 Hnd']; subst.
  rewrite written_cons. simpl. destruct (String.eqb_spec n0 n) as [->|Hne].
  - rewrite get_written_other.
    + apply get_set_same.
    + intros n' Hn' E. apply path_inj in E. now subst.
  - rewrite IH by exact Hnd'. destruct (Py.get registry n); [reflexivity|].
    apply get_set_other. intros E. apply path_inj in E. contradiction.
Qed.

End Written.

Section Store.

Variable Obj : Type.
Variable empty_dict : Obj.
Variable scandir : list string -> list string.
Variable class_match : string -> ascii -> bool.

Hypothesis scandir_lists_all : forall l, Permutation (scandir l) l.

(** The loop of dumps, when every path can be opened. *)
Lemma dump_loop path (registry : dict Obj) : forall st : State Obj,
  (forall p, denied (fs st) p = false) ->
  Py.for_each (Py.items registry)
    (fun item => write_file (path (fst item)) (Pickle (snd item))) st
  = (Ok tt,
     {| self := self st;
        fs := {| files := written path registry (files (fs st));
                 denied := denied (fs st) |};
        log := log st |}).
Proof.
  unfold Py.items.
  induction registry as [|[n m] registry IH]; intros st Hw.
  - simpl. unfold Py.ret. destruct st as [b [f d] l]. reflexivity.
  - rewrite for_each_cons. unfold write_file at 1. rewrite Hw.
    rewrite IH by exact Hw. reflexivity.
Qed.

(** What [save_models] leaves behind when every path can be opened. *)
Lemma save_models_run prefix (st : State Obj) :
  (forall p, denied (fs st) p = false) ->
  save_models prefix st
  = (Ok tt,
     {| self := self st;
        fs := {| files :=
                   Py.set (written (anomaly_path prefix) (anomaly_models (self st))
                             (written (classification_path prefix)
                                (classification_models (self st)) (files (fs st))))
                          (performance_path prefix) (Pickle (model_performance (self st)));
                 denied := denied (fs st) |};
        log := (log st ++ [(INFO, [Lit "All models saved successfully"])])%list |}).
Proof.
  intros Hw. unfold save_models, Py.try_except, Py.bind, get_self.
  rewrite dump_loop by exact Hw. rewrite dump_loop by exact Hw.
  unfold write_file. simpl. rewrite Hw. reflexivity.
Qed.

(** *** The loops of [load_models] *)

Section LoadLoop.

Variable sep : string.
Variable path : string -> string.
Variable R : Type.
Variable reg : Bank Obj -> dict Obj.
Variable rest : Bank Obj -> R.
Variable register : string -> Obj -> meth Obj unit.
Variable saved : dict Obj.

Hypothesis path_inj : forall n n', path n = path n' -> n = n'.
Hypothesis register_spec : forall n m (st : State Obj),
  exists st',
    register n m st = (Ok tt, st')
    /\ fs st' = fs st /\ log st' = log st
    /\ reg (self st') = Py.set (reg (self st)) n m
    /\ rest (self st') = rest (self st).

(** The loading loop, when every listed file is the dump of a saved model
    under its own name. *)
Lemma load_loop listed : forall st : State Obj,
  (forall p, In p listed ->
     exists n m, p = path n /\ name_of_path sep p = Ok n
                 /\ Py.get (files (fs st)) p = Some (Pickle m)
                 /\ Py.get saved n = Some m) ->
  exists st',
    Py.for_each listed (load_one sep register) st = (Ok tt, st')
    /\ fs st' = fs st /\ log st' = log st
    /\ rest (self st') = rest (self st)
    /\ (forall x, In x (Py.keys (reg (self st')))
                  <-> In x (Py.keys (reg (self st))) \/ In (path x) listed)
    /\ (forall x, In (path x) listed -> Py.get (reg (self st')) x = Py.get saved x)
    /\ (forall x, ~ In (path x) listed ->
                  Py.get (reg (self st')) x = Py.get (reg (self st)) x)
    /\ (NoDup (Py.keys (reg (self st))) -> NoDup (Py.keys (reg (self st')))).
Proof.
  induction listed as [|p listed IH]; intros st Hd.
  - exists st. simpl. repeat split; tauto.
  - destruct (Hd p (or_introl eq_refl)) as [n [m [Hp [Hname [Hfile Hsaved]]]]].
    destruct (register_spec n m st) as [st1 [Hreg [Hfs1 [Hlog1 [Hreg1 Hrest1]]]]].
    destruct (IH st1) as [st' [Hloop [Hfs [Hlog [Hrest [Hkeys [Hin [Hout Hnd]]]]]]]].
    { intros q Hq. rewrite Hfs1. apply Hd. now right. }
    exists st'. rewrite for_each_cons.
    assert (Hone : load_one sep register p st = (Ok tt, st1)).
    { unfold load_one, Py.bind, call, read_pickle. rewrite Hname, Hfile. exact Hreg. }
    rewrite Hone.
    split; [exact Hloop|]. split; [congruence|]. split; [congruence|].
    split; [congruence|].
    split; [|split; [|split]].
    + intros x. rewrite Hkeys, Hreg1, in_keys_set. simpl. split.
      * intros [[->|H]|H]; auto.
      * intros [H|[H|H]]; auto. left. left. apply path_inj. congruence.
    + intros x [Hx|Hx].
      * destruct (in_dec string_dec (path x) listed) as [Hl|Hl]; [now apply Hin|].
        rewrite Hout by exact Hl. rewrite Hreg1.
        assert (x = n) by (apply path_inj; congruence). subst x.
        now rewrite get_set_same.
      * now apply Hin.
    + intros x Hx. simpl in Hx. rewrite Hout by tauto. rewrite Hreg1.
      apply get_set_other. intros ->. tauto.
    + intros H. apply Hnd. rewrite Hreg1. now apply nodup_keys_set.
Qed.

End LoadLoop.

Lemma register_classification n m (st : State Obj) :
  exists st',
    set_classification_model n m st = (Ok tt, st')
    /\ fs st' = fs st /\ log st' = log st
    /\ classification_models (self st') = Py.set (classification_models (self st)) n m
    /\ (anomaly_models (self st'), model_performance (self st'), is_trained (self st'))
       = (anomaly_models (self st), model_performance (self st), is_trained (self st)).
Proof. eexists. split; [reflexivity|]. simpl. auto. Qed.

Lemma register_anomaly n m (st : State Obj) :
  exists st',
    set_anomaly_model n m st = (Ok tt, st')
    /\ fs st' = fs st /\ log st' = log st
    /\ anomaly_models (self st') = Py.set (anomaly_models (self st)) n m
    /\ (classification_models (self st'), model_performance (self st'), is_trained (self st'))
       = (classification_models (self st), model_performance (self st), is_trained (self st)).
Proof. eexists. split; [reflexivity|]. simpl. auto. Qed.

Lemma in_glob pattern (fls : dict (File Obj)) p :
  In p (PyStr.glob class_match pattern (scandir (Py.keys fls)))
  <-> In p (Py.keys fls) /\ PyStr.fnmatch class_match pattern p = true.
Proof.
  unfold PyStr.glob. rewrite filter_In. split; intros [H1 H2]; split; auto.
  - eapply Permutation_in; [apply scandir_lists_all | exact H1].
  - eapply Permutation_in; [apply Permutation_sym, scandir_lists_all | exact H1].
Qed.

Lemma nodup_glob pattern (fls : dict (File Obj)) :
  NoDup (Py.keys fls) -> NoDup (PyStr.glob class_match pattern (scandir (Py.keys fls))).
Proof.
  intros H. apply NoDup_filter.
  eapply Permutation_NoDup; [apply Permutation_sym, scandir_lists_all | exact H].
Qed.

Lemma saved_keys prefix (st : State Obj) p :
  In p (Py.keys
          (Py.set (written (anomaly_path prefix) (anomaly_models (self st))
                     (written (classification_path prefix)
                        (classification_models (self st)) (files (fs st))))
             (performance_path prefix) (Pickle (model_performance (self st)))))
  <-> p = performance_path prefix
      \/ (exists n, In n (Py.keys (anomaly_models (self st))) /\ p = anomaly_path prefix n)
      \/ (exists n, In n (Py.keys (classification_models (self st)))
                    /\ p = classification_path prefix n)
      \/ In p (Py.keys (files (fs st))).
Proof. rewrite in_keys_set, !in_keys_written. tauto. Qed.

Lemma classification_pattern_misses prefix :
  PyStr.no_magic prefix = true ->
  (forall n, PyStr.fnmatch class_match (prefix ++ "_classification_*.pkl")
               (anomaly_path prefix n) = false)
  /\ PyStr.fnmatch class_match (prefix ++ "_classification_*.pkl")
       (performance_path prefix) = false.
Proof.
  intros Hp. split; [intros n|].
  - apply (@pattern_miss class_match prefix "c" "lassification_*.pkl" "a"
             ("nomaly_" ++ n ++ ".pkl") Hp eq_refl eq_refl).
  - apply (@pattern_miss class_match prefix "c" "lassification_*.pkl" "p"
             "erformance.pkl" Hp eq_refl eq_refl).
Qed.

Lemma anomaly_pattern_misses prefix :
  PyStr.no_magic prefix = true ->
  (forall n, PyStr.fnmatch class_match (prefix ++ "_anomaly_*.pkl")
               (classification_path prefix n) = false)
  /\ PyStr.fnmatch class_match (prefix ++ "_anomaly_*.pkl")
       (performance_path prefix) = false.
Proof.
  intros Hp. split; [intros n|].
  - apply (@pattern_miss class_match prefix "a" "nomaly_*.pkl" "c"
             ("lassification_" ++ n ++ ".pkl") Hp eq_refl eq_refl).
  - apply (@pattern_miss class_match prefix "a" "nomaly_*.pkl" "p"
             "erformance.pkl" Hp eq_refl eq_refl).
Qed.

(** C8, as the code has it.  Take a bank whose registries have distinct
    names, the classifier names free of slash, of .pkl and of
    _classification_, the detector names free of slash, of .pkl and of
    _anomaly_; a prefix without glob metacharacter that contains neither
    _classification nor _anomaly; and a file system in which every path can
    be written and no other file matches the two glob patterns.  Then
    [save_models] returns, [load_models] on a fresh bank returns, and the
    loaded bank has the same classifier names, the same detector names (as
    sets), the same object under every name, and the same performance
    report. *)
Theorem load_after_save_restores prefix (st : State Obj) :
  plain_prefix prefix = true ->
  (forall n, In n (Py.keys (classification_models (self st))) ->
             plain_name "_classification_" n = true) ->
  (forall n, In n (Py.keys (anomaly_models (self st))) -> plain_name "_anomaly_" n = true) ->
  well_formed (self st) ->
  NoDup (Py.keys (files (fs st))) ->
  (forall p, denied (fs st) p = false) ->
  no_stale_artifacts class_match prefix (self st) (files (fs st)) ->
  exists saved loaded,
    save_models prefix st = (Ok tt, saved)
    /\ self saved = self st
    /\ load_models scandir class_match prefix
         {| self := init empty_dict; fs := fs saved; log := log saved |} = (Ok tt, loaded)
    /\ Permutation (Py.keys (classification_models (self loaded)))
                   (Py.keys (classification_models (self st)))
    /\ Permutation (Py.keys (anomaly_models (self loaded)))
                   (Py.keys (anomaly_models (self st)))
    /\ (forall n, Py.get (classification_models (self loaded)) n
                  = Py.get (classification_models (self st)) n)
    /\ (forall n, Py.get (anomaly_models (self loaded)) n
                  = Py.get (anomaly_models (self st)) n)
    /\ model_performance (self loaded) = model_performance (self st)
    /\ is_trained (self loaded) = true.
Proof.
  intros Hprefix Hcnames Hanames [Hcnd Hand] Hfnd Hw [Hcstale Hastale].
  destruct (plain_prefix_parts _ Hprefix) as [Hmagic _].
  rewrite save_models_run by exact Hw.
  set (fls1 := Py.set _ (performance_path prefix) _).
  pose (fresh := {| self := init empty_dict;
                   fs := {| files := fls1; denied := denied (fs st) |};
                   log := (log st ++ [(INFO, [Lit "All models saved successfully"])])%list |}).
  assert (Hkeys1 : forall p, In p (Py.keys fls1)
            <-> p = performance_path prefix
                \/ (exists n, In n (Py.keys (anomaly_models (self st)))
                              /\ p = anomaly_path prefix n)
                \/ (exists n, In n (Py.keys (classification_models (self st)))
                              /\ p = classification_path prefix n)
                \/ In p (Py.keys (files (fs st)))) by (intros p; apply saved_keys).
  assert (Hnd1 : NoDup (Py.keys fls1))
    by (apply nodup_keys_set; do 2 apply nodup_keys_written; exact Hfnd).
  destruct (classification_pattern_misses prefix Hmagic) as [Hca Hcp].
  destruct (anomaly_pattern_misses prefix Hmagic) as [Hac Hap].
  (* the classifier files *)
  assert (Hcfile : forall n m, Py.get (classification_models (self st)) n = Some m ->
            Py.get fls1 (classification_path prefix n) = Some (Pickle m)).
  { intros n m Hget. unfold fls1.
    rewrite get_set_other by (intros E; symmetry in E; now apply performance_is_no_model in E).
    rewrite get_written_other by (intros n' _; apply kinds_differ).
    rewrite (@get_written Obj _ (@classification_path_inj prefix)) by exact Hcnd. now rewrite Hget. }
  assert (Hafile : forall n m, Py.get (anomaly_models (self st)) n = Some m ->
            Py.get fls1 (anomaly_path prefix n) = Some (Pickle m)).
  { intros n m Hget. unfold fls1.
    rewrite get_set_other by (intros E; symmetry in E; now apply performance_is_no_model in E).
    rewrite (@get_written Obj _ (@anomaly_path_inj prefix)) by exact Hand. now rewrite Hget. }
  set (Lc := PyStr.glob class_match (prefix ++ "_classification_*.pkl") (scandir (Py.keys fls1))).
  set (La := PyStr.glob class_match (prefix ++ "_anomaly_*.pkl") (scandir (Py.keys fls1))).
  assert (HLc : forall p, In p Lc <-> exists n, In n (Py.keys (classification_models (self st)))
                                               /\ p = classification_path prefix n).
  { intros p. unfold Lc. rewrite in_glob, Hkeys1. split.
    - intros [[->|[[n [_ ->]]|[H|H]]] Hm].
      + congruence.
      + rewrite Hca in Hm. discriminate.
      + exact H.
      + now apply Hcstale.
    - intros [n [Hn ->]]. split; [right; right; left; eauto|].
      apply class_pattern_hit; [exact Hmagic|].
      now destruct (plain_name_parts _ _ (Hcnames n Hn)). }
  assert (HLa : forall p, In p La <-> exists n, In n (Py.keys (anomaly_models (self st)))
                                               /\ p = anomaly_path prefix n).
  { intros p. unfold La. rewrite in_glob, Hkeys1. split.
    - intros [[->|[H|[[n [_ ->]]|H]]] Hm].
      + congruence.
      + exact H.
      + rewrite Hac in Hm. discriminate.
      + now apply Hastale.
    - intros [n [Hn ->]]. split; [right; left; eauto|].
      apply anomaly_pattern_hit; [exact Hmagic|].
      now destruct (plain_name_parts _ _ (Hanames n Hn)). }
  destruct (@load_loop "_classification_" (classification_path prefix) _
              (@classification_models Obj)
              (fun b => (anomaly_models b, model_performance b, is_trained b))
              (@set_classification_model Obj) (classification_models (self st))
              (@classification_path_inj prefix) register_classification Lc fresh)
    as [st2 [Hloop2 [Hfs2 [Hlog2 [Hrest2 [Hk2 [Hin2 [Hout2 Hnd2]]]]]]]].
  { intros p Hp. apply HLc in Hp. destruct Hp as [n [Hn ->]].
    destruct (in_keys_get _ _ Hn) as [m Hm]. exists n, m.
    repeat split; [now apply name_of_classification_path; auto | now apply Hcfile | exact Hm]. }
  destruct (@load_loop "_anomaly_" (anomaly_path prefix) _
              (@anomaly_models Obj)
              (fun b => (classification_models b, model_performance b, is_trained b))
              (@set_anomaly_model Obj) (anomaly_models (self st))
              (@anomaly_path_inj prefix) register_anomaly La st2)
    as [st3 [Hloop3 [Hfs3 [Hlog3 [Hrest3 [Hk3 [Hin3 [Hout3 Hnd3]]]]]]]].
  { intros p Hp. apply HLa in Hp. destruct Hp as [n [Hn ->]].
    destruct (in_keys_get _ _ Hn) as [m Hm]. exists n, m. rewrite Hfs2.
    repeat split; [now apply name_of_anomaly_path; auto | now apply Hafile | exact Hm]. }
  injection Hrest2 as Ha2 Hp2 Ht2. injection Hrest3 as Hc3 Hp3 Ht3.
  assert (Hperf : Py.get (files (fs st3)) (performance_path prefix)
                  = Some (Pickle (model_performance (self st)))).
  { rewrite Hfs3, Hfs2. apply get_set_same. }
  eexists. eexists. split; [reflexivity|]. split; [reflexivity|].
  cbn [fs log self].
  match goal with |- load_models _ _ _ ?s = _ /\ _ => change s with fresh end.
  split.
  { assert (Hg1 : glob_files scandir class_match (prefix ++ "_classification_*.pkl") fresh
                  = (Ok Lc, fresh)) by reflexivity.
    assert (Hg2 : glob_files scandir class_match (prefix ++ "_anomaly_*.pkl") st2
                  = (Ok La, st2)) by (unfold glob_files; now rewrite Hfs2).
    unfold load_models, Py.try_except.
    rewrite (@bind_ok _ _ _ _ _ _ _ _ _ Hg1), (@bind_ok _ _ _ _ _ _ _ _ _ Hloop2),
      (@bind_ok _ _ _ _ _ _ _ _ _ Hg2), (@bind_ok _ _ _ _ _ _ _ _ _ Hloop3).
    unfold Py.bind, read_pickle. rewrite Hperf. reflexivity. }
  cbn [self classification_models anomaly_models model_performance is_trained].
  assert (Hcget : forall n, Py.get (classification_models (self st2)) n
                            = Py.get (classification_models (self st)) n).
  { intros n. destruct (in_dec string_dec (classification_path prefix n) Lc) as [Hl|Hl].
    - now apply Hin2.
    - rewrite Hout2 by exact Hl. simpl. symmetry. apply get_none_not_in_keys.
      intros Hn. apply Hl, HLc. eauto. }
  assert (Haget : forall n, Py.get (anomaly_models (self st3)) n
                            = Py.get (anomaly_models (self st)) n).
  { intros n. destruct (in_dec string_dec (anomaly_path prefix n) La) as [Hl|Hl].
    - now apply Hin3.
    - rewrite Hout3 by exact Hl. rewrite Ha2. simpl. symmetry. apply get_none_not_in_keys.
      intros Hn. apply Hl, HLa. eauto. }
  rewrite Hc3. repeat split.
  - apply NoDup_Permutation; [apply Hnd2; constructor | exact Hcnd |].
    intros x. rewrite Hk2, HLc. simpl. split.
    + intros [[]|[n [Hn E]]]. apply classification_path_inj in E. now subst.
    + intros Hx. right. eauto.
  - apply NoDup_Permutation; [apply Hnd3; rewrite Ha2; constructor | exact Hand |].
    intros x. rewrite Hk3, HLa, Ha2. simpl. split.
    + intros [[]|[n [Hn E]]]. apply anomaly_path_inj in E. now subst.
    + intros Hx. right. eauto.
  - exact Hcget.
  - exact Haget.
Qed.

End Store.

(** The trained bank saved under the default prefix into an empty
    directory and loaded into a fresh bank. *)
Lemma load_after_save_restores_witness :
  exists saved loaded,
    save_models "enhanced_models" BankRun.trained = (Ok tt, saved)
    /\ load_models BankRun.listing BankRun.no_class "enhanced_models"
         {| self := init "{}"; fs := fs saved; log := log saved |} = (Ok tt, loaded)
    /\ Py.keys (classification_models (self loaded))
       = ["random_forest"; "logistic_regression"; "mlp_classifier"]
    /\ Py.keys (anomaly_models (self loaded)) = ["isolation_forest"; "one_class_svm"]
    /\ model_performance (self loaded) = model_performance (self BankRun.trained).
Proof.
  destruct (@load_after_save_restores BankRun.Obj "{}" BankRun.listing BankRun.no_class
              (fun l => Permutation_refl l) "enhanced_models" BankRun.trained)
    as [saved [loaded [Hsave [_ [Hload [_ [_ [_ [_ [Hperf _]]]]]]]]]].
  - reflexivity.
  - intros n Hn. simpl in Hn. destruct Hn as [<-|[<-|[<-|[]]]]; reflexivity.
  - intros n Hn. simpl in Hn. destruct Hn as [<-|[<-|[]]]; reflexivity.
  - split; simpl; repeat constructor; simpl; intuition discriminate.
  - constructor.
  - reflexivity.
  - split; intros p [].
  - exists saved, loaded. split; [exact Hsave|]. split; [exact Hload|].
    vm_compute in Hsave. injection Hsave as <-.
    vm_compute in Hload. injection Hload as <-.
    repeat split.
Defined.

(** C8 as the specification words it fails: with a classifier file of an
    earlier run under the same prefix, the bank that is loaded holds a
    classifier the saved bank never had. *)
Lemma stale_artifact_is_loaded :
  exists saved loaded,
    save_models "enhanced_models" BankRun.trained_beside_old_file = (Ok tt, saved)
    /\ load_models BankRun.listing BankRun.no_class "enhanced_models"
         {| self := init "{}"; fs := fs saved; log := log saved |} = (Ok tt, loaded)
    /\ Py.keys (classification_models (self loaded))
       = ["svc"; "random_forest"; "logistic_regression"; "mlp_classifier"]
    /\ ~ Permutation (Py.keys (classification_models (self loaded)))
                     (Py.keys (classification_models (self BankRun.trained_beside_old_file))).
Proof.
  do 2 eexists. split; [vm_compute; reflexivity|].
  split; [vm_compute; reflexivity|].
  split; [reflexivity|].
  intros H. apply Permutation_length in H. discriminate.
Qed.

End StoreSpec.

(* ================================================================== *)
(** ** The message normalizer *)

Module NormalizerSpec.

Import Normalizer.

Open Scope char_scope.

(** *** Characters *)

Ltac each_char c :=
  destruct c as [[] [] [] [] [] [] [] []]; vm_compute;
  first [reflexivity | let H := fresh in intros H; first [reflexivity | discriminate H]].

Lemma digit_not_space c : is_digit c = true -> is_space c = false.
Proof. each_char c. Qed.

Lemma hex_not_space c : is_hex c = true -> is_space c = false.
Proof. each_char c. Qed.

Lemma alpha_not_space c : is_alpha c = true -> is_space c = false.
Proof. each_char c. Qed.

Lemma word_not_space c : is_word c = true -> is_space c = false.
Proof. each_char c. Qed.

Lemma local_not_space c : email_local c = true -> is_space c = false.
Proof. each_char c. Qed.

Lemma domain_not_space c : email_domain c = true -> is_space c = false.
Proof. each_char c. Qed.

Lemma space_not_word c : is_space c = true -> is_word c = false.
Proof. each_char c. Qed.

Lemma digit_is_word c : is_digit c = true -> is_word c = true.
Proof. each_char c. Qed.

Lemma char_not_space x c : is_space x = false -> is_char x c = true -> is_space c = false.
Proof.
  unfold is_char. intros Hx Hc. apply Ascii.eqb_eq in Hc. now subst c.
Qed.

Lemma lower_char_idem c : lower_char (lower_char c) = lower_char c.
Proof. each_char c. Qed.

Lemma space_lower_char c : is_space (lower_char c) = is_space c.
Proof. each_char c. Qed.

Lemma lower_idem s : lower (lower s) = lower s.
Proof.
  unfold lower. rewrite map_map. apply map_ext. exact lower_char_idem.
Qed.

(** *** Substitution where the pattern does not occur *)

Lemma sub_fuel_quiet r repl fuel :
  forall prev s, search_from r prev s = false -> sub_fuel fuel r repl prev s = s.
Proof.
  induction fuel as [|fuel IH]; intros prev s H; [reflexivity|].
  destruct s as [|c t]; simpl in *.
  - destruct (match_here r prev []); [discriminate|reflexivity].
  - destruct (match_here r prev (c :: t)); [discriminate|].
    f_equal. now apply IH.
Qed.

Lemma sub_quiet r repl s : search r s = false -> sub r repl s = s.
Proof. apply sub_fuel_quiet. Qed.

Lemma substitute_quiet message : volatile message = false -> substitute message = message.
Proof.
  unfold volatile. intros H.
  repeat (apply orb_false_iff in H; destruct H as [H ?]).
  unfold substitute. cbv zeta.
  rewrite (@sub_quiet re_timestamp) by assumption.
  rewrite (@sub_quiet re_ip) by assumption.
  rewrite (@sub_quiet re_uuid) by assumption.
  rewrite (@sub_quiet re_num) by assumption.
  rewrite (@sub_quiet re_email) by assumption.
  now rewrite (@sub_quiet re_id) by assumption.
Qed.

(** *** Line 77 *)

Lemma many_skip :
  forall s prev, exists prev', hd_error (many is_space 0 None prev s) = Some (prev', lstrip s).
Proof.
  induction s as [|c t IH]; intros prev; simpl.
  - now exists prev.
  - destruct (is_space c) eqn:E; simpl.
    + destruct (IH (Some c)) as [prev' Hp].
      destruct (many is_space 0 None (Some c) t) as [|q l]; [discriminate|].
      exists prev'. exact Hp.
    + now exists prev.
Qed.

Lemma collapse_skip s : collapse true s = collapse false (lstrip s).
Proof.
  induction s as [|c t IH]; simpl; [reflexivity|].
  destruct (is_space c) eqn:E; [exact IH|].
  simpl. now rewrite E.
Qed.

Lemma length_lstrip s : (List.length (lstrip s) <= List.length s)%nat.
Proof.
  induction s as [|c t IH]; simpl; [lia|].
  destruct (is_space c); simpl; lia.
Qed.

Lemma sub_spaces fuel :
  forall s prev, (List.length s < fuel)%nat ->
                 sub_fuel fuel re_spaces (txt " ") prev s = collapse false s.
Proof.
  induction fuel as [|fuel IH]; intros s prev Hlen; [lia|].
  destruct s as [|c t]; [reflexivity|].
  cbn [sub_fuel]. unfold match_here, re_spaces, plus. cbn [run many].
  change (1 =? 0)%nat with false. change (Nat.pred 1) with 0%nat.
  change (exhausted None) with false. change (dec None) with (@None nat).
  cbn [negb]. rewrite andb_true_r. cbn [collapse].
  destruct (is_space c) eqn:E.
  - rewrite app_nil_r.
    destruct (many_skip t (Some c)) as [prev' Hp]. rewrite Hp.
    rewrite collapse_skip. apply (f_equal (cons " ")). apply IH.
    pose proof (length_lstrip t). simpl in Hlen. lia.
  - cbn [hd_error]. f_equal. apply IH. simpl in Hlen. lia.
Qed.

Lemma lstrip_collapse_true s : lstrip (collapse true s) = collapse true s.
Proof.
  induction s as [|c t IH]; simpl; [reflexivity|].
  destruct (is_space c) eqn:E; [exact IH|].
  simpl. now rewrite E.
Qed.

Lemma lstrip_collapse s : lstrip (collapse false s) = collapse true s.
Proof.
  destruct s as [|c t]; simpl; [reflexivity|].
  destruct (is_space c) eqn:E; simpl.
  - change (is_space " ") with true. cbv iota. apply lstrip_collapse_true.
  - now rewrite E.
Qed.

Lemma lstrip_app (l m : str) :
  lstrip (l ++ m)%list = match lstrip l with [] => lstrip m | r => (r ++ m)%list end.
Proof.
  induction l as [|c l IH]; simpl; [reflexivity|].
  destruct (is_space c); [exact IH|reflexivity].
Qed.

Lemma rstrip_cons c t :
  rstrip (c :: t)
  = match rstrip t with
    | [] => if is_space c then [] else [c]
    | r => c :: r
    end.
Proof.
  unfold rstrip. simpl List.rev. rewrite lstrip_app.
  destruct (lstrip (List.rev t)) as [|d r] eqn:E.
  - simpl. now destruct (is_space c).
  - rewrite rev_app_distr. simpl List.rev at 1. cbn [app].
    destruct (List.rev (d :: r)) eqn:E'; [|reflexivity].
    apply (f_equal (@List.length ascii)) in E'. rewrite length_rev in E'. discriminate.
Qed.

Lemma rstrip_cons_word c t : is_space c = false -> rstrip (c :: t) = c :: rstrip t.
Proof.
  intros E. rewrite rstrip_cons, E. now destruct (rstrip t).
Qed.

Lemma join_gap s :
  join_words Gap s = match join_words Start s with [] => [] | r => " " :: r end.
Proof.
  induction s as [|c t IH]; simpl; [reflexivity|].
  destruct (is_space c); [exact IH|reflexivity].
Qed.

Lemma rstrip_collapse s :
  rstrip (collapse false s) = join_words Word s
  /\ rstrip (collapse true s) = join_words Start s.
Proof.
  induction s as [|c t [IHw IHs]]; [now split|].
  simpl. destruct (is_space c) eqn:E.
  - split; [|exact IHs].
    rewrite rstrip_cons, IHs, join_gap. change (is_space " ") with true.
    now destruct (join_words Start t).
  - rewrite !(@rstrip_cons_word c _ E), IHw. now split.
Qed.

(** Line 77 writes the words of the message, one blank between two. *)
Lemma squeeze_join s : squeeze s = join_words Start s.
Proof.
  unfold squeeze, sub, strip.
  rewrite sub_spaces by lia.
  rewrite lstrip_collapse. apply rstrip_collapse.
Qed.

Lemma join_join ph s :
  join_words (match ph with Gap => Word | _ => ph end) (join_words ph s) = join_words ph s.
Proof.
  revert ph. induction s as [|c t IH]; intros ph; [now destruct ph|].
  simpl. destruct (is_space c) eqn:E.
  - destruct ph; [apply (IH Start)|apply (IH Gap)|apply (IH Gap)].
  - destruct ph; simpl; rewrite ?E; simpl; rewrite ?E; now rewrite (IH Word).
Qed.

Lemma lower_join ph s : lower (join_words ph s) = join_words ph (lower s).
Proof.
  revert ph. induction s as [|c t IH]; intros ph; [reflexivity|].
  simpl. rewrite space_lower_char. destruct (is_space c).
  - apply IH.
  - destruct ph; simpl; now rewrite IH.
Qed.

(** *** Patterns that hold no white space *)

Lemma agree_hd u t : agree u t -> word_opt (hd_error u) = word_opt (hd_error t).
Proof.
  destruct u as [|c u], t as [|d t]; simpl; intros H.
  - reflexivity.
  - now rewrite (@space_not_word d H).
  - now rewrite (@space_not_word c H).
  - destruct (is_space c) eqn:E.
    + now rewrite (@space_not_word c E), (@space_not_word d H).
    + now destruct H as [-> _].
Qed.

Lemma many_stop p hi : forall s prev, In (prev, s) (many p 0 hi prev s).
Proof.
  intros [|c t] prev; simpl; [now left|].
  destruct (p c && negb (exhausted hi)); [apply in_or_app; right|]; now left.
Qed.

Lemma many_more p lo prev c t q :
  p c = true -> In q (many p (Nat.pred lo) None (Some c) t) ->
  In q (many p lo None prev (c :: t)).
Proof.
  intros Hc Hq. cbn [many]. rewrite Hc. apply in_or_app. now left.
Qed.

Lemma stop_inv (lo : nat) (q q0 : pos) :
  In q (if (lo =? 0)%nat then [q0] else []) -> lo = 0%nat /\ q = q0.
Proof.
  destruct lo; simpl; [|contradiction].
  intros [<-|[]]. now split.
Qed.

Lemma many_alike p (Hp : forall c, p c = true -> is_space c = false) :
  forall u lo hi pu t pt,
    word_opt pu = word_opt pt -> agree u t ->
    forall q, In q (many p lo hi pu u) ->
              exists q', In q' (many p lo hi pt t) /\ alike q q'.
Proof.
  induction u as [|c u IH]; intros lo hi pu t pt Hw Ha q Hq.
  - cbn [many] in Hq. apply stop_inv in Hq. destruct Hq as [-> ->].
    exists (pt, t). split; [apply many_stop|now split].
  - cbn [many] in Hq. destruct (p c && negb (exhausted hi)) eqn:Epc.
    + pose proof Epc as Epc'. apply andb_true_iff in Epc'. destruct Epc' as [Ec Eh].
      pose proof (Hp _ Ec) as Esp.
      destruct t as [|d t]; simpl in Ha; [congruence|].
      rewrite Esp in Ha. destruct Ha as [<- Ha].
      apply in_app_or in Hq. destruct Hq as [Hq|Hq].
      * destruct (IH (Nat.pred lo) (dec hi) (Some c) t (Some c) eq_refl Ha q Hq)
          as [q' [Hq' Hal]].
        exists q'. split; [|exact Hal].
        cbn [many]. rewrite Epc. apply in_or_app. now left.
      * apply stop_inv in Hq. destruct Hq as [-> ->].
        exists (pt, c :: t). split; [apply many_stop|].
        split; [exact Hw|]. simpl. rewrite Esp. now split.
    + apply stop_inv in Hq. destruct Hq as [-> ->].
      exists (pt, t). split; [apply many_stop|now split].
Qed.

(** A pattern without white space matches alike at positions that are
    alike. *)
Lemma run_alike r :
  spacefree r ->
  forall q q', alike q q' ->
    forall q1, In q1 (run r (fst q) (snd q)) ->
               exists q1', In q1' (run r (fst q') (snd q')) /\ alike q1 q1'.
Proof.
  induction r as [|p|p lo hi|r1 IH1 r2 IH2|r1 IH1 r2 IH2|];
    intros Hsf [pu u] [pt t] [Hw Ha] q1 Hq1; cbn [fst snd run spacefree] in *.
  - destruct Hq1 as [<-|[]]. exists (pt, t). split; [now left|now split].
  - destruct u as [|c u]; [contradiction|].
    destruct (p c) eqn:Epc; [|contradiction].
    destruct Hq1 as [<-|[]]. pose proof (Hsf _ Epc) as Esp.
    destruct t as [|d t]; simpl in Ha; [congruence|].
    rewrite Esp in Ha. destruct Ha as [<- Ha].
    rewrite Epc. exists (Some c, t). split; [now left|now split].
  - now apply (@many_alike p Hsf u lo hi pu t pt Hw Ha).
  - destruct Hsf as [Hsf1 Hsf2].
    apply in_flat_map in Hq1. destruct Hq1 as [qm [Hqm Hq1]].
    destruct (IH1 Hsf1 (pu, u) (pt, t) (conj Hw Ha) qm Hqm) as [qm' [Hqm' Halm]].
    destruct (IH2 Hsf2 qm qm' Halm q1 Hq1) as [q1' [Hq1' Hal1]].
    exists q1'. split; [|exact Hal1].
    apply in_flat_map. exists qm'. now split.
  - destruct Hsf as [Hsf1 Hsf2].
    apply in_app_or in Hq1. destruct Hq1 as [Hq1|Hq1].
    + destruct (IH1 Hsf1 (pu, u) (pt, t) (conj Hw Ha) q1 Hq1) as [q1' [Hq1' Hal1]].
      exists q1'. split; [apply in_or_app; now left|exact Hal1].
    + destruct (IH2 Hsf2 (pu, u) (pt, t) (conj Hw Ha) q1 Hq1) as [q1' [Hq1' Hal1]].
      exists q1'. split; [apply in_or_app; now right|exact Hal1].
  - unfold is_boundary in *. rewrite <- Hw, <- (@agree_hd u t Ha).
    destruct (xorb (word_opt pu) (word_opt (hd_error u))); [|contradiction].
    destruct Hq1 as [<-|[]]. exists (pt, t). split; [now left|now split].
Qed.

(** *** Searching *)

Lemma positions_trans :
  forall s p q q2,
    In q (positions p s) -> In q2 (positions (fst q) (snd q)) -> In q2 (positions p s).
Proof.
  induction s as [|c s IH]; intros p q q2 Hq Hq2.
  - destruct Hq as [<-|[]]. exact Hq2.
  - destruct Hq as [<-|Hq]; [exact Hq2|].
    right. exact (IH (Some c) q q2 Hq Hq2).
Qed.

Lemma search_from_true r :
  forall s p,
    search_from r p s = true
    <-> exists q, In q (positions p s) /\ run r (fst q) (snd q) <> [].
Proof.
  induction s as [|c s IH]; intros p; cbn [search_from positions]; unfold match_here.
  - destruct (run r p []) as [|q0 l] eqn:E; cbn [hd_error].
    + split; [discriminate|]. intros [q [[<-|[]] Hq]]. now elim Hq.
    + split; [|reflexivity]. intros _. exists (p, []).
      split; [now left|]. cbn [fst snd]. now rewrite E.
  - destruct (run r p (c :: s)) as [|q0 l] eqn:E; cbn [hd_error].
    + rewrite IH. split.
      * intros [q [Hq Hr]]. exists q. split; [now right|exact Hr].
      * intros [q [[<-|Hq] Hr]]; [now elim Hr|]. exists q. now split.
    + split; [|reflexivity]. intros _. exists (p, c :: s).
      split; [now left|]. cbn [fst snd]. now rewrite E.
Qed.

Lemma agree_word : forall t, agree (join_words Word t) t.
Proof.
  induction t as [|c t IH]; simpl; [exact I|].
  destruct (is_space c) eqn:E.
  - rewrite join_gap. now destruct (join_words Start t).
  - simpl. rewrite E. now split.
Qed.

(** Every position of the squeezed message is alike a position of the
    message. *)
Lemma positions_join :
  forall s (started : bool) pu pt,
    word_opt pu = word_opt pt ->
    (started = false -> word_opt pu = false) ->
    forall q, In q (positions pu (join_words (if started then Word else Start) s)) ->
              exists q', In q' (positions pt s) /\ alike q q'.
Proof.
  induction s as [|c t IH]; intros started pu pt Hw Hs q Hq.
  - replace (join_words (if started then Word else Start) []) with (@nil ascii) in Hq
      by now destruct started.
    destruct Hq as [<-|[]]. exists (pt, []). split; [now left|now split].
  - destruct (is_space c) eqn:E.
    + assert (Hc : is_word c = false) by exact (@space_not_word c E).
      destruct started.
      * cbn [join_words] in Hq. rewrite E, join_gap in Hq.
        destruct (join_words Start t) as [|d r] eqn:Ej.
        -- destruct Hq as [<-|[]]. exists (pt, c :: t).
           split; [now left|]. split; [exact Hw|exact E].
        -- destruct Hq as [<-|Hq].
           ++ exists (pt, c :: t). split; [now left|]. split; [exact Hw|exact E].
           ++ rewrite <- Ej in Hq.
              destruct (IH false (Some " ") (Some c) (eq_sym Hc) (fun _ => eq_refl) q Hq)
                as [q' [Hq' Hal]].
              exists q'. split; [now right|exact Hal].
      * cbn [join_words] in Hq. rewrite E in Hq.
        assert (Hw' : word_opt pu = word_opt (Some c))
          by (rewrite (Hs eq_refl); symmetry; exact Hc).
        destruct (IH false pu (Some c) Hw' Hs q Hq) as [q' [Hq' Hal]].
        exists q'. split; [now right|exact Hal].
    + assert (Hj : join_words (if started then Word else Start) (c :: t)
                   = c :: join_words Word t)
        by (destruct started; simpl; now rewrite E).
      rewrite Hj in Hq. destruct Hq as [<-|Hq].
      * exists (pt, c :: t). split; [now left|].
        split; [exact Hw|]. simpl. rewrite E. split; [reflexivity|apply agree_word].
      * assert (Hs' : true = false -> word_opt (Some c) = false) by discriminate.
        destruct (IH true (Some c) (Some c) eq_refl Hs' q Hq) as [q' [Hq' Hal]].
        exists q'. split; [now right|exact Hal].
Qed.

Lemma search_join r s :
  spacefree r -> search r (join_words Start s) = true -> search r s = true.
Proof.
  intros Hsf H. apply search_from_true in H. destruct H as [q [Hq Hr]].
  destruct (@positions_join s false None None eq_refl (fun _ => eq_refl) q Hq)
    as [q' [Hq' Hal]].
  apply search_from_true. exists q'. split; [exact Hq'|].
  destruct (run r (fst q) (snd q)) as [|q1 l] eqn:E; [now elim Hr|].
  assert (Hin : In q1 (run r (fst q) (snd q))) by (rewrite E; now left).
  destruct (@run_alike r Hsf q q' Hal q1 Hin) as [q1' [Hq1' _]].
  intros E'. rewrite E' in Hq1'. contradiction.
Qed.

Lemma search_join_false r s :
  spacefree r -> search r s = false -> search r (join_words Start s) = false.
Proof.
  intros Hsf H. destruct (search r (join_words Start s)) eqn:E; [|reflexivity].
  apply (@search_join r s Hsf) in E. congruence.
Qed.

(** *** The patterns *)

Ltac class_by_class :=
  cbn [seqs alts lit txt list_ascii_of_string spacefree];
  repeat match goal with
         | |- _ /\ _ => split
         | |- True => exact I
         end;
  let c := fresh "c" in
  let H := fresh "H" in
  intros c H;
  first [ exact (@digit_not_space c H)
        | exact (@hex_not_space c H)
        | exact (@alpha_not_space c H)
        | exact (@word_not_space c H)
        | exact (@local_not_space c H)
        | exact (@domain_not_space c H)
        | eapply char_not_space; [|exact H]; reflexivity ].

Lemma spacefree_ip : spacefree re_ip.
Proof. unfold re_ip, plus, chr. class_by_class. Qed.

Lemma spacefree_uuid : spacefree re_uuid.
Proof. unfold re_uuid, exactly, chr. class_by_class. Qed.

Lemma spacefree_num : spacefree re_num.
Proof. unfold re_num, plus. class_by_class. Qed.

Lemma spacefree_email : spacefree re_email.
Proof. unfold re_email, plus, at_least, chr. class_by_class. Qed.

Lemma spacefree_id : spacefree re_id.
Proof. unfold re_id, plus. class_by_class. Qed.

(** A timestamp holds a number: its month. *)

Lemma many_exact_0 p prev s : many p 0 (Some 0%nat) prev s = [(prev, s)].
Proof.
  destruct s as [|c t]; simpl; [reflexivity|]. now rewrite andb_false_r.
Qed.

Lemma many_exact_S p n prev s :
  many p (S n) (Some (S n)) prev s
  = match s with
    | c :: t => if p c then many p n (Some n) (Some c) t else []
    | [] => []
    end.
Proof.
  destruct s as [|c t]; simpl; [reflexivity|].
  rewrite andb_true_r. destruct (p c); [apply app_nil_r|reflexivity].
Qed.

Lemma exactly_in p n :
  forall s prev q,
    In q (run (exactly n p) prev s) ->
    exists pre, s = (pre ++ snd q)%list /\ List.length pre = n /\ forallb p pre = true.
Proof.
  unfold exactly. cbn [run].
  induction n as [|n IH]; intros s prev q Hq.
  - rewrite many_exact_0 in Hq. destruct Hq as [<-|[]]. now exists [].
  - rewrite many_exact_S in Hq. destruct s as [|c t]; [contradiction|].
    destruct (p c) eqn:Ec; [|contradiction].
    destruct (IH t (Some c) q Hq) as [pre [-> [Hlen Hall]]].
    exists (c :: pre). simpl. rewrite Ec, Hlen, Hall. now repeat split.
Qed.

Lemma chr_in x prev s q : In q (run (chr x) prev s) -> s = x :: snd q.
Proof.
  unfold chr, is_char. cbn [run]. destruct s as [|c t]; [contradiction|].
  destruct (Ascii.eqb x c) eqn:E; [|contradiction].
  intros [<-|[]]. apply Ascii.eqb_eq in E. now subst c.
Qed.

Lemma seq_nonempty r1 r2 prev s :
  run (Seq r1 r2) prev s <> [] ->
  exists q, In q (run r1 prev s) /\ run r2 (fst q) (snd q) <> [].
Proof.
  cbn [run]. induction (run r1 prev s) as [|q l IH]; cbn [flat_map]; intros H.
  - now elim H.
  - destruct (run r2 (fst q) (snd q)) as [|q2 l2] eqn:E.
    + destruct (IH H) as [q' [Hq' Hr]]. exists q'. split; [now right|exact Hr].
    + exists q. split; [now left|]. now rewrite E.
Qed.

Lemma seq_matches r1 r2 prev s q :
  In q (run r1 prev s) -> run r2 (fst q) (snd q) <> [] -> run (Seq r1 r2) prev s <> [].
Proof.
  intros Hq Hr E. cbn [run] in E.
  destruct (run r2 (fst q) (snd q)) as [|q2 l2] eqn:E2; [now elim Hr|].
  assert (Hin : In q2 (flat_map (fun q => run r2 (fst q) (snd q)) (run r1 prev s))).
  { apply in_flat_map. exists q. split; [exact Hq|]. rewrite E2. now left. }
  rewrite E in Hin. contradiction.
Qed.

Lemma timestamp_shape prev s :
  run re_timestamp prev s <> [] ->
  exists a b c d e f rest,
    s = a :: b :: c :: d :: "-" :: e :: f :: "-" :: rest
    /\ is_digit e = true /\ is_digit f = true.
Proof.
  unfold re_timestamp. cbn [seqs]. intros H.
  apply seq_nonempty in H. destruct H as [q1 [H1 H]].
  apply seq_nonempty in H. destruct H as [q2 [H2 H]].
  apply seq_nonempty in H. destruct H as [q3 [H3 H]].
  apply seq_nonempty in H. destruct H as [q4 [H4 _]].
  apply exactly_in in H1. destruct H1 as [pre1 [-> [Hl1 _]]].
  apply chr_in in H2. rewrite H2.
  apply exactly_in in H3. destruct H3 as [pre3 [-> [Hl3 Hd3]]].
  apply chr_in in H4. rewrite H4.
  destruct pre1 as [|a [|b [|c [|d [|x pre1]]]]]; try discriminate Hl1.
  destruct pre3 as [|e [|f [|x pre3]]]; try discriminate Hl3.
  simpl in Hd3. apply andb_true_iff in Hd3. destruct Hd3 as [He Hf].
  rewrite andb_true_r in Hf.
  exists a, b, c, d, e, f, (snd q4). now repeat split.
Qed.

Lemma number_after_dash e f rest :
  is_digit e = true -> is_digit f = true ->
  run re_num (Some "-") (e :: f :: "-" :: rest) <> [].
Proof.
  intros He Hf. unfold re_num, plus. cbn [seqs].
  apply (@seq_matches WordB _ _ _ (Some "-", e :: f :: "-" :: rest)).
  - cbn [run]. unfold is_boundary. cbn [word_opt hd_error].
    rewrite (@digit_is_word e He). now left.
  - cbn [fst snd].
    apply (@seq_matches _ WordB _ _ (Some f, "-" :: rest)).
    + cbn [run]. apply many_more; [exact He|]. apply many_more; [exact Hf|].
      exact (many_stop is_digit None ("-" :: rest) (Some f)).
    + cbn [run fst snd]. unfold is_boundary. cbn [word_opt hd_error].
      rewrite (@digit_is_word f Hf). discriminate.
Qed.

Lemma timestamp_has_number s :
  search re_timestamp s = true -> search re_num s = true.
Proof.
  intros H. apply search_from_true in H. destruct H as [[prev u] [Hq Hr]].
  cbn [fst snd] in Hr.
  destruct (@timestamp_shape prev u Hr) as [a [b [c [d [e [f [rest [-> [He Hf]]]]]]]]].
  apply search_from_true. exists (Some "-", e :: f :: "-" :: rest). split.
  - apply (@positions_trans s None _ _ Hq). cbn [fst snd positions].
    do 5 right. now left.
  - exact (@number_after_dash e f rest He Hf).
Qed.

Lemma volatile_join s : volatile s = false -> volatile (join_words Start s) = false.
Proof.
  unfold volatile. intros H.
  apply orb_false_iff in H. destruct H as [H Hid].
  apply orb_false_iff in H. destruct H as [H Hemail].
  apply orb_false_iff in H. destruct H as [H Hnum].
  apply orb_false_iff in H. destruct H as [H Huuid].
  apply orb_false_iff in H. destruct H as [_ Hip].
  rewrite (@search_join_false re_ip s spacefree_ip Hip).
  rewrite (@search_join_false re_uuid s spacefree_uuid Huuid).
  rewrite (@search_join_false re_num s spacefree_num Hnum).
  rewrite (@search_join_false re_email s spacefree_email Hemail).
  rewrite (@search_join_false re_id s spacefree_id Hid).
  destruct (search re_timestamp (join_words Start s)) eqn:E; [|reflexivity].
  apply timestamp_has_number in E.
  rewrite (@search_join_false re_num s spacefree_num Hnum) in E. discriminate.
Qed.

(** *** Cleaning twice *)

Lemma clean_str_twice s :
  volatile (lower s) = false -> clean_str (clean_str s) = clean_str s.
Proof.
  intros H. unfold clean_str.
  rewrite (@substitute_quiet (lower s) H), !squeeze_join.
  rewrite lower_join, lower_idem.
  rewrite (@substitute_quiet _ (@volatile_join (lower s) H)).
  exact (join_join Start (lower s)).
Qed.

Open Scope string_scope.

(** C1, as amended.  On an ASCII message in which, once in lower case,
    none of the six patterns occurs (no timestamp, IP address, UUID,
    number, e-mail address or prefixed identifier), cleaning the cleaned
    message gives the cleaned message. *)
Theorem cleaning_is_idempotent_without_placeholders (s : string) :
  forallb is_ascii7 (list_ascii_of_string s) = true ->
  volatile (lower (list_ascii_of_string s)) = false ->
  clean_log_message (CStr (clean_log_message (CStr s))) = clean_log_message (CStr s).
Proof.
  intros _ H. cbn [clean_log_message].
  rewrite list_ascii_of_string_of_list_ascii.
  now rewrite (@clean_str_twice _ H).
Qed.

Lemma cleaning_is_idempotent_without_placeholders_witness :
  clean_log_message (CStr "  Disk  FULL on node ") = "disk full on node"
  /\ clean_log_message (CStr (clean_log_message (CStr "  Disk  FULL on node ")))
     = clean_log_message (CStr "  Disk  FULL on node ").
Proof.
  split; [vm_compute; reflexivity|].
  apply cleaning_is_idempotent_without_placeholders; vm_compute; reflexivity.
Defined.

(** C1 as the specification words it fails: the first pass writes the
    placeholder in upper case, the second pass begins by lower-casing
    the message, placeholder included. *)
Lemma second_cleaning_lowers_the_placeholder :
  clean_log_message (CStr "Retry 5") = "retry [NUM]"
  /\ clean_log_message (CStr (clean_log_message (CStr "Retry 5"))) = "retry [num]"
  /\ clean_log_message (CStr (clean_log_message (CStr "Retry 5")))
     <> clean_log_message (CStr "Retry 5").
Proof.
  assert (E1 : clean_log_message (CStr "Retry 5") = "retry [NUM]")
    by (vm_compute; reflexivity).
  assert (E2 : clean_log_message (CStr "retry [NUM]") = "retry [num]")
    by (vm_compute; reflexivity).
  rewrite E1, E2. repeat split. discriminate.
Qed.

End NormalizerSpec.

(* ================================================================== *)
(** ** The message normalizer: the shape of a cleaned message *)

Module NormalizerShape.

Import Normalizer NormalizerSpec.

Open Scope char_scope.

Lemma join_white ph s c :
  In c (join_words ph s) -> is_space c = true -> c = " ".
Proof.
  revert ph. induction s as [|c0 t IH]; intros ph Hin Hc; [destruct Hin|].
  simpl in Hin. destruct (is_space c0) eqn:E.
  - exact (IH _ Hin Hc).
  - destruct ph; simpl in Hin.
    + destruct Hin as [<-|Hin]; [congruence | exact (IH _ Hin Hc)].
    + destruct Hin as [<-|Hin]; [congruence | exact (IH _ Hin Hc)].
    + destruct Hin as [<-|[<-|Hin]]; [reflexivity | congruence | exact (IH _ Hin Hc)].
Qed.

Lemma join_head s c rest :
  join_words Start s = c :: rest -> is_space c = false.
Proof.
  induction s as [|c0 t IH]; simpl; [discriminate|].
  destruct (is_space c0) eqn:E; [exact IH|].
  intros H. injection H as <- _. exact E.
Qed.

Lemma join_last s :
  forall ph front c, join_words ph s = (front ++ [c])%list -> is_space c = false.
Proof.
  induction s as [|c0 t IH]; intros ph front c H.
  - destruct front; discriminate.
  - simpl in H. destruct (is_space c0) eqn:E; [exact (IH _ _ _ H)|].
    assert (Hword : forall front, c0 :: join_words Word t = (front ++ [c])%list ->
                                  is_space c = false).
    { intros [|x f'] Hf; simpl in Hf; injection Hf as Hc Hj.
      - now subst c.
      - exact (IH _ _ _ Hj). }
    destruct ph; [exact (Hword _ H) | exact (Hword _ H) |].
    destruct front as [|x f']; simpl in H.
    + discriminate.
    + injection H as _ Hj. exact (Hword _ Hj).
Qed.

Lemma join_single s :
  forall ph front a b rest,
    join_words ph s = (front ++ a :: b :: rest)%list ->
    is_space a = true -> is_space b = false.
Proof.
  induction s as [|c0 t IH]; intros ph front a b rest H Ha.
  - destruct front; discriminate.
  - simpl in H. destruct (is_space c0) eqn:E; [exact (IH _ _ _ _ _ H Ha)|].
    assert (Hword : forall front, c0 :: join_words Word t = (front ++ a :: b :: rest)%list ->
                                  is_space b = false).
    { intros [|x f'] Hf; simpl in Hf; injection Hf as Hc Hj.
      - congruence.
      - exact (IH _ _ _ _ _ Hj Ha). }
    destruct ph; [exact (Hword _ H) | exact (Hword _ H) |].
    destruct front as [|x f']; simpl in H.
    + injection H as _ Hb _. now subst b.
    + injection H as _ Hj. exact (Hword _ Hj).
Qed.

Open Scope string_scope.

(** X1. Whatever the ASCII message (or the cell that is no string), the
    cleaned message is single-spaced: its only white-space character is the
    blank, it neither begins nor ends with white space, and no white space
    follows white space. *)
Theorem cleaned_message_is_single_spaced (message : cell) :
  (forall s, message = CStr s -> forallb is_ascii7 (list_ascii_of_string s) = true) ->
  let out := list_ascii_of_string (clean_log_message message) in
  (forall c, In c out -> is_space c = true -> c = " "%char)
  /\ (forall c rest, out = c :: rest -> is_space c = false)
  /\ (forall front c, out = (front ++ [c])%list -> is_space c = false)
  /\ (forall front a b rest,
         out = (front ++ a :: b :: rest)%list -> is_space a = true -> is_space b = false).
Proof.
  assert (Hnil : forall out : str,
             out = [] ->
             (forall c, In c out -> is_space c = true -> c = " "%char)
             /\ (forall c rest, out = c :: rest -> is_space c = false)
             /\ (forall front c, out = (front ++ [c])%list -> is_space c = false)
             /\ (forall front a b rest,
                    out = (front ++ a :: b :: rest)%list ->
                    is_space a = true -> is_space b = false)).
  { intros out ->. repeat split.
    - intros c [].
    - discriminate.
    - intros [|x f] c H; discriminate H.
    - intros [|x f] a b rest H; discriminate H. }
  intros _.
  destruct message as [s| | |]; cbv zeta; cbn [clean_log_message];
    [|now apply Hnil..].
  rewrite list_ascii_of_string_of_list_ascii. unfold clean_str.
  rewrite squeeze_join. repeat split.
  - intros c. apply join_white.
  - intros c rest. apply join_head.
  - intros front c. apply join_last.
  - intros front a b rest. apply join_single.
Qed.

(** A message with a tab, a line break and blanks at both ends. *)
Lemma cleaned_message_is_single_spaced_witness :
  let message :=
    CStr ("  Disk" ++ String "009"%char "FULL " ++ String "010"%char " on  node ") in
  clean_log_message message = "disk full on node"
  /\ forall front a b rest,
       list_ascii_of_string (clean_log_message message) = (front ++ a :: b :: rest)%list ->
       is_space a = true -> is_space b = false.
Proof.
  intros message. split; [vm_compute; reflexivity|].
  apply (@cleaned_message_is_single_spaced message).
  intros s H. injection H as <-. vm_compute. reflexivity.
Defined.

End NormalizerShape.

(* ================================================================== *)
(** ** The temporal features: missing cells and week-ends *)

Module TemporalRows.

Import Temporal TemporalSpec.
Import PyFacts.
Open Scope Z_scope.

(** X3. In the table [extract_temporal_features] returns, a row whose
    timestamp parsed has its hour, its day of the week, and [is_weekend] 1
    exactly on days 5 and 6 (Saturday, Sunday); a row whose timestamp is
    missing (NaT) has NaN for hour and day and 0 for all three flags. *)
Theorem weekend_flag_and_missing_timestamps parse_cell timestamps features :
  extract_temporal_features parse_cell timestamps = Ok features ->
  forall i raw,
    nth_error timestamps i = Some raw ->
    (forall t, parse_cell raw = Some (At t) ->
       nth_error (col_hour features) i = Some (CInt (hour t))
       /\ nth_error (col_day_of_week features) i = Some (CInt (dayofweek t))
       /\ exists w, nth_error (col_is_weekend features) i = Some (CInt w)
                    /\ (w = 1 <-> 5 <= dayofweek t) /\ (w = 0 \/ w = 1))
    /\ (parse_cell raw = Some NaT ->
        nth_error (col_hour features) i = Some CNaN
        /\ nth_error (col_day_of_week features) i = Some CNaN
        /\ nth_error (col_is_weekend features) i = Some (CInt 0)
        /\ nth_error (col_is_business_hours features) i = Some (CInt 0)
        /\ nth_error (col_is_night features) i = Some (CInt 0)).
Proof.
  unfold extract_temporal_features. intros H i raw Hi.
  destruct (to_datetime parse_cell timestamps) as [ds|e] eqn:E; [|discriminate].
  injection H as <-.
  destruct (to_datetime_nth _ _ E _ Hi) as [d [Hd Hnth]].
  split.
  - intros t Ht. rewrite Ht in Hd. injection Hd as <-.
    simpl. rewrite !nth_error_map, Hnth. simpl.
    split; [reflexivity|]. split; [reflexivity|].
    exists (if 5 <=? dayofweek t then 1 else 0). split; [reflexivity|].
    destruct (Z.leb_spec 5 (dayofweek t));
      (split; [split; intros; try reflexivity; try discriminate; lia | auto]).
  - intros Ht. rewrite Ht in Hd. injection Hd as <-.
    simpl. rewrite !nth_error_map, Hnth. simpl. repeat split.
Qed.

(** A Saturday, a missing cell, a Monday. *)
Lemma weekend_flag_and_missing_timestamps_witness :
  exists features,
    extract_temporal_features parse_iso [CStr "2024-03-09 10:00:00"; CNaN; CStr "2024-03-11 10:00:00"]
    = Ok features
    /\ nth_error (col_day_of_week features) 0 = Some (CInt 5)
    /\ nth_error (col_is_weekend features) 1 = Some (CInt 0)
    /\ nth_error (col_hour features) 1 = Some CNaN.
Proof.
  destruct (extract_temporal_features parse_iso
              [CStr "2024-03-09 10:00:00"; CNaN; CStr "2024-03-11 10:00:00"]%string)
    as [features|e] eqn:E; [|vm_compute in E; discriminate].
  exists features. split; [reflexivity|].
  pose proof (@weekend_flag_and_missing_timestamps parse_iso _ features E) as H.
  destruct (H 0%nat (CStr "2024-03-09 10:00:00"%string) eq_refl) as [Hsat _].
  destruct (H 1%nat CNaN eq_refl) as [_ Hnat].
  destruct (Hsat {| hour := 10; minute := 0; dayofweek := 5 |}) as [_ [Hday _]];
    [vm_compute; reflexivity|].
  destruct (Hnat eq_refl) as [Hhour [_ [Hwe _]]].
  repeat split; assumption.
Defined.

End TemporalRows.

(* ================================================================== *)
(** ** The anomaly flags of [detect_anomalous_patterns] *)

Module AnomalyFlags.

Import Preprocess.
Import PyFacts.
Open Scope string_scope.

Section Flags.

Variable parse_cell : cell -> option Temporal.datetime.
Variable high_error_period : list Temporal.datetime -> list cell -> list cell.

(** X4. On a table with a timestamp column, [detect_anomalous_patterns]
    fails exactly when [extract_temporal_features] fails on that column,
    with the same error; when it returns, its [unusual_timing] column is the
    [is_night] column of [extract_temporal_features]. *)
Theorem unusual_timing_is_the_night_flag (df : DataFrame) (timestamps : list cell) :
  Py.get df "timestamp" = Some timestamps ->
  match Temporal.extract_temporal_features parse_cell timestamps with
  | Ok features =>
      exists out,
        detect_anomalous_patterns parse_cell high_error_period df = Ok out
        /\ Py.get out "unusual_timing" = Some (Temporal.col_is_night features)
  | Raise e => detect_anomalous_patterns parse_cell high_error_period df = Raise e
  end.
Proof.
  intros Hts. unfold Temporal.extract_temporal_features, detect_anomalous_patterns.
  rewrite Hts. destruct (Temporal.to_datetime parse_cell timestamps) as [ds|e]; [|reflexivity].
  destruct (Py.get df "level") as [levels|]; eexists; (split; [reflexivity|]); simpl.
  - rewrite get_set_other by discriminate. apply get_set_same.
  - apply get_set_same.
Qed.

(** The columns that are no flags are those of the input. *)
Lemma detect_keeps (df out : DataFrame) col :
  detect_anomalous_patterns parse_cell high_error_period df = Ok out ->
  col <> "is_anomaly" -> col <> "unusual_timing" -> col <> "high_error_period" ->
  Py.get out col = Py.get df col.
Proof.
  unfold detect_anomalous_patterns. intros H H1 H2 H3.
  destruct (Py.get df "timestamp") as [timestamps|].
  - destruct (Temporal.to_datetime parse_cell timestamps) as [ds|e]; [|discriminate].
    destruct (Py.get df "level") as [levels|]; injection H as <-;
      rewrite ?(@get_set_other _ _ "high_error_period" col) by congruence;
      rewrite ?(@get_set_other _ _ "unusual_timing" col) by congruence;
      apply get_set_other; congruence.
  - injection H as <-. apply get_set_other. congruence.
Qed.

(** X5. When [detect_anomalous_patterns] returns, [is_anomaly] is 1 on
    the rows whose [anomaly_type] is present and 0 on the rows where it is
    missing, and 0 on every row when the table has no [anomaly_type] column;
    every column other than the three flags is as in the input; and without
    a timestamp column no timing flag is added. *)
Theorem anomaly_flag_follows_the_label (df out : DataFrame) :
  detect_anomalous_patterns parse_cell high_error_period df = Ok out ->
  (forall column,
      Py.get df "anomaly_type" = Some column ->
      exists flags,
        Py.get out "is_anomaly" = Some flags
        /\ List.length flags = List.length column
        /\ forall i c, nth_error column i = Some c ->
                       nth_error flags i = Some (CInt (if isna c then 0 else 1)))
  /\ (Py.get df "anomaly_type" = None ->
      Py.get out "is_anomaly" = Some (repeat (CInt 0) (len_df df)))
  /\ (forall col,
         col <> "is_anomaly" -> col <> "unusual_timing" -> col <> "high_error_period" ->
         Py.get out col = Py.get df col)
  /\ (Py.get df "timestamp" = None ->
      Py.get out "unusual_timing" = Py.get df "unusual_timing"
      /\ Py.get out "high_error_period" = Py.get df "high_error_period").
Proof.
  intros H. pose proof (fun col => @detect_keeps df out col H) as Hkeep.
  unfold detect_anomalous_patterns in H.
  assert (Hout : exists flagged,
             (out = Py.set df "is_anomaly" flagged
              \/ (exists timing, out = Py.set (Py.set df "is_anomaly" flagged)
                                         "unusual_timing" timing)
              \/ (exists timing errors,
                     out = Py.set (Py.set (Py.set df "is_anomaly" flagged)
                                     "unusual_timing" timing)
                             "high_error_period" errors))
             /\ (Py.get df "timestamp" = None -> out = Py.set df "is_anomaly" flagged)
             /\ flagged = match Py.get df "anomaly_type" with
                          | Some column =>
                              map (fun c => Temporal.astype_int (negb (isna c))) column
                          | None => repeat (CInt 0) (len_df df)
                          end).
  { eexists. split; [|split; [|reflexivity]].
    - destruct (Py.get df "timestamp") as [timestamps|]; [|left; congruence].
      destruct (Temporal.to_datetime parse_cell timestamps) as [ds|e]; [|discriminate].
      destruct (Py.get df "level") as [levels|]; injection H as <-; eauto.
    - intros Hts. rewrite Hts in H. congruence. }
  destruct Hout as [flagged [Hshape [Hplain Hflagged]]].
  assert (Hflag : Py.get out "is_anomaly" = Some flagged).
  { destruct Hshape as [->|[[timing ->]|[timing [errors ->]]]];
      rewrite ?(@get_set_other _ _ "high_error_period" "is_anomaly") by discriminate;
      rewrite ?(@get_set_other _ _ "unusual_timing" "is_anomaly") by discriminate;
      apply get_set_same. }
  split; [|split; [|split]].
  - intros column Hcol. rewrite Hcol in Hflagged. exists flagged.
    split; [exact Hflag|]. subst flagged. split; [apply length_map|].
    intros i c Hi. rewrite nth_error_map, Hi. simpl. now destruct (isna c).
  - intros Hnone. rewrite Hnone in Hflagged. now rewrite Hflag, Hflagged.
  - exact Hkeep.
  - intros Hts. rewrite (Hplain Hts).
    split; apply get_set_other; discriminate.
Qed.

End Flags.

(** Monday's table: four timestamps, the last two at night. *)
Lemma unusual_timing_is_the_night_flag_witness :
  exists out,
    detect_anomalous_patterns Temporal.parse_iso PipelineRun.high_error_period
      PipelineRun.monday = Ok out
    /\ Py.get out "unusual_timing" = Some [CInt 0; CInt 0; CInt 1; CInt 1].
Proof.
  pose proof (@unusual_timing_is_the_night_flag Temporal.parse_iso
                PipelineRun.high_error_period PipelineRun.monday
                (PipelineRun.column 0
                   [PipelineRun.row "2024-03-04 09:15:00" "INFO" "api"
                      "User user_17 logged in from 10.0.0.7";
                    PipelineRun.row "2024-03-04 09:16:30" "ERROR" "db"
                      "Query q_991 failed after 3 retries";
                    PipelineRun.row "2024-03-04 23:05:00" "INFO" "api"
                      "User user_18 logged in from 10.0.0.9";
                    PipelineRun.row "2024-03-04 23:40:10" "ERROR" "db" "Connection lost"])
                eq_refl) as H.
  vm_compute in H. destruct H as [out [Hrun Hcol]].
  exists out. split.
  - vm_compute. exact Hrun.
  - exact Hcol.
Defined.

(** A table with labels on two of its three rows and no timestamps. *)
Lemma anomaly_flag_follows_the_label_witness :
  exists out,
    detect_anomalous_patterns Temporal.parse_iso PipelineRun.high_error_period
      [("message", [CStr "a"; CStr "b"; CStr "c"]);
       ("anomaly_type", [CStr "burst"; CNaN; CStr "spike"])] = Ok out
    /\ Py.get out "is_anomaly" = Some [CInt 1; CInt 0; CInt 1]
    /\ Py.get out "message" = Some [CStr "a"; CStr "b"; CStr "c"]
    /\ Py.get out "unusual_timing" = None.
Proof.
  eexists. split; [reflexivity|].
  destruct (@anomaly_flag_follows_the_label Temporal.parse_iso PipelineRun.high_error_period
              [("message", [CStr "a"; CStr "b"; CStr "c"]);
               ("anomaly_type", [CStr "burst"; CNaN; CStr "spike"])] _ eq_refl)
    as [Hlab [_ [Hkeep Hplain]]].
  split; [reflexivity|]. split.
  - rewrite (Hkeep "message"); [reflexivity | discriminate..].
  - destruct (Hplain eq_refl) as [-> _]. reflexivity.
Defined.

End AnomalyFlags.

(* ================================================================== *)
(** ** The categorical encoder: what every call keeps *)

Module EncoderRounds.

Import Encoder EncoderSpec.
Import PyFacts.
Open Scope string_scope.

(** *** The lookup table, whatever the classes *)

Lemma table_fold_sound l : forall pre (d : dict nat),
  (forall v n, Py.get d v = Some n -> nth_error (pre ++ l) n = Some v) ->
  forall v n,
    Py.get (fold_left (fun d iv => Py.set d (snd iv) (fst iv))
              (enumerate_from (List.length pre) l) d) v = Some n ->
    nth_error (pre ++ l) n = Some v.
Proof.
  induction l as [|x l IH]; intros pre d Hd v n; simpl.
  - apply Hd.
  - replace (pre ++ x :: l)%list with ((pre ++ [x]) ++ l)%list
      by now rewrite <- app_assoc.
    replace (S (List.length pre)) with (List.length (pre ++ [x])%list)
      by (rewrite length_app; simpl; lia).
    apply IH. intros v' n' H.
    rewrite <- app_assoc. simpl.
    destruct (String.eqb_spec x v') as [->|Hne].
    + rewrite get_set_same in H. injection H as <-.
      rewrite nth_error_app2 by lia. now rewrite Nat.sub_diag.
    + rewrite get_set_other in H by exact Hne. now apply Hd.
Qed.

(** The table sends a value to a position that holds it. *)
Lemma table_of_sound l v n : Py.get (table_of l) v = Some n -> nth_error l n = Some v.
Proof.
  unfold table_of. apply (@table_fold_sound l [] []). intros v' n' H. discriminate.
Qed.

Lemma transform_decodes classes_ values codes :
  transform classes_ values = Ok codes -> Forall2 (coded classes_) values codes.
Proof.
  intros H. apply map_to_integer_spec in H.
  eapply Forall2_impl; [|exact H]. intros v code [n [-> Hn]].
  exists n. split; [reflexivity | now apply table_of_sound].
Qed.

Section Rounds.

Variable set_iter : list string -> list string.

(** *** What a round leaves alone *)

Lemma encode_column_frame df c encoded_df les r les' :
  encode_column set_iter df c encoded_df les = (r, les') ->
  (forall col, col <> c \/ Py.get df c = None -> Py.get les' col = Py.get les col)
  /\ (forall encoded_df',
         r = Ok encoded_df' ->
         forall name, name <> encoded_name c \/ Py.get df c = None ->
                      Py.get encoded_df' name = Py.get encoded_df name).
Proof.
  unfold encode_column, LabelEncoder in *. cbv beta zeta.
  destruct (Py.get df c) as [column|] eqn:Hdf.
  - assert (Hset : forall (cl : list string) col,
               col <> c \/ Some column = None ->
               Py.get (Py.set les c cl) col = Py.get les col).
    { intros cl col [Hne|Hn]; [|discriminate]. apply get_set_other. congruence. }
    assert (Hcol : forall codes e' name,
               @Ok exn DataFrame (Py.set encoded_df (encoded_name c) codes) = Ok e' ->
               name <> encoded_name c \/ Some column = None ->
               Py.get e' name = Py.get encoded_df name).
    { intros codes e' name He [Hne|Hn]; [|discriminate]. injection He as <-.
      apply get_set_other. congruence. }
    destruct (Py.get les c) as [classes_|].
    + destruct (transform _ _) as [codes|e]; intros H; injection H as <- <-;
        (split; [intros col; apply Hset|]); intros e' He; [|discriminate].
      intros name. now apply Hcol with (codes := map CInt codes).
    + destruct (fit_transform (astype_str column)) as [cl [codes|e]];
        intros H; injection H as <- <-;
        (split; [intros col; apply Hset|]); intros e' He; [|discriminate].
      intros name. now apply Hcol with (codes := map CInt codes).
  - intros H. injection H as <- <-. split; [reflexivity|].
    intros e' He. now injection He as <-.
Qed.

Lemma encode_columns_frame df cols : forall encoded_df les r les',
  encode_columns set_iter df cols encoded_df les = (r, les') ->
  (forall col, ~ In col cols \/ Py.get df col = None -> Py.get les' col = Py.get les col)
  /\ (forall encoded_df',
         r = Ok encoded_df' ->
         forall name,
           (forall col, In col cols -> Py.get df col <> None -> name <> encoded_name col) ->
           Py.get encoded_df' name = Py.get encoded_df name).
Proof.
  induction cols as [|c cols IH]; intros e l r l' H; simpl in H.
  - injection H as <- <-. split; [reflexivity|]. intros e' He. now injection He as <-.
  - unfold Py.bind in H.
    destruct (encode_column set_iter df c e l) as [[e1|ex] l1] eqn:Hround.
    + destruct (encode_column_frame _ _ _ _ Hround) as [Hl1 He1].
      destruct (IH _ _ _ _ H) as [Hl He]. split.
      * intros col Hcol. rewrite Hl, Hl1; [reflexivity | |].
        -- destruct Hcol as [Hn|Hn]; [left; intros ->; apply Hn; now left|].
           destruct (String.eqb_spec col c) as [->|Hne]; [now right | now left].
        -- destruct Hcol as [Hn|Hn]; [left; intros Hin; apply Hn; now right | now right].
      * intros e' Hr name Hname. rewrite (He e' Hr name), (He1 e1 eq_refl name).
        -- reflexivity.
        -- destruct (Py.get df c) as [column|] eqn:Hdf; [left | now right].
           apply Hname; [now left | congruence].
        -- intros col Hin. apply Hname. now right.
    + injection H as <- <-.
      destruct (encode_column_frame _ _ _ _ Hround) as [Hl1 _]. split.
      * intros col Hcol. apply Hl1.
        destruct Hcol as [Hn|Hn]; [left; intros ->; apply Hn; now left|].
        destruct (String.eqb_spec col c) as [->|Hne]; [now right | now left].
      * discriminate.
Qed.

(** X8. [encode_categorical_features] touches nothing but its columns:
    the encoder of a name that is not listed, or that is no column of the
    table, is as before the call (no encoder is created for it), also when
    the call raises; and when the call returns, every column of the returned
    table is the column of the input, except the columns
    [<col>_encoded] of the listed columns the table has. *)
Theorem encoding_touches_only_its_columns df categorical_columns les r les' :
  encode_categorical_features set_iter df categorical_columns les = (r, les') ->
  (forall col,
      ~ In col categorical_columns \/ Py.get df col = None ->
      Py.get les' col = Py.get les col)
  /\ (forall encoded_df,
         r = Ok encoded_df ->
         forall name,
           (forall col, In col categorical_columns -> Py.get df col <> None ->
                        name <> encoded_name col) ->
           Py.get encoded_df name = Py.get df name).
Proof.
  unfold encode_categorical_features. apply encode_columns_frame.
Qed.

Hypothesis valid : set_iter_valid set_iter.

(** *** A round on [col] *)

Lemma encode_column_decodes df col column encoded_df les :
  Py.get df col = Some column ->
  exists encoded_df' les' classes_ codes,
    encode_column set_iter df col encoded_df les = (Ok encoded_df', les')
    /\ Py.get les' col = Some classes_
    /\ Py.get encoded_df' (encoded_name col) = Some (map CInt codes)
    /\ Forall2 (coded classes_) (astype_str column) codes.
Proof.
  intros Hdf. unfold encode_column, LabelEncoder in *. rewrite Hdf.
  destruct (Py.get les col) as [classes_|].
  - destruct (@transform_total (extend_classes set_iter classes_ (astype_str column))
                (astype_str column)) as [codes Hc].
    { intros v Hv. apply (in_extend_classes valid). now right. }
    rewrite Hc. do 4 eexists. split; [reflexivity|].
    split; [apply get_set_same|]. split; [apply get_set_same|].
    now apply transform_decodes.
  - destruct (fit_transform_spec (astype_str column)) as [codes [Hf Hc]].
    rewrite Hf. do 4 eexists. split; [reflexivity|].
    split; [apply get_set_same|]. split; [apply get_set_same | exact Hc].
Qed.

Lemma encode_columns_decodes df col column cols : forall encoded_df les,
  Py.get df col = Some column ->
  exists encoded_df' les',
    encode_columns set_iter df cols encoded_df les = (Ok encoded_df', les')
    /\ ((In col cols
         \/ exists classes_ codes,
             Py.get les col = Some classes_
             /\ Py.get encoded_df (encoded_name col) = Some (map CInt codes)
             /\ Forall2 (coded classes_) (astype_str column) codes) ->
        exists classes_ codes,
          Py.get les' col = Some classes_
          /\ Py.get encoded_df' (encoded_name col) = Some (map CInt codes)
          /\ Forall2 (coded classes_) (astype_str column) codes).
Proof.
  induction cols as [|c cols IH]; intros e l Hdf; simpl.
  - exists e, l. split; [reflexivity|]. intros [[]|H]. exact H.
  - unfold Py.bind. destruct (String.eqb_spec c col) as [->|Hne].
    + destruct (@encode_column_decodes df col column e l Hdf)
        as [e1 [l1 [cl [codes [Hround Hdec]]]]].
      rewrite Hround. destruct (IH e1 l1 Hdf) as [e' [l' [Hrun Hkeep]]].
      exists e', l'. split; [exact Hrun|]. intros _. apply Hkeep. right. eauto.
    + destruct (@encode_column_total set_iter valid df c e l) as [e1 [l1 Hround]].
      rewrite Hround. destruct (IH e1 l1 Hdf) as [e' [l' [Hrun Hkeep]]].
      exists e', l'. split; [exact Hrun|].
      destruct (encode_column_frame _ _ _ _ Hround) as [Hl1 He1].
      intros [[Heq|Hin]|[cl [codes [H1 [H2 H3]]]]]; [congruence | apply Hkeep; now left|].
      apply Hkeep. right. exists cl, codes.
      rewrite Hl1 by (left; congruence).
      rewrite (He1 e1 eq_refl)
        by (left; intros E; apply Hne; symmetry; now apply encoded_name_inj).
      auto.
Qed.

Lemma encode_columns_total_run df cols : forall encoded_df les,
  exists encoded_df' les',
    encode_columns set_iter df cols encoded_df les = (Ok encoded_df', les').
Proof.
  induction cols as [|c cols IH]; intros e l; simpl; [now exists e, l|].
  unfold Py.bind.
  destruct (@encode_column_total set_iter valid df c e l) as [e1 [l1 Hround]].
  rewrite Hround. apply IH.
Qed.

(** X6. Whatever encoders the object holds, [encode_categorical_features]
    returns without raising, and every encoded column decodes: for each
    listed column of the table, the code written for a row is a position in
    the [classes_] the encoder holds after the call, and that position holds
    the value of the row (as a string). *)
Theorem encoded_column_decodes df categorical_columns les :
  exists encoded_df les',
    encode_categorical_features set_iter df categorical_columns les = (Ok encoded_df, les')
    /\ forall col column,
        In col categorical_columns -> Py.get df col = Some column ->
        exists classes_ codes,
          Py.get les' col = Some classes_
          /\ Py.get encoded_df (encoded_name col) = Some (map CInt codes)
          /\ Forall2 (fun v code =>
                        (0 <= code < Z.of_nat (List.length classes_))%Z
                        /\ nth_error classes_ (Z.to_nat code) = Some v)
                     (astype_str column) codes.
Proof.
  unfold encode_categorical_features.
  destruct (encode_columns_total_run df categorical_columns df les) as [e [l Hrun]].
  exists e, l. split; [exact Hrun|].
  intros col column Hin Hdf.
  destruct (@encode_columns_decodes df col column categorical_columns df les Hdf)
    as [e' [l' [Hrun' Hdec]]].
  rewrite Hrun in Hrun'. injection Hrun' as <- <-.
  destruct (Hdec (or_introl Hin)) as [cl [codes [H1 [H2 H3]]]].
  exists cl, codes. split; [exact H1|]. split; [exact H2|].
  eapply Forall2_impl; [|exact H3]. intros v code H. now apply coded_in_range.
Qed.

Lemma encode_columns_known df col column classes_ codes cols : forall encoded_df les,
  Py.get df col = Some column ->
  (forall v, In v (astype_str column) -> In v classes_) ->
  transform classes_ (astype_str column) = Ok codes ->
  Py.get les col = Some classes_ ->
  exists encoded_df' les',
    encode_columns set_iter df cols encoded_df les = (Ok encoded_df', les')
    /\ Py.get les' col = Some classes_
    /\ (In col cols -> Py.get encoded_df' (encoded_name col) = Some (map CInt codes))
    /\ (~ In col cols ->
        Py.get encoded_df' (encoded_name col) = Py.get encoded_df (encoded_name col)).
Proof.
  induction cols as [|c cols IH]; intros e l Hdf Hknown Hcodes Hles; simpl.
  - exists e, l. split; [reflexivity|]. split; [exact Hles|]. split; [intros [] | reflexivity].
  - unfold Py.bind. destruct (String.eqb_spec c col) as [->|Hne].
    + assert (Hround : encode_column set_iter df col e l
                       = (Ok (Py.set e (encoded_name col) (map CInt codes)),
                          Py.set l col classes_)).
      { unfold encode_column, LabelEncoder in *. rewrite Hdf, Hles.
        rewrite (extend_classes_known valid) by exact Hknown. now rewrite Hcodes. }
      rewrite Hround.
      destruct (IH (Py.set e (encoded_name col) (map CInt codes)) (Py.set l col classes_)
                  Hdf Hknown Hcodes (get_set_same _ _ _))
        as [e' [l' [Hrun [Hl' [Hin Hout]]]]].
      exists e', l'. split; [exact Hrun|]. split; [exact Hl'|].
      split; [|intros Hn; exfalso; apply Hn; now left].
      intros _. destruct (in_dec string_dec col cols) as [Hc|Hc]; [now apply Hin|].
      rewrite (Hout Hc). apply get_set_same.
    + destruct (@encode_column_total set_iter valid df c e l) as [e1 [l1 Hround]].
      rewrite Hround.
      destruct (encode_column_frame _ _ _ _ Hround) as [Hl1 He1].
      assert (Hles1 : Py.get l1 col = Some classes_)
        by (rewrite Hl1; [exact Hles | left; congruence]).
      destruct (IH e1 l1 Hdf Hknown Hcodes Hles1) as [e' [l' [Hrun [Hl' [Hin Hout]]]]].
      exists e', l'. split; [exact Hrun|]. split; [exact Hl'|]. split.
      * intros [Heq|Hc]; [congruence | now apply Hin].
      * intros Hn. rewrite Hout by (intros Hc; apply Hn; now right).
        apply (He1 e1 eq_refl). left. intros E. apply Hne. symmetry.
        now apply encoded_name_inj.
Qed.

(** X7. When every value of a listed column is already known to the
    encoder of that column, [encode_categorical_features] leaves the
    vocabulary of the encoder as it is, and the encoded column holds the
    codes the encoder gave before the call. *)
Theorem known_values_keep_the_vocabulary df categorical_columns les col column classes_ :
  In col categorical_columns ->
  Py.get df col = Some column ->
  Py.get les col = Some classes_ ->
  (forall v, In v (astype_str column) -> In v classes_) ->
  exists encoded_df les' codes,
    encode_categorical_features set_iter df categorical_columns les = (Ok encoded_df, les')
    /\ Py.get les' col = Some classes_
    /\ transform classes_ (astype_str column) = Ok codes
    /\ Py.get encoded_df (encoded_name col) = Some (map CInt codes).
Proof.
  intros Hin Hdf Hles Hknown.
  destruct (@transform_total classes_ (astype_str column) Hknown) as [codes Hcodes].
  destruct (@encode_columns_known df col column classes_ codes categorical_columns df les
              Hdf Hknown Hcodes Hles) as [e [l [Hrun [Hl [Hc _]]]]].
  exists e, l, codes. split; [exact Hrun|]. split; [exact Hl|].
  split; [exact Hcodes | exact (Hc Hin)].
Qed.

End Rounds.

(** An encoder fitted on a, b meets the column c, a, with a set that
    iterates in descending order: the vocabulary becomes b, a, c, and the
    codes 2 and 1 decode to c and a. *)
Lemma encoded_column_decodes_witness :
  exists encoded_df les',
    encode_categorical_features iter_descending
      [("level", [CStr "c"; CStr "a"])] ["level"; "source"] [("level", ["a"; "b"])]
    = (Ok encoded_df, les')
    /\ Py.get les' "level" = Some ["b"; "a"; "c"]
    /\ Py.get encoded_df "level_encoded" = Some [CInt 2; CInt 1].
Proof.
  destruct (@encoded_column_decodes iter_descending iter_descending_valid
              [("level", [CStr "c"; CStr "a"])] ["level"; "source"] [("level", ["a"; "b"])])
    as [e [l [Hrun _]]].
  exists e, l. split; [exact Hrun|].
  vm_compute in Hrun. injection Hrun as <- <-. split; reflexivity.
Defined.

(** An encoder that knows a, b, c meets the column c, a, a. *)
Lemma known_values_keep_the_vocabulary_witness :
  exists encoded_df les',
    encode_categorical_features iter_descending
      [("level", [CStr "c"; CStr "a"; CStr "a"])] ["level"] [("level", ["a"; "b"; "c"])]
    = (Ok encoded_df, les')
    /\ Py.get les' "level" = Some ["a"; "b"; "c"]
    /\ Py.get encoded_df "level_encoded" = Some [CInt 2; CInt 0; CInt 0].
Proof.
  destruct (@known_values_keep_the_vocabulary iter_descending iter_descending_valid
              [("level", [CStr "c"; CStr "a"; CStr "a"])] ["level"] [("level", ["a"; "b"; "c"])]
              "level" [CStr "c"; CStr "a"; CStr "a"] ["a"; "b"; "c"]
              (or_introl eq_refl) eq_refl eq_refl)
    as [e [l [codes [Hrun [Hl [Hcodes He]]]]]].
  { intros v Hv. simpl in Hv. simpl. tauto. }
  exists e, l. split; [exact Hrun|]. split; [exact Hl|].
  etransitivity; [exact He|]. vm_compute in Hcodes. injection Hcodes as <-. reflexivity.
Defined.

(** A table without a source column, an object with a source encoder. *)
Lemma encoding_touches_only_its_columns_witness :
  exists encoded_df les',
    encode_categorical_features iter_ascending
      [("level", [CStr "b"; CStr "a"]); ("message", [CStr "x"; CStr "y"])]
      ["level"; "source"] [("source", ["api"; "db"])]
    = (Ok encoded_df, les')
    /\ Py.get les' "source" = Some ["api"; "db"]
    /\ Py.get encoded_df "message" = Some [CStr "x"; CStr "y"]
    /\ Py.get encoded_df "source_encoded" = None.
Proof.
  assert (Hrun : encode_categorical_features iter_ascending
                   [("level", [CStr "b"; CStr "a"]); ("message", [CStr "x"; CStr "y"])]
                   ["level"; "source"] [("source", ["api"; "db"])]
                 = (Ok [("level", [CStr "b"; CStr "a"]); ("message", [CStr "x"; CStr "y"]);
                        ("level_encoded", [CInt 1; CInt 0])],
                    [("source", ["api"; "db"]); ("level", ["a"; "b"])]))
    by (vm_compute; reflexivity).
  destruct (encoding_touches_only_its_columns _ _ _ _ Hrun) as [Hles Hcols].
  do 2 eexists. split; [exact Hrun|].
  split; [|split].
  - rewrite (Hles "source"); [reflexivity | now right].
  - rewrite (Hcols _ eq_refl "message"); [reflexivity|].
    intros col [<-|[<-|[]]] _; discriminate.
  - rewrite (Hcols _ eq_refl "source_encoded"); [reflexivity|].
    intros col [<-|[<-|[]]] H; [discriminate | now elim H].
Defined.

End EncoderRounds.

(* ================================================================== *)
(** ** The preprocessing pipeline *)

Module MonadFacts.

Lemma bind_inv {S E A B} (m : M S E A) (k : A -> M S E B) s b s' :
  Py.bind m k s = (Ok b, s') ->
  exists a s1, m s = (Ok a, s1) /\ k a s1 = (Ok b, s').
Proof.
  unfold Py.bind. destruct (m s) as [[a|e] s1]; intros H; [eauto | discriminate].
Qed.

Lemma bind_ext {S E A B} (m : M S E A) (k1 k2 : A -> M S E B) s :
  (forall a s1, m s = (Ok a, s1) -> k1 a s1 = k2 a s1) ->
  Py.bind m k1 s = Py.bind m k2 s.
Proof.
  unfold Py.bind. intros H. destruct (m s) as [[a|e] s1]; [now apply H | reflexivity].
Qed.

Section Preserves.

Variables S E : Type.
Variable R : S -> S -> Prop.
Hypothesis R_refl : forall s, R s s.
Hypothesis R_trans : forall a b c, R a b -> R b c -> R a c.

Lemma preserves_ret A (a : A) : preserves R (@Py.ret S E A a).
Proof. intros s r s' H. inversion H. apply R_refl. Qed.

Lemma preserves_raise A (e : E) : preserves R (@Py.raise S E A e).
Proof. intros s r s' H. inversion H. apply R_refl. Qed.

Lemma preserves_bind A B (m : M S E A) (k : A -> M S E B) :
  preserves R m -> (forall a, preserves R (k a)) -> preserves R (Py.bind m k).
Proof.
  intros Hm Hk s r s' H. unfold Py.bind in H.
  destruct (m s) as [[a|e] s1] eqn:Em.
  - eapply R_trans; [eapply Hm; eauto | eapply Hk; eauto].
  - inversion H; subst. eapply Hm; eauto.
Qed.

Lemma preserves_try_except A (body : M S E A) (handler : E -> M S E A) :
  preserves R body -> (forall e, preserves R (handler e)) ->
  preserves R (Py.try_except body handler).
Proof.
  intros Hb Hh s r s' H. unfold Py.try_except in H.
  destruct (body s) as [[a|e] s1] eqn:Eb.
  - inversion H; subst. eapply Hb; eauto.
  - eapply R_trans; [eapply Hb; eauto | eapply Hh; eauto].
Qed.

End Preserves.

End MonadFacts.

Module PipelineSpec.

Import Preprocess.
Import PyFacts MonadFacts.
Open Scope string_scope.

Section Pipeline.

Variable num : Type.
Variable of_cell : cell -> num.
Variable parse_cell : cell -> option Temporal.datetime.
Variable high_error_period : list Temporal.datetime -> list cell -> list cell.
Variable set_iter : list string -> list string.
Variable Bert : Type.
Variable Tfidf : Type.
Variable tfidf_fit_transform : nat -> list string -> result exn (Tfidf * matrix num).
Variable tfidf_transform : Tfidf -> list string -> result exn (matrix num).
Variable scaler_validate : matrix num -> result exn unit.
Variable standardize : matrix num -> matrix num -> matrix num.
Variable train_test_split :
  matrix num -> list cell -> num
  -> result exn (matrix num * matrix num * list cell * list cell).

(** *** What each step leaves alone *)

Section Steady.

Variable T : Type.
Variable f : Preprocessor num Bert Tfidf -> T.

Lemma steady_refl (st : State num Bert Tfidf) : steady f st st.
Proof. split; [reflexivity | exists []; now rewrite app_nil_r]. Qed.

Lemma steady_trans (a b c : State num Bert Tfidf) :
  steady f a b -> steady f b c -> steady f a c.
Proof.
  intros [H1 [l1 H2]] [H3 [l2 H4]]. split; [congruence|].
  exists (l1 ++ l2)%list. now rewrite H4, H2, app_assoc.
Qed.

Lemma steady_logger lv msg : preserves (steady f) (@logger num Bert Tfidf lv msg).
Proof.
  intros s r s' H. inversion H; subst. split; [reflexivity|].
  simpl. eauto.
Qed.

Lemma steady_call A (r : result exn A) : preserves (steady f) (@call num Bert Tfidf A r).
Proof. intros s r0 s' H. inversion H; subst. apply steady_refl. Qed.

Lemma steady_get_self : preserves (steady f) (@get_self num Bert Tfidf).
Proof. intros s r0 s' H. inversion H; subst. apply steady_refl. Qed.

Lemma steady_write_file path content :
  preserves (steady f) (@write_file num Bert Tfidf path content).
Proof.
  intros s r s' H. unfold write_file in H.
  destruct (denied (fs s) path); inversion H; subst; try apply steady_refl.
  split; [reflexivity | exists []; simpl; now rewrite app_nil_r].
Qed.

Lemma steady_read_file path : preserves (steady f) (@read_file num Bert Tfidf path).
Proof.
  intros s r s' H. unfold read_file in H.
  destruct (Py.get _ _); inversion H; subst; apply steady_refl.
Qed.

Lemma steady_set_self g :
  (forall p, f (g p) = f p) -> preserves (steady f) (@set_self num Bert Tfidf g).
Proof.
  intros Hg s r s' H. inversion H; subst. split; [apply Hg|].
  exists []. simpl. now rewrite app_nil_r.
Qed.

Lemma steady_encode df cols :
  (forall le p, f (with_label_encoders le p) = f p) ->
  preserves (steady f) (encode_categorical_features set_iter df cols).
Proof.
  intros Hg s r s' H. unfold encode_categorical_features in H.
  destruct (Encoder.encode_categorical_features _ _ _ _) as [r0 le].
  inversion H; subst. split; [apply Hg|].
  exists []. simpl. now rewrite app_nil_r.
Qed.

End Steady.

(** Solve a goal [preserves (steady f) m] by following the shape of [m]. *)
Ltac steady_step :=
  first
    [ apply preserves_bind; [apply steady_trans | | intro]
    | apply preserves_try_except; [apply steady_trans | | intro]
    | apply preserves_ret; apply steady_refl
    | apply preserves_raise; apply steady_refl
    | apply steady_logger
    | apply steady_call
    | apply steady_get_self
    | apply steady_write_file
    | apply steady_read_file
    | apply steady_encode; reflexivity
    | apply steady_set_self; reflexivity
    | match goal with
      | |- preserves _ (match ?x with _ => _ end) => destruct x
      | |- preserves _ (if ?x then _ else _) => destruct x
      end ].

Ltac steady_all :=
  unfold reraise_not_found, read_csv, np_load, pickle_load, save_processed_data,
    get_tfidf_features, get_bert_embeddings, text_features;
  repeat steady_step.

Lemma steady_save T (f : Preprocessor num Bert Tfidf -> T) X_train X_test y_train y_test df :
  preserves (steady f) (save_processed_data X_train X_test y_train y_test df).
Proof. steady_all. Qed.

(** The text features touch the vectorizer and the log only. *)
Lemma steady_text_features T (f : Preprocessor num Bert Tfidf -> T)
  embed_batch use_bert_arg messages X_basic :
  (forall v p, f (with_tfidf_vectorizer v p) = f p) ->
  preserves (steady f)
    (text_features embed_batch tfidf_fit_transform tfidf_transform
       use_bert_arg messages X_basic).
Proof.
  intros Hf. steady_all; apply steady_set_self; intro; apply Hf.
Qed.

(** *** Without the dense backend *)

Lemma get_bert_embeddings_without_bert embed_batch messages max_length
  (st : State num Bert Tfidf) :
  use_bert (self st) = false ->
  get_bert_embeddings embed_batch messages max_length st
  = (Ok [],
     {| self := self st; fs := fs st;
        log := (log st ++ [(WARNING, [Lit "BERT model not available"])])%list |}).
Proof.
  intros H. unfold get_bert_embeddings, Py.bind, get_self. now rewrite H.
Qed.

Lemma text_features_without_bert embed_batch use_bert_arg messages X_basic
  (st : State num Bert Tfidf) :
  use_bert (self st) = false ->
  text_features embed_batch tfidf_fit_transform tfidf_transform
    use_bert_arg messages X_basic st
  = Py.bind (get_tfidf_features tfidf_fit_transform tfidf_transform messages 1000)
      (fun text => call (hstack X_basic text))
      {| self := self st; fs := fs st;
         log := (log st ++ [(INFO, [Lit "Using TF-IDF features for text"])])%list |}.
Proof.
  intros H. unfold text_features. unfold Py.bind at 1. unfold get_self.
  rewrite H, andb_false_r. reflexivity.
Qed.

Lemma bind_same_run {A B} (m1 m2 : meth num Bert Tfidf A) (k : A -> meth num Bert Tfidf B) st :
  m1 st = m2 st -> Py.bind m1 k st = Py.bind m2 k st.
Proof. intros H. unfold Py.bind. now rewrite H. Qed.

(** Go under one bind of two runs that start alike, keeping the fact that
    the dense backend is off. *)
Ltac advance Hub :=
  apply bind_ext; intros ? ? ?Hrun;
  match goal with
  | Hrun : ?m ?s = (Ok _, ?s1) |- _ =>
      let P := fresh "P" in
      assert (P : preserves (steady (@use_bert num Bert Tfidf)) m) by steady_all;
      apply P in Hrun; destruct Hrun as [Hrun _];
      rewrite Hub in Hrun; clear Hub P; rename Hrun into Hub
  end.

(** With the dense backend off, neither the [use_bert] argument nor the
    embedding model has any part in [preprocess_logs]. *)
Lemma preprocess_logs_without_bert embed_batch embed_batch' file_path
  use_bert_arg use_bert_arg' test_size save_processed (st : State num Bert Tfidf) :
  use_bert (self st) = false ->
  preprocess_logs of_cell parse_cell high_error_period set_iter embed_batch
    tfidf_fit_transform tfidf_transform scaler_validate standardize train_test_split
    file_path use_bert_arg test_size save_processed st
  = preprocess_logs of_cell parse_cell high_error_period set_iter embed_batch'
      tfidf_fit_transform tfidf_transform scaler_validate standardize train_test_split
      file_path use_bert_arg' test_size save_processed st.
Proof.
  intros Hub. unfold preprocess_logs.
  do 7 advance Hub.
  apply bind_same_run. now rewrite !text_features_without_bert.
Qed.

(** Take the first step of a run that returned. *)
Ltac step H a s Hm :=
  apply bind_inv in H; destruct H as [a [s [Hm H]]].

Ltac steady_of f Hm Hs :=
  match type of Hm with
  | ?m ?s = _ =>
      let P := fresh "P" in
      assert (P : preserves (steady f) m) by steady_all;
      pose proof (P _ _ _ Hm) as Hs; clear P
  end.

Lemma scaler_fit_transform_run X (st : State num Bert Tfidf) X_scaled st' :
  scaler_fit_transform scaler_validate standardize X st = (Ok X_scaled, st') ->
  scaler (self st') = Some X
  /\ scaler_validate X = Ok tt
  /\ X_scaled = standardize X X
  /\ steady (@tfidf_vectorizer num Bert Tfidf) st st'
  /\ steady (@use_bert num Bert Tfidf) st st'.
Proof.
  unfold scaler_fit_transform, Py.bind, set_self, Py.modify, call, Py.ret.
  destruct (scaler_validate X) as [[]|e]; intros H; inversion H; subst; simpl.
  repeat split; try reflexivity; exists []; simpl; now rewrite app_nil_r.
Qed.

(** The table a call has read. *)
Lemma read_table msg file_path (st : State num Bert Tfidf) df st' :
  reraise_not_found msg
    (df <- read_csv file_path ;;
     logger INFO [Lit "Loaded "; InterpNum "len(df)"; Lit " log entries"] ;;;
     Py.ret df) st = (Ok df, st') ->
  Py.get (files (fs st)) file_path = Some (Csv num Tfidf df) /\ self st' = self st.
Proof.
  unfold reraise_not_found, read_csv, read_file, logger, Py.try_except, Py.modify,
    Py.bind, Py.ret, Py.raise.
  destruct (Py.get (files (fs st)) file_path) as [[d|a|o]|]; simpl;
    intros H; inversion H; subst; split; reflexivity.
Qed.

(** What a call of [get_tfidf_features] that returned has computed: the
    matrix of [fit_transform] when the object had no vectorizer, that of
    [transform] by the vectorizer it had otherwise. *)
Lemma get_tfidf_features_run messages max_features (st : State num Bert Tfidf) text st' :
  get_tfidf_features tfidf_fit_transform tfidf_transform messages max_features st
  = (Ok text, st') ->
  match tfidf_vectorizer (self st) with
  | None =>
      exists v, tfidf_fit_transform max_features messages = Ok (v, text)
                /\ tfidf_vectorizer (self st') = Some (Fitted v)
  | Some (Fitted v) =>
      tfidf_transform v messages = Ok text
      /\ tfidf_vectorizer (self st') = Some (Fitted v)
  | Some (Unfitted _) => False
  end.
Proof.
  unfold get_tfidf_features, Py.bind, get_self, set_self, Py.modify, call, Py.raise, Py.ret.
  destruct (tfidf_vectorizer (self st)) as [[|v]|] eqn:E; simpl.
  - discriminate.
  - destruct (tfidf_transform v messages); intros H; inversion H; subst. auto.
  - destruct (tfidf_fit_transform max_features messages) as [[v m]|];
      intros H; inversion H; subst. simpl. eauto.
Qed.

(** The columns the features are taken from (lines 282-295). *)
Let feature_columns (df : DataFrame) : list string :=
  (present df ["hour"; "day_of_week"; "is_weekend"; "is_business_hours"; "is_night"]
   ++ present df (map Encoder.encoded_name ["level"; "source"])
   ++ present df ["unusual_timing"; "high_error_period"])%list.

(** The table of the file with its cleaned messages and, when it has
    timestamps, its temporal features (lines 263-272). *)
Let timed (raw : DataFrame) (column : list cell) (with_time : DataFrame) : Prop :=
  let cleaned :=
    Py.set raw "cleaned_message"
      (map (fun c => CStr (Normalizer.clean_log_message c)) column) in
  match Py.get cleaned "timestamp" with
  | Some timestamps =>
      exists t, Temporal.extract_temporal_features parse_cell timestamps = Ok t
                /\ with_time = concat_temporal cleaned t
  | None => with_time = cleaned
  end.

(** What a call of [preprocess_logs] that returned has done, from the file
    to the split: the table of the file, its flags and codes, the text
    features of its cleaned messages beside the basic features, the scaler
    fitted on that combined matrix, and the split of the scaled matrix. *)
Lemma preprocess_logs_returned embed_batch file_path use_bert_arg test_size
  save_processed (st : State num Bert Tfidf) X_train X_test y_train y_test st' :
  preprocess_logs of_cell parse_cell high_error_period set_iter embed_batch
    tfidf_fit_transform tfidf_transform scaler_validate standardize train_test_split
    file_path use_bert_arg test_size save_processed st
  = (Ok (X_train, X_test, y_train, y_test), st') ->
  exists raw column with_time featured encoded X_combined y mid mid' mid'',
    Py.get (files (fs st)) file_path = Some (Csv num Tfidf raw)
    /\ Py.get raw "message" = Some column
    /\ timed raw column with_time
    /\ detect_anomalous_patterns parse_cell high_error_period with_time = Ok featured
    /\ self mid = self st
    /\ encode_categorical_features set_iter featured ["level"; "source"] mid
       = (Ok encoded, mid')
    /\ steady (@use_bert num Bert Tfidf) st mid'
    /\ text_features embed_batch tfidf_fit_transform tfidf_transform use_bert_arg
         (map Normalizer.clean_log_message column)
         (values of_cell encoded (feature_columns encoded)) mid'
       = (Ok X_combined, mid'')
    /\ Py.get encoded "level_encoded" = Some y
    /\ steady (@tfidf_vectorizer num Bert Tfidf) mid'' st'
    /\ scaler (self st') = Some X_combined
    /\ scaler_validate X_combined = Ok tt
    /\ train_test_split (standardize X_combined X_combined) y test_size
       = Ok (X_train, X_test, y_train, y_test).
Proof.
  intros H. unfold preprocess_logs in H.
  step H a1 s1 H1. steady_of (@use_bert num Bert Tfidf) H1 U1.
  assert (E1 : self s1 = self st) by (inversion H1; reflexivity).
  assert (F1 : fs s1 = fs st) by (inversion H1; reflexivity).
  step H raw s2 H2. steady_of (@use_bert num Bert Tfidf) H2 U2.
  apply read_table in H2. destruct H2 as [Hfile E2]. rewrite F1 in Hfile.
  step H a3 s3 H3. steady_of (@use_bert num Bert Tfidf) H3 U3.
  destruct (Py.get raw "message") as [column|] eqn:Hmessage;
    [|unfold Py.bind, logger, Py.modify, Py.raise in H3; discriminate H3].
  unfold Py.ret in H3. injection H3 as <- <-.
  step H with_time s4 H4. steady_of (@use_bert num Bert Tfidf) H4 U4.
  assert (Htimed : timed raw column with_time /\ s4 = s2).
  { unfold timed. cbv zeta.
    destruct (Py.get (Py.set raw "cleaned_message" _) "timestamp") as [timestamps|].
    - unfold Py.bind, call, Py.ret in H4.
      destruct (Temporal.extract_temporal_features parse_cell timestamps) as [t|e];
        [|discriminate H4].
      injection H4 as <- <-. split; [exists t; split; reflexivity | reflexivity].
    - unfold Py.ret in H4. injection H4 as <- <-. split; reflexivity. }
  destruct Htimed as [Htimed ->].
  step H featured s5 H5. steady_of (@use_bert num Bert Tfidf) H5 U5.
  unfold call in H5. injection H5 as Hdetect <-.
  step H encoded s6 H6. steady_of (@use_bert num Bert Tfidf) H6 U6.
  step H messages s7 H7.
  assert (Hcleaned : Py.get encoded "cleaned_message"
                     = Some (map (fun c => CStr (Normalizer.clean_log_message c)) column)).
  { assert (Hwith : Py.get with_time "cleaned_message"
                    = Some (map (fun c => CStr (Normalizer.clean_log_message c)) column)).
    { unfold timed in Htimed. cbv zeta in Htimed.
      destruct (Py.get (Py.set raw "cleaned_message" _) "timestamp").
      - destruct Htimed as [t [_ ->]]. unfold concat_temporal.
        now rewrite get_app, get_set_same.
      - rewrite Htimed. apply get_set_same. }
    rewrite <- Hwith.
    rewrite <- (@AnomalyFlags.detect_keeps parse_cell high_error_period with_time featured
                  "cleaned_message" Hdetect) by discriminate.
    unfold encode_categorical_features in H6.
    destruct (Encoder.encode_categorical_features set_iter featured ["level"; "source"]
                (label_encoders (self s2))) as [r le] eqn:He.
    injection H6 as -> _. unfold Encoder.encode_categorical_features in He.
    apply (proj2 (EncoderRounds.encode_columns_frame _ _ _ _ _ He) encoded eq_refl).
    intros col [<-|[<-|[]]] _; discriminate. }
  rewrite Hcleaned in H7. unfold Py.ret in H7. injection H7 as <- <-.
  rewrite map_map in H. cbn [cell_text] in H.
  step H X_combined s8 H8.
  step H y s9 H9. steady_of (@tfidf_vectorizer num Bert Tfidf) H9 T9.
  steady_of (@scaler num Bert Tfidf) H9 S9.
  assert (Hy : Py.get encoded "level_encoded" = Some y).
  { destruct (Py.contains encoded "level");
      [|unfold Py.bind, logger, Py.modify, Py.raise in H9; discriminate H9].
    destruct (Py.get encoded "level_encoded") as [c|]; [|discriminate H9].
    unfold Py.ret in H9. now injection H9 as <- _. }
  step H X_scaled s10 H10.
  apply scaler_fit_transform_run in H10. destruct H10 as [Hsc [Hval [-> [T10 _]]]].
  step H parts s11 H11. unfold call in H11. injection H11 as Esplit <-.
  destruct parts as [[[Xa Xb] ya] yb].
  step H a12 s12 H12. steady_of (@tfidf_vectorizer num Bert Tfidf) H12 T12.
  steady_of (@scaler num Bert Tfidf) H12 S12.
  step H a13 s13 H13. steady_of (@tfidf_vectorizer num Bert Tfidf) H13 T13.
  steady_of (@scaler num Bert Tfidf) H13 S13.
  inversion H; subst. clear H.
  exists raw, column, with_time, featured, encoded, X_combined, y, s2, s6, s8.
  split; [exact Hfile|]. split; [exact Hmessage|]. split; [exact Htimed|].
  split; [exact Hdetect|]. split; [congruence|]. split; [exact H6|].
  split.
  { repeat (eapply steady_trans; [eassumption|]). apply steady_refl. }
  split; [exact H8|]. split; [exact Hy|].
  split.
  { eapply steady_trans; [exact T9|]. eapply steady_trans; [exact T10|].
    eapply steady_trans; [exact T12|]. exact T13. }
  split.
  { destruct S13 as [-> _]. destruct S12 as [-> _]. exact Hsc. }
  split; [exact Hval | exact Esplit].
Qed.

Lemma np_load_run path (st : State num Bert Tfidf) a st' :
  np_load path st = (Ok a, st') -> st' = st.
Proof.
  unfold np_load, Py.bind, read_file, Py.ret, Py.raise.
  destruct (Py.get _ _) as [[df|a'|o]|]; intros H; inversion H; reflexivity.
Qed.

Lemma pickle_load_run path (st : State num Bert Tfidf) o st' :
  pickle_load path st = (Ok o, st') ->
  st' = st /\ Py.get (files (fs st)) path = Some (PickledObjects o).
Proof.
  unfold pickle_load, Py.bind, read_file, Py.ret, Py.raise.
  destruct (Py.get _ _) as [[df|a'|o']|]; intros H; inversion H; auto.
Qed.

(** [load_processed_data] takes the encoders, the vectorizer and the scaler
    from the pickled dict. *)
Lemma load_processed_data_returned (st : State num Bert Tfidf) r st' :
  load_processed_data st = (Ok r, st') ->
  exists objects,
    Py.get (files (fs st)) "preprocessor_objects.pkl" = Some (PickledObjects objects)
    /\ o_scaler objects = Some (scaler (self st'))
    /\ o_tfidf_vectorizer objects = Some (tfidf_vectorizer (self st'))
    /\ o_label_encoders objects = Some (label_encoders (self st'))
    /\ fs st' = fs st.
Proof.
  unfold load_processed_data, reraise_not_found, Py.try_except.
  match goal with |- context [match ?body st with _ => _ end] => destruct (body st) as [[r0|e] s] eqn:Hb end.
  - intros H. injection H as <- <-.
    step Hb a1 s1 H1. apply np_load_run in H1. subst s1.
    step Hb a2 s2 H2. apply np_load_run in H2. subst s2.
    step Hb a3 s3 H3. apply np_load_run in H3. subst s3.
    step Hb a4 s4 H4. apply np_load_run in H4. subst s4.
    step Hb objects s5 H5. apply pickle_load_run in H5. destruct H5 as [-> Hfile].
    exists objects. split; [exact Hfile|].
    unfold Py.bind, item, set_self, Py.modify, logger, Py.ret, Py.raise in Hb.
    destruct (o_label_encoders objects) as [le|]; [|discriminate Hb].
    destruct (o_tfidf_vectorizer objects) as [v|]; [|discriminate Hb].
    destruct (o_scaler objects) as [sc|]; [|discriminate Hb].
    simpl in Hb. injection Hb as _ <-. simpl. auto.
  - destruct e; unfold Py.bind, logger, Py.modify, Py.raise; simpl; discriminate.
Qed.

(** C9. When the pretrained model could not be loaded ([use_bert] is
    False), [get_bert_embeddings] returns the empty array for every list of
    messages and every [max_length], logging a warning and raising nothing;
    [preprocess_logs] runs the same whatever its [use_bert] argument and
    whatever the embedding model would compute; and when it returns, its
    text features are the TF-IDF matrix of the cleaned messages of the file
    (that of [fit_transform] with 1000 features when the object had no
    vectorizer, that of [transform] otherwise): the matrix is stacked beside
    the basic features, the sets returned are the split of that combined
    matrix after scaling, the vectorizer is fitted, and the call has logged
    that TF-IDF features are used. *)
Theorem tfidf_backs_the_pipeline_without_bert embed_batch (st : State num Bert Tfidf) :
  use_bert (self st) = false ->
  (forall messages max_length,
      get_bert_embeddings embed_batch messages max_length st
      = (Ok [],
         {| self := self st; fs := fs st;
            log := (log st ++ [(WARNING, [Lit "BERT model not available"])])%list |}))
  /\ (forall embed_batch' file_path use_bert_arg use_bert_arg' test_size save_processed,
         preprocess_logs of_cell parse_cell high_error_period set_iter embed_batch
           tfidf_fit_transform tfidf_transform scaler_validate standardize train_test_split
           file_path use_bert_arg test_size save_processed st
         = preprocess_logs of_cell parse_cell high_error_period set_iter embed_batch'
             tfidf_fit_transform tfidf_transform scaler_validate standardize train_test_split
             file_path use_bert_arg' test_size save_processed st)
  /\ (forall file_path use_bert_arg test_size save_processed
             X_train X_test y_train y_test st',
         preprocess_logs of_cell parse_cell high_error_period set_iter embed_batch
           tfidf_fit_transform tfidf_transform scaler_validate standardize train_test_split
           file_path use_bert_arg test_size save_processed st
         = (Ok (X_train, X_test, y_train, y_test), st') ->
         exists raw column encoded text X_combined y,
           Py.get (files (fs st)) file_path = Some (Csv num Tfidf raw)
           /\ Py.get raw "message" = Some column
           /\ match tfidf_vectorizer (self st) with
              | None =>
                  exists v,
                    tfidf_fit_transform 1000 (map Normalizer.clean_log_message column)
                    = Ok (v, text)
                    /\ tfidf_vectorizer (self st') = Some (Fitted v)
              | Some (Fitted v) =>
                  tfidf_transform v (map Normalizer.clean_log_message column) = Ok text
                  /\ tfidf_vectorizer (self st') = Some (Fitted v)
              | Some (Unfitted _) => False
              end
           /\ hstack (values of_cell encoded (feature_columns encoded)) text = Ok X_combined
           /\ Py.get encoded "level_encoded" = Some y
           /\ train_test_split (standardize X_combined X_combined) y test_size
              = Ok (X_train, X_test, y_train, y_test)
           /\ exists before after,
               log st' = (log st ++ before
                          ++ (INFO, [Lit "Using TF-IDF features for text"]) :: after)%list).
Proof.
  intros Hub. split; [|split].
  - intros. now apply get_bert_embeddings_without_bert.
  - intros. now apply preprocess_logs_without_bert.
  - intros file_path use_bert_arg test_size save_processed X_train X_test y_train y_test st' H.
    apply preprocess_logs_returned in H.
    destruct H as [raw [column [with_time [featured [encoded [X_combined [y [mid [mid' [mid''
                  [Hfile [Hcol [_ [_ [Hself [Henc [Hfront [Htext [Hy [Hback [_ [_ Hsplit]]]]]]]]]]]]]]]]]]]]]].
    destruct Hfront as [Hmid [before Hlog]]. rewrite Hub in Hmid.
    assert (Hvec : tfidf_vectorizer (self mid') = tfidf_vectorizer (self st)).
    { unfold encode_categorical_features in Henc.
      destruct (Encoder.encode_categorical_features _ _ _ _) as [r le].
      injection Henc as _ <-. simpl. now rewrite Hself. }
    rewrite text_features_without_bert in Htext by exact Hmid.
    step Htext text s Ht. unfold call in Htext. injection Htext as Hstack <-.
    pose proof (get_tfidf_features_run _ _ _ Ht) as Hrun. cbn [self] in Hrun.
    rewrite Hvec in Hrun.
    steady_of (@use_bert num Bert Tfidf) Ht Hs. destruct Hs as [_ [a1 Hl1]]. simpl in Hl1.
    destruct Hback as [Htf [a2 Hl2]].
    exists raw, column, encoded, text, X_combined, y.
    split; [exact Hfile|]. split; [exact Hcol|]. split.
    { destruct (tfidf_vectorizer (self st)) as [[|v]|].
      - exact Hrun.
      - destruct Hrun as [Hr Hv]. split; [exact Hr | now rewrite Htf].
      - destruct Hrun as [v [Hr Hv]]. exists v. split; [exact Hr | now rewrite Htf]. }
    split; [exact Hstack|]. split; [exact Hy|]. split; [exact Hsplit|].
    exists before, (a1 ++ a2)%list.
    rewrite Hl2, Hl1, Hlog. now rewrite <- !app_assoc.
Qed.

(** C5, as the code has it.  A call of [preprocess_logs] that returns has
    fitted the scaler anew on the whole combined matrix: the basic features
    of every row of the file's table beside the text features of its
    cleaned messages, before any split; the training and test sets it
    returns are the split of that matrix after scaling.  So the scaler has
    seen the test rows too, and every call fits again.
    [load_processed_data] puts the pickled scaler in place.  The text
    backends, the encoder and [save_processed_data] leave the scaler as it
    is. *)
Theorem scaler_is_refit_on_the_whole_matrix embed_batch :
  (forall file_path use_bert_arg test_size save_processed (st : State num Bert Tfidf)
          X_train X_test y_train y_test st',
      preprocess_logs of_cell parse_cell high_error_period set_iter embed_batch
        tfidf_fit_transform tfidf_transform scaler_validate standardize train_test_split
        file_path use_bert_arg test_size save_processed st
      = (Ok (X_train, X_test, y_train, y_test), st') ->
      exists raw column with_time featured encoded X_combined y mid mid' mid'',
        Py.get (files (fs st)) file_path = Some (Csv num Tfidf raw)
        /\ Py.get raw "message" = Some column
        /\ timed raw column with_time
        /\ detect_anomalous_patterns parse_cell high_error_period with_time = Ok featured
        /\ self mid = self st
        /\ encode_categorical_features set_iter featured ["level"; "source"] mid
           = (Ok encoded, mid')
        /\ text_features embed_batch tfidf_fit_transform tfidf_transform use_bert_arg
             (map Normalizer.clean_log_message column)
             (values of_cell encoded (feature_columns encoded)) mid'
           = (Ok X_combined, mid'')
        /\ Py.get encoded "level_encoded" = Some y
        /\ scaler (self st') = Some X_combined
        /\ scaler_validate X_combined = Ok tt
        /\ train_test_split (standardize X_combined X_combined) y test_size
           = Ok (X_train, X_test, y_train, y_test))
  /\ (forall (st : State num Bert Tfidf) r st',
         load_processed_data st = (Ok r, st') ->
         exists objects,
           Py.get (files (fs st)) "preprocessor_objects.pkl" = Some (PickledObjects objects)
           /\ o_scaler objects = Some (scaler (self st')))
  /\ (forall messages max_length (st : State num Bert Tfidf) r st',
         get_bert_embeddings embed_batch messages max_length st = (r, st') ->
         scaler (self st') = scaler (self st))
  /\ (forall messages max_features (st : State num Bert Tfidf) r st',
         get_tfidf_features tfidf_fit_transform tfidf_transform messages max_features st
         = (r, st') ->
         scaler (self st') = scaler (self st))
  /\ (forall df cols (st : State num Bert Tfidf) r st',
         encode_categorical_features set_iter df cols st = (r, st') ->
         scaler (self st') = scaler (self st))
  /\ (forall X_train X_test y_train y_test df (st : State num Bert Tfidf) r st',
         save_processed_data X_train X_test y_train y_test df st = (r, st') ->
         scaler (self st') = scaler (self st)).
Proof.
  split; [|split; [|split; [|split; [|split]]]].
  - intros file_path use_bert_arg test_size save_processed st X_train X_test y_train y_test st' H.
    apply preprocess_logs_returned in H.
    destruct H as [raw [column [with_time [featured [encoded [X_combined [y [mid [mid' [mid''
                  [Hfile [Hcol [Htimed [Hdetect [Hself [Henc [_ [Htext [Hy [_ [Hsc [Hval Hsplit]]]]]]]]]]]]]]]]]]]]]].
    exists raw, column, with_time, featured, encoded, X_combined, y, mid, mid', mid''.
    repeat (split; [assumption|]). assumption.
  - intros st r st' H. apply load_processed_data_returned in H.
    destruct H as [objects [Hfile [Hsc _]]]. eauto.
  - intros messages max_length st r st' H.
    steady_of (@scaler num Bert Tfidf) H Hs. apply Hs.
  - intros messages max_features st r st' H.
    steady_of (@scaler num Bert Tfidf) H Hs. apply Hs.
  - intros df cols st r st' H.
    steady_of (@scaler num Bert Tfidf) H Hs. apply Hs.
  - intros X_train X_test y_train y_test df st r st' H.
    steady_of (@scaler num Bert Tfidf) H Hs. apply Hs.
Qed.

End Pipeline.

(** An object built while the pretrained model was missing: Monday's file
    goes through whatever the [use_bert] argument is, and the run returns. *)
Lemma tfidf_backs_the_pipeline_without_bert_witness :
  fst (get_bert_embeddings PipelineRun.embed_batch
         ["user [ID] logged in from [IP]"; "connection lost"] 128 PipelineRun.without_bert)
  = Ok []
  /\ PipelineRun.preprocess "monday.csv" true PipelineRun.without_bert
     = PipelineRun.preprocess "monday.csv" false PipelineRun.without_bert
  /\ is_ok (fst (PipelineRun.preprocess "monday.csv" false PipelineRun.without_bert)) = true.
Proof.
  destruct (@tfidf_backs_the_pipeline_without_bert
              PipelineRun.num PipelineRun.of_cell Temporal.parse_iso
              PipelineRun.high_error_period Encoder.iter_ascending PipelineRun.Bert
              PipelineRun.Tfidf PipelineRun.tfidf_fit_transform PipelineRun.tfidf_transform
              PipelineRun.scaler_validate PipelineRun.standardize
              PipelineRun.train_test_split PipelineRun.embed_batch
              PipelineRun.without_bert eq_refl) as [Hempty [Hsame _]].
  split; [|split].
  - now rewrite Hempty.
  - apply Hsame.
  - vm_compute. reflexivity.
Defined.

(** Monday's file, preprocessed by an object without the dense backend. *)
Lemma scaler_is_refit_on_the_whole_matrix_witness :
  exists X_train X_test y_train y_test st' X_combined,
    PipelineRun.preprocess "monday.csv" false PipelineRun.without_bert
    = (Ok (X_train, X_test, y_train, y_test), st')
    /\ scaler (self st') = Some X_combined
    /\ List.length X_combined = 4%nat.
Proof.
  assert (Hrun : PipelineRun.preprocess "monday.csv" false PipelineRun.without_bert
                 = PipelineRun.monday_run) by (vm_compute; reflexivity).
  unfold PipelineRun.monday_run in Hrun.
  destruct (@scaler_is_refit_on_the_whole_matrix
              PipelineRun.num PipelineRun.of_cell Temporal.parse_iso
              PipelineRun.high_error_period Encoder.iter_ascending PipelineRun.Bert
              PipelineRun.Tfidf PipelineRun.tfidf_fit_transform PipelineRun.tfidf_transform
              PipelineRun.scaler_validate PipelineRun.standardize
              PipelineRun.train_test_split PipelineRun.embed_batch) as [Hfit _].
  destruct (Hfit _ _ _ _ _ _ _ _ _ _ Hrun)
    as [raw [column [with_time [featured [encoded [X_combined [y [mid [mid' [mid''
       [_ [_ [_ [_ [_ [_ [_ [_ [Hsc _]]]]]]]]]]]]]]]]]]].
  do 5 eexists. exists X_combined.
  split; [exact Hrun|]. split; [exact Hsc|].
  cbn in Hsc. injection Hsc as <-. reflexivity.
Defined.

(** C5 as the specification words it fails.  Monday's file has four rows:
    the scaler is fitted on all four, while the training set has two of
    them and the test set the other two.  A second call, on Tuesday's six
    rows, fits the scaler again, on six rows. *)
Lemma scaler_sees_test_rows_and_is_refit :
  exists X_train X_test y_train y_test st1 r2 st2,
    PipelineRun.preprocess "monday.csv" false PipelineRun.without_bert
    = (Ok (X_train, X_test, y_train, y_test), st1)
    /\ List.length X_train = 2%nat
    /\ List.length X_test = 2%nat
    /\ n_samples_seen_ (scaler (self st1)) = Some 4%nat
    /\ PipelineRun.preprocess "tuesday.csv" false st1 = (Ok r2, st2)
    /\ n_samples_seen_ (scaler (self st2)) = Some 6%nat
    /\ scaler (self st2) <> scaler (self st1).
Proof.
  do 7 eexists. split; [vm_compute; reflexivity|].
  split; [reflexivity|]. split; [reflexivity|]. split; [reflexivity|].
  split; [vm_compute; reflexivity|]. split; [reflexivity|].
  intros H. apply (f_equal (@n_samples_seen_ PipelineRun.num)) in H.
  vm_compute in H. discriminate.
Qed.

End PipelineSpec.

(* ================================================================== *)
(** ** The text features: one fit, batches of 32 *)

Module TextFeatures.

Import Preprocess.
Import PyFacts MonadFacts.
Open Scope string_scope.

Section Text.

Variable num : Type.
Variable Bert : Type.
Variable Tfidf : Type.
Variable tfidf_fit_transform : nat -> list string -> result exn (Tfidf * matrix num).
Variable tfidf_transform : Tfidf -> list string -> result exn (matrix num).
Variable embed_batch : Bert -> list string -> nat -> result exn (matrix num).

(** X9. The TF-IDF vectorizer is fitted by the first call of
    [get_tfidf_features] and by no later one: when the object has no
    vectorizer and [fit_transform] returns, the call returns the fitted
    matrix and keeps the vectorizer; every later call, whatever its messages
    and its [max_features], is [transform] by that vectorizer and leaves
    the object, the files and the log as they are. *)
Theorem vectorizer_is_fitted_once messages1 max_features1 messages2 max_features2
  (st : State num Bert Tfidf) v X1 :
  tfidf_vectorizer (self st) = None ->
  tfidf_fit_transform max_features1 messages1 = Ok (v, X1) ->
  exists st1,
    get_tfidf_features tfidf_fit_transform tfidf_transform messages1 max_features1 st
    = (Ok X1, st1)
    /\ self st1 = with_tfidf_vectorizer (Some (Fitted v)) (self st)
    /\ fs st1 = fs st /\ log st1 = log st
    /\ get_tfidf_features tfidf_fit_transform tfidf_transform messages2 max_features2 st1
       = (tfidf_transform v messages2, st1).
Proof.
  intros Hnone Hfit.
  unfold get_tfidf_features, Py.bind, get_self, set_self, Py.modify, call, Py.ret.
  rewrite Hnone. simpl. rewrite Hfit. simpl.
  eexists. split; [reflexivity|]. simpl. repeat split.
Qed.

(** X10. A first fit that raises leaves the object with a vectorizer that
    is not fitted (it is assigned before [fit_transform] runs): the call
    raises the error of [fit_transform], and every later call of
    [get_tfidf_features] raises [NotFittedError] without fitting again. *)
Theorem failed_fit_leaves_an_unfitted_vectorizer messages1 max_features1 messages2
  max_features2 (st : State num Bert Tfidf) e :
  tfidf_vectorizer (self st) = None ->
  tfidf_fit_transform max_features1 messages1 = Raise e ->
  exists st1,
    get_tfidf_features tfidf_fit_transform tfidf_transform messages1 max_features1 st
    = (Raise e, st1)
    /\ self st1 = with_tfidf_vectorizer (Some (Unfitted Tfidf)) (self st)
    /\ get_tfidf_features tfidf_fit_transform tfidf_transform messages2 max_features2 st1
       = (Raise (LibraryError "sklearn.exceptions.NotFittedError"), st1).
Proof.
  intros Hnone Hfit.
  unfold get_tfidf_features, Py.bind, get_self, set_self, Py.modify, call, Py.ret, Py.raise.
  rewrite Hnone. simpl. rewrite Hfit. simpl.
  eexists. split; [reflexivity|]. simpl. split; reflexivity.
Qed.

(** *** The batches *)

Lemma embed_batches_rows (embed_one : string -> list num) b max_length fuel :
  forall messages,
    (List.length messages <= fuel)%nat ->
    (forall batch, batch <> [] -> (List.length batch <= 32)%nat ->
                   (forall m, In m batch -> In m messages) ->
                   embed_batch b batch max_length = Ok (map embed_one batch)) ->
    embed_batches embed_batch fuel (Some b) messages max_length
    = Ok (map embed_one messages).
Proof.
  induction fuel as [|fuel IH]; intros messages Hlen Hrows.
  - destruct messages; [reflexivity | simpl in Hlen; lia].
  - destruct messages as [|m rest]; [reflexivity|].
    cbn [embed_batches].
    rewrite Hrows.
    + rewrite IH.
      * rewrite <- map_app. now rewrite firstn_skipn.
      * rewrite length_skipn. unfold batch_size. simpl in *. lia.
      * intros batch Hne Hle Hin. apply Hrows; [exact Hne | exact Hle |].
        intros x Hx. apply Hin in Hx.
        rewrite <- (firstn_skipn batch_size (m :: rest)). apply in_or_app. now right.
    + unfold batch_size. simpl. discriminate.
    + rewrite length_firstn. unfold batch_size. lia.
    + intros x Hx. rewrite <- (firstn_skipn batch_size (m :: rest)).
      apply in_or_app. now left.
Qed.

(** X11. With the dense backend on, [get_bert_embeddings] hands the
    messages to the model in batches of at most 32, none empty, and puts the
    rows of the batches together in order: when the model embeds every such
    batch row by row, the result has the row of each message, in the order
    of the messages, and the object and the files are unchanged. *)
Theorem embeddings_follow_the_messages (embed_one : string -> list num) b messages
  max_length (st : State num Bert Tfidf) :
  use_bert (self st) = true ->
  bert (self st) = Some b ->
  (forall batch, batch <> [] -> (List.length batch <= 32)%nat ->
                 (forall m, In m batch -> In m messages) ->
                 embed_batch b batch max_length = Ok (map embed_one batch)) ->
  get_bert_embeddings embed_batch messages max_length st
  = (Ok (map embed_one messages),
     {| self := self st; fs := fs st;
        log := (log st ++ [(INFO, [Lit "Generating BERT embeddings for ";
                                   InterpNum "len(messages)"; Lit " messages"])])%list |}).
Proof.
  intros Hub Hb Hrows.
  unfold get_bert_embeddings, Py.bind, get_self, logger, Py.modify, call.
  rewrite Hub. simpl. rewrite Hb.
  now rewrite (@embed_batches_rows embed_one b max_length (List.length messages) messages
                 (le_n _) Hrows).
Qed.

End Text.

(** Two calls on a fresh object. *)
Lemma vectorizer_is_fitted_once_witness :
  exists st1,
    get_tfidf_features PipelineRun.tfidf_fit_transform PipelineRun.tfidf_transform
      ["connection lost"; "connection timeout"; "disk full"] 1000 PipelineRun.without_bert
    = (Ok [[1%Z]; [1%Z]; [0%Z]], st1)
    /\ get_tfidf_features PipelineRun.tfidf_fit_transform PipelineRun.tfidf_transform
         ["connection reset"; "disk full"] 5 st1
       = (Ok [[1%Z]; [0%Z]], st1).
Proof.
  destruct (@vectorizer_is_fitted_once PipelineRun.num PipelineRun.Bert PipelineRun.Tfidf
              PipelineRun.tfidf_fit_transform PipelineRun.tfidf_transform
              ["connection lost"; "connection timeout"; "disk full"] 1000%nat
              ["connection reset"; "disk full"] 5%nat
              PipelineRun.without_bert ["connection"] [[1%Z]; [1%Z]; [0%Z]]
              eq_refl eq_refl)
    as [st1 [Hfirst [_ [_ [_ Hsecond]]]]].
  exists st1. split; [exact Hfirst | exact Hsecond].
Defined.

(** A first call on documents without a term, then a call on good ones. *)
Lemma failed_fit_leaves_an_unfitted_vectorizer_witness :
  exists e st1,
    get_tfidf_features PipelineRun.tfidf_fit_transform PipelineRun.tfidf_transform
      ["the"; "and"] 1000 PipelineRun.without_bert
    = (Raise e, st1)
    /\ get_tfidf_features PipelineRun.tfidf_fit_transform PipelineRun.tfidf_transform
         ["service started"; "connection lost"] 1000 st1
       = (Raise (LibraryError "sklearn.exceptions.NotFittedError"), st1).
Proof.
  destruct (@failed_fit_leaves_an_unfitted_vectorizer PipelineRun.num PipelineRun.Bert
              PipelineRun.Tfidf PipelineRun.tfidf_fit_transform PipelineRun.tfidf_transform
              ["the"; "and"] 1000%nat ["service started"; "connection lost"] 1000%nat
              PipelineRun.without_bert _ eq_refl eq_refl)
    as [st1 [Hfirst [_ Hsecond]]].
  do 2 eexists. split; [exact Hfirst | exact Hsecond].
Defined.

(** Forty messages: a batch of 32 and a batch of 8. *)
Lemma embeddings_follow_the_messages_witness :
  fst (get_bert_embeddings PipelineRun.embed_batch (repeat "boot" 40) 128
         PipelineRun.with_bert)
  = Ok (repeat [4%Z] 40).
Proof.
  rewrite (@embeddings_follow_the_messages PipelineRun.num PipelineRun.Bert PipelineRun.Tfidf
             PipelineRun.embed_batch PipelineRun.message_length tt (repeat "boot" 40)
             128%nat PipelineRun.with_bert eq_refl eq_refl).
  - reflexivity.
  - intros batch _ _ _. reflexivity.
Defined.

End TextFeatures.

(* ================================================================== *)
(** ** The pipeline and its files *)

Module ProcessedFiles.

Import Preprocess.
Import PyFacts MonadFacts.
Open Scope string_scope.

(** A run of [m ;; k] raised in [m], or went on with [k]. *)
Lemma bind_cases {S E A B} (m : M S E A) (k : A -> M S E B) s r s' :
  Py.bind m k s = (r, s') ->
  (exists e, m s = (Raise e, s') /\ r = Raise e)
  \/ (exists a s1, m s = (Ok a, s1) /\ k a s1 = (r, s')).
Proof.
  unfold Py.bind. destruct (m s) as [[a|e] s1]; intros H.
  - right. eauto.
  - left. injection H as <- <-. eauto.
Qed.

Section Files.

Variable num : Type.
Variable of_cell : cell -> num.
Variable parse_cell : cell -> option Temporal.datetime.
Variable high_error_period : list Temporal.datetime -> list cell -> list cell.
Variable set_iter : list string -> list string.
Variable Bert : Type.
Variable embed_batch : Bert -> list string -> nat -> result exn (matrix num).
Variable Tfidf : Type.
Variable tfidf_fit_transform : nat -> list string -> result exn (Tfidf * matrix num).
Variable tfidf_transform : Tfidf -> list string -> result exn (matrix num).
Variable scaler_validate : matrix num -> result exn unit.
Variable standardize : matrix num -> matrix num -> matrix num.
Variable train_test_split :
  matrix num -> list cell -> num
  -> result exn (matrix num * matrix num * list cell * list cell).

(** *** Steps that leave the files alone *)

Let same_files (st st' : State num Bert Tfidf) : Prop := fs st' = fs st.

Lemma same_refl st : same_files st st.
Proof. reflexivity. Qed.

Lemma same_trans a b c : same_files a b -> same_files b c -> same_files a c.
Proof. unfold same_files. congruence. Qed.

Lemma files_logger lv msg : preserves same_files (@logger num Bert Tfidf lv msg).
Proof. intros s r s' H. now inversion H. Qed.

Lemma files_call A (r : result exn A) : preserves same_files (@call num Bert Tfidf A r).
Proof. intros s r0 s' H. now inversion H. Qed.

Lemma files_get_self : preserves same_files (@get_self num Bert Tfidf).
Proof. intros s r0 s' H. now inversion H. Qed.

Lemma files_set_self g : preserves same_files (@set_self num Bert Tfidf g).
Proof. intros s r s' H. now inversion H. Qed.

Lemma files_read_file path : preserves same_files (@read_file num Bert Tfidf path).
Proof.
  intros s r s' H. unfold read_file in H.
  destruct (Py.get _ _); now inversion H.
Qed.

Lemma files_encode df cols :
  preserves same_files (@encode_categorical_features num set_iter Bert Tfidf df cols).
Proof.
  intros s r s' H. unfold encode_categorical_features in H.
  destruct (Encoder.encode_categorical_features _ _ _ _) as [r0 le].
  now inversion H.
Qed.

Ltac files_step :=
  first
    [ apply preserves_bind; [apply same_trans | | intro]
    | apply preserves_try_except; [apply same_trans | | intro]
    | apply preserves_ret; apply same_refl
    | apply preserves_raise; apply same_refl
    | apply files_logger
    | apply files_call
    | apply files_get_self
    | apply files_read_file
    | apply files_encode
    | apply files_set_self
    | progress cbv zeta
    | match goal with
      | |- preserves _ (match ?x with _ => _ end) => destruct x
      | |- preserves _ (if ?x then _ else _) => destruct x
      end ].

Ltac files_all :=
  unfold reraise_not_found, read_csv, np_load, pickle_load,
    get_tfidf_features, get_bert_embeddings, text_features, scaler_fit_transform;
  repeat files_step.

Lemma files_unsaved file_path use_bert_arg test_size :
  preserves same_files
    (preprocess_logs of_cell parse_cell high_error_period set_iter embed_batch
       tfidf_fit_transform tfidf_transform scaler_validate standardize train_test_split
       file_path use_bert_arg test_size false).
Proof. unfold preprocess_logs. files_all. Qed.

(** X13. Called with [save_processed=False], [preprocess_logs] leaves
    the file system as it is, whether it returns or raises. *)
Theorem unsaved_run_writes_nothing file_path use_bert_arg test_size
  (st : State num Bert Tfidf) r st' :
  preprocess_logs of_cell parse_cell high_error_period set_iter embed_batch
    tfidf_fit_transform tfidf_transform scaler_validate standardize train_test_split
    file_path use_bert_arg test_size false st = (r, st') ->
  fs st' = fs st.
Proof. apply files_unsaved. Qed.


(** *** A table without a level column *)

Lemma read_csv_run msg file_path (st : State num Bert Tfidf) df a st' :
  Py.get (files (fs st)) file_path = Some (Csv num Tfidf df) ->
  reraise_not_found msg
    (df <- read_csv file_path ;;
     logger INFO [Lit "Loaded "; InterpNum "len(df)"; Lit " log entries"] ;;;
     Py.ret df)%py st = (Ok a, st') ->
  a = df.
Proof.
  intros Hfile. unfold reraise_not_found, read_csv, read_file.
  unfold Py.bind, Py.try_except, logger, Py.modify, Py.raise, Py.ret.
  rewrite Hfile. simpl. intros H. now injection H as <- _.
Qed.

Ltac walk H F a s Hm :=
  apply bind_cases in H;
  destruct H as [[?e [Hm ->]] | [a [s [Hm H]]]];
  [ split; [eexists; reflexivity|];
    match type of Hm with
    | ?m _ = _ =>
        let P := fresh "P" in
        assert (P : preserves same_files m) by files_all;
        apply P in Hm; unfold same_files in *; congruence
    end
  | match type of Hm with
    | ?m _ = _ =>
        let P := fresh "P" in
        assert (P : preserves same_files m) by files_all;
        pose proof (P _ _ _ Hm) as F; unfold same_files in F; clear P
    end ].

(** X14. On a table without a level column [preprocess_logs] never
    returns: it raises, whatever the other columns hold and whatever
    [save_processed] is, and the file system is as before the call. *)
Theorem no_level_column_no_result file_path use_bert_arg test_size save_processed
  (st : State num Bert Tfidf) df r st' :
  Py.get (files (fs st)) file_path = Some (Csv num Tfidf df) ->
  Py.get df "level" = None ->
  preprocess_logs of_cell parse_cell high_error_period set_iter embed_batch
    tfidf_fit_transform tfidf_transform scaler_validate standardize train_test_split
    file_path use_bert_arg test_size save_processed st = (r, st') ->
  (exists e, r = Raise e) /\ fs st' = fs st.
Proof.
  intros Hfile Hlevel H. unfold preprocess_logs in H.
  walk H F1 a1 s1 H1.
  walk H F2 a2 s2 H2.
  assert (a2 = df).
  { eapply read_csv_run; [|exact H2]. now rewrite F1. }
  subst a2.
  walk H F3 a3 s3 H3.
  assert (L3 : Py.get a3 "level" = None).
  { destruct (Py.get df "message") as [column|].
    - injection H3 as <- _. now rewrite get_set_other by discriminate.
    - unfold Py.bind, logger, Py.modify, Py.raise in H3. discriminate. }
  walk H F4 a4 s4 H4.
  assert (L4 : Py.get a4 "level" = None).
  { destruct (Py.get a3 "timestamp") as [timestamps|].
    - unfold Py.bind, call, Py.ret in H4.
      destruct (Temporal.extract_temporal_features parse_cell timestamps) as [t|e];
        [|discriminate].
      injection H4 as <- _. unfold concat_temporal. now rewrite get_app, L3.
    - now injection H4 as <- _. }
  walk H F5 a5 s5 H5.
  assert (L5 : Py.get a5 "level" = None).
  { unfold call in H5. injection H5 as H5 _.
    rewrite (@AnomalyFlags.detect_keeps parse_cell high_error_period a4 a5 "level" H5);
      [exact L4 | discriminate..]. }
  cbv zeta in H.
  walk H F6 a6 s6 H6.
  assert (L6 : Py.get a6 "level" = None).
  { unfold encode_categorical_features in H6.
    destruct (Encoder.encode_categorical_features set_iter a5 ["level"; "source"]
                (label_encoders (self s5))) as [r0 le] eqn:Henc.
    injection H6 as -> _.
    destruct (@EncoderRounds.encode_columns_frame set_iter a5 ["level"; "source"] a5
                (label_encoders (self s5)) (Ok a6) le Henc) as [_ Hcols].
    rewrite (Hcols a6 eq_refl "level"); [exact L5|].
    intros col [<-|[<-|[]]] _; discriminate. }
  walk H F7 a7 s7 H7.
  walk H F8 a8 s8 H8.
  unfold Py.contains in H. rewrite L6 in H.
  unfold Py.bind at 1 in H. unfold Py.bind at 1 in H.
  unfold logger, Py.modify, Py.raise in H. simpl in H.
  injection H as <- <-. split; [eauto|]. simpl. congruence.
Qed.

(** *** Saving and loading *)

(** The files after [save_processed_data], when every path can be written. *)
Lemma save_processed_data_run X_train X_test y_train y_test df (st : State num Bert Tfidf) :
  (forall p, denied (fs st) p = false) ->
  save_processed_data X_train X_test y_train y_test df st
  = (Ok tt,
     {| self := self st;
        fs := {| files :=
                   Py.set
                     (Py.set
                        (Py.set
                           (Py.set
                              (Py.set
                                 (Py.set (files (fs st)) "X_train_enhanced.npy"
                                    (Npy Tfidf (Matrix X_train)))
                                 "X_test_enhanced.npy" (Npy Tfidf (Matrix X_test)))
                              "y_train_enhanced.npy" (Npy Tfidf (Vector num y_train)))
                           "y_test_enhanced.npy" (Npy Tfidf (Vector num y_test)))
                        "preprocessor_objects.pkl"
                        (PickledObjects
                           {| o_label_encoders := Some (label_encoders (self st));
                              o_tfidf_vectorizer := Some (tfidf_vectorizer (self st));
                              o_scaler := Some (scaler (self st));
                              o_use_bert := Some (use_bert (self st));
                              o_bert_model_name := Some (bert_model_name (self st)) |}))
                     "logs_enhanced_processed.csv" (Csv num Tfidf df);
                 denied := denied (fs st) |};
        log := (log st ++ [(INFO, [Lit "Processed data saved successfully"])])%list |}).
Proof.
  intros Hden.
  unfold save_processed_data, Py.bind, write_file, get_self, logger, Py.modify.
  repeat (rewrite Hden; cbn [self fs log files denied]).
  reflexivity.
Qed.

Lemma saved_lookup (fls : dict (File num Tfidf)) a b c d o e :
  let saved :=
    Py.set (Py.set (Py.set (Py.set (Py.set (Py.set fls "X_train_enhanced.npy" a)
                                      "X_test_enhanced.npy" b)
                              "y_train_enhanced.npy" c)
                      "y_test_enhanced.npy" d)
              "preprocessor_objects.pkl" o)
      "logs_enhanced_processed.csv" e in
  Py.get saved "X_train_enhanced.npy" = Some a
  /\ Py.get saved "X_test_enhanced.npy" = Some b
  /\ Py.get saved "y_train_enhanced.npy" = Some c
  /\ Py.get saved "y_test_enhanced.npy" = Some d
  /\ Py.get saved "preprocessor_objects.pkl" = Some o.
Proof.
  cbv zeta. repeat split;
    repeat (rewrite get_set_other by discriminate); apply get_set_same.
Qed.

(** X15. What [save_processed_data] writes, [load_processed_data] reads
    back: when every path can be written, the save returns, and a load by
    any object on the files it left returns the four arrays that were saved
    and gives that object the label encoders, the vectorizer and the scaler
    of the object that saved; [use_bert], the embedding model and its name
    are not restored. *)
Theorem saved_data_loads_back X_train X_test y_train y_test df (st : State num Bert Tfidf)
  (other : Preprocessor num Bert Tfidf) (log0 : list log_record) :
  (forall p, denied (fs st) p = false) ->
  exists st1 st2,
    save_processed_data X_train X_test y_train y_test df st = (Ok tt, st1)
    /\ self st1 = self st
    /\ load_processed_data {| self := other; fs := fs st1; log := log0 |}
       = (Ok (Matrix X_train, Matrix X_test, Vector num y_train, Vector num y_test), st2)
    /\ label_encoders (self st2) = label_encoders (self st)
    /\ tfidf_vectorizer (self st2) = tfidf_vectorizer (self st)
    /\ scaler (self st2) = scaler (self st)
    /\ use_bert (self st2) = use_bert other
    /\ bert (self st2) = bert other
    /\ bert_model_name (self st2) = bert_model_name other
    /\ fs st2 = fs st1.
Proof.
  intros Hden. rewrite (save_processed_data_run X_train X_test y_train y_test df st Hden).
  eexists. eexists. split; [reflexivity|]. split; [reflexivity|].
  cbn [fs].
  match goal with
  | |- context [{| files := ?saved; denied := _ |}] =>
      destruct (@saved_lookup (files (fs st))
                  (Npy Tfidf (Matrix X_train)) (Npy Tfidf (Matrix X_test))
                  (Npy Tfidf (Vector num y_train)) (Npy Tfidf (Vector num y_test))
                  (PickledObjects
                     {| o_label_encoders := Some (label_encoders (self st));
                        o_tfidf_vectorizer := Some (tfidf_vectorizer (self st));
                        o_scaler := Some (scaler (self st));
                        o_use_bert := Some (use_bert (self st));
                        o_bert_model_name := Some (bert_model_name (self st)) |})
                  (Csv num Tfidf df))
        as [G1 [G2 [G3 [G4 G5]]]]
  end.
  unfold load_processed_data, reraise_not_found, np_load, pickle_load, read_file,
    Py.try_except, Py.bind, Py.ret, Py.raise, set_self, logger, Py.modify.
  cbn [self fs log files denied].
  rewrite G1; cbv beta iota; cbn [self fs log files denied].
  rewrite G2; cbv beta iota; cbn [self fs log files denied].
  rewrite G3; cbv beta iota; cbn [self fs log files denied].
  rewrite G4; cbv beta iota; cbn [self fs log files denied].
  rewrite G5; cbv beta iota; cbn [self fs log files denied].
  split; [reflexivity|]. repeat split.
Qed.


End Files.


(** Monday's file, preprocessed without saving. *)
Lemma unsaved_run_writes_nothing_witness :
  exists r st',
    preprocess_logs PipelineRun.of_cell Temporal.parse_iso PipelineRun.high_error_period
      Encoder.iter_ascending PipelineRun.embed_batch PipelineRun.tfidf_fit_transform
      PipelineRun.tfidf_transform PipelineRun.scaler_validate PipelineRun.standardize
      PipelineRun.train_test_split "monday.csv" false 2%Z false PipelineRun.without_bert
    = (Ok r, st')
    /\ fs st' = PipelineRun.disk.
Proof.
  destruct (preprocess_logs PipelineRun.of_cell Temporal.parse_iso
              PipelineRun.high_error_period Encoder.iter_ascending PipelineRun.embed_batch
              PipelineRun.tfidf_fit_transform PipelineRun.tfidf_transform
              PipelineRun.scaler_validate PipelineRun.standardize
              PipelineRun.train_test_split "monday.csv" false 2%Z false
              PipelineRun.without_bert) as [[r|e] st'] eqn:Hrun.
  - exists r, st'. split; [reflexivity|].
    exact (@unsaved_run_writes_nothing _ _ _ _ _ _ _ _ _ _ _ _ _ _ _ _ _ _ _ Hrun).
  - exfalso. revert Hrun. vm_compute. discriminate.
Defined.

(** A file with timestamps and messages, but no level. *)
Lemma no_level_column_no_result_witness :
  exists e st',
    PipelineRun.preprocess "unlabelled.csv" false PipelineRun.beside_unlabelled
    = (Raise e, st')
    /\ fs st' = fs PipelineRun.beside_unlabelled.
Proof.
  destruct (PipelineRun.preprocess "unlabelled.csv" false PipelineRun.beside_unlabelled)
    as [r st'] eqn:Hrun.
  destruct (@no_level_column_no_result PipelineRun.num PipelineRun.of_cell
              Temporal.parse_iso PipelineRun.high_error_period Encoder.iter_ascending
              PipelineRun.Bert PipelineRun.embed_batch PipelineRun.Tfidf
              PipelineRun.tfidf_fit_transform PipelineRun.tfidf_transform
              PipelineRun.scaler_validate PipelineRun.standardize
              PipelineRun.train_test_split "unlabelled.csv" false 2%Z true
              PipelineRun.beside_unlabelled PipelineRun.unlabelled r st'
              eq_refl eq_refl Hrun) as [[e ->] Hfs].
  exists e, st'. split; [reflexivity | exact Hfs].
Defined.

(** Monday's arrays, saved by one object and loaded by another. *)
Lemma saved_data_loads_back_witness :
  exists st1 st2,
    save_processed_data [[1%Z]; [2%Z]] [[3%Z]] [CInt 0; CInt 1] [CInt 0] PipelineRun.monday
      PipelineRun.without_bert = (Ok tt, st1)
    /\ load_processed_data
         {| self := self PipelineRun.with_bert; fs := fs st1; log := [] |}
       = (Ok (Matrix [[1%Z]; [2%Z]], Matrix [[3%Z]],
              Vector PipelineRun.num [CInt 0; CInt 1], Vector PipelineRun.num [CInt 0]), st2)
    /\ use_bert (self st2) = true.
Proof.
  destruct (@saved_data_loads_back PipelineRun.num PipelineRun.Bert PipelineRun.Tfidf
              [[1%Z]; [2%Z]] [[3%Z]] [CInt 0; CInt 1] [CInt 0] PipelineRun.monday
              PipelineRun.without_bert (self PipelineRun.with_bert) [] (fun _ => eq_refl))
    as [st1 [st2 [Hsave [_ [Hload [_ [_ [_ [Hub _]]]]]]]]].
  exists st1, st2. split; [exact Hsave|]. split; [exact Hload|].
  rewrite Hub. reflexivity.
Defined.


End ProcessedFiles.

(* ================================================================== *)
(** ** The processed data, from the preprocessor to the trainer *)

Module TrainerData.

Import PyFacts MonadFacts.
Open Scope string_scope.

Section Handover.

Variable num : Type.
Variable Bert : Type.
Variable Tfidf : Type.
Variable Obj : Type.

(** X17. What the preprocessor's [save_processed_data] writes, the
    trainer's [load_processed_data] reads: when every path can be written,
    a load by any [EnhancedLogAnalysisModel] on the files the save left
    returns the four arrays that were saved and gives the trainer the label
    encoders of the preprocessor; the registries, the report and
    [is_trained] of the trainer are untouched, and so are the files. *)
Theorem trainer_reads_what_the_preprocessor_saved X_train X_test y_train y_test df
  (st : Preprocess.State num Bert Tfidf) (trainer : ProcessedData.Model Obj)
  (log0 : list log_record) :
  (forall p, denied (Preprocess.fs st) p = false) ->
  exists st1 st2,
    Preprocess.save_processed_data X_train X_test y_train y_test df st = (Ok tt, st1)
    /\ ProcessedData.load_processed_data
         {| ProcessedData.self := trainer; ProcessedData.fs := Preprocess.fs st1;
            ProcessedData.log := log0 |}
       = (Ok (Preprocess.Matrix X_train, Preprocess.Matrix X_test,
              Preprocess.Vector num y_train, Preprocess.Vector num y_test), st2)
    /\ ProcessedData.label_encoders (ProcessedData.self st2)
       = Preprocess.label_encoders (Preprocess.self st)
    /\ ProcessedData.bank (ProcessedData.self st2) = ProcessedData.bank trainer
    /\ ProcessedData.fs st2 = Preprocess.fs st1
    /\ ProcessedData.log st2
       = (log0 ++ [(INFO, [Lit "Processed data loaded successfully"])])%list.
Proof.
  intros Hden.
  rewrite (ProcessedFiles.save_processed_data_run X_train X_test y_train y_test df st Hden).
  eexists. eexists. split; [reflexivity|].
  cbn [Preprocess.fs].
  destruct (@ProcessedFiles.saved_lookup num Tfidf (files (Preprocess.fs st))
              (Preprocess.Npy Tfidf (Preprocess.Matrix X_train))
              (Preprocess.Npy Tfidf (Preprocess.Matrix X_test))
              (Preprocess.Npy Tfidf (Preprocess.Vector num y_train))
              (Preprocess.Npy Tfidf (Preprocess.Vector num y_test))
              (Preprocess.PickledObjects
                 {| Preprocess.o_label_encoders := Some (Preprocess.label_encoders (Preprocess.self st));
                    Preprocess.o_tfidf_vectorizer :=
                      Some (Preprocess.tfidf_vectorizer (Preprocess.self st));
                    Preprocess.o_scaler := Some (Preprocess.scaler (Preprocess.self st));
                    Preprocess.o_use_bert := Some (Preprocess.use_bert (Preprocess.self st));
                    Preprocess.o_bert_model_name :=
                      Some (Preprocess.bert_model_name (Preprocess.self st)) |})
              (Preprocess.Csv num Tfidf df))
    as [G1 [G2 [G3 [G4 G5]]]].
  unfold ProcessedData.load_processed_data, ProcessedData.np_load,
    ProcessedData.pickle_load, ProcessedData.read_file,
    Py.try_except, Py.bind, Py.ret, Py.raise, ProcessedData.set_label_encoders,
    ProcessedData.logger, Py.modify.
  cbn [ProcessedData.self ProcessedData.fs ProcessedData.log files denied].
  rewrite G1; cbv beta iota;
    cbn [ProcessedData.self ProcessedData.fs ProcessedData.log files denied].
  rewrite G2; cbv beta iota;
    cbn [ProcessedData.self ProcessedData.fs ProcessedData.log files denied].
  rewrite G3; cbv beta iota;
    cbn [ProcessedData.self ProcessedData.fs ProcessedData.log files denied].
  rewrite G4; cbv beta iota;
    cbn [ProcessedData.self ProcessedData.fs ProcessedData.log files denied].
  rewrite G5; cbv beta iota;
    cbn [ProcessedData.self ProcessedData.fs ProcessedData.log files denied].
  split; [reflexivity|]. repeat split.
Qed.

End Handover.

(** Monday's arrays, saved by the preprocessor and read by a fresh
    trainer. *)
Lemma trainer_reads_what_the_preprocessor_saved_witness :
  exists st1 st2,
    Preprocess.save_processed_data [[1%Z]; [2%Z]] [[3%Z]] [CInt 0; CInt 1] [CInt 0]
      PipelineRun.monday PipelineRun.monday_state = (Ok tt, st1)
    /\ ProcessedData.load_processed_data
         {| ProcessedData.self :=
              {| ProcessedData.bank := ModelBank.init "{}"; ProcessedData.label_encoders := [] |};
            ProcessedData.fs := Preprocess.fs st1; ProcessedData.log := [] |}
       = (Ok (Preprocess.Matrix [[1%Z]; [2%Z]], Preprocess.Matrix [[3%Z]],
              Preprocess.Vector PipelineRun.num [CInt 0; CInt 1],
              Preprocess.Vector PipelineRun.num [CInt 0]), st2)
    /\ ProcessedData.label_encoders (ProcessedData.self st2)
       = [("level", ["ERROR"; "INFO"]); ("source", ["api"; "db"])].
Proof.
  destruct (@trainer_reads_what_the_preprocessor_saved PipelineRun.num PipelineRun.Bert
              PipelineRun.Tfidf string [[1%Z]; [2%Z]] [[3%Z]] [CInt 0; CInt 1] [CInt 0]
              PipelineRun.monday PipelineRun.monday_state
              {| ProcessedData.bank := ModelBank.init "{}"; ProcessedData.label_encoders := [] |}
              [] (fun _ => eq_refl))
    as [st1 [st2 [Hsave [Hload [Hle _]]]]].
  exists st1, st2. split; [exact Hsave|]. split; [exact Hload|].
  etransitivity; [exact Hle | reflexivity].
Defined.

End TrainerData.

(* ================================================================== *)
(** ** The model bank: training rounds, evaluation, tuning, scoring *)

Module BankRounds.

Import ModelBank ModelEvaluation.
Import PyFacts.
Open Scope string_scope.

Ltac run :=
  unfold Py.bind, Py.ret, Py.raise, Py.modify, Py.try_except, Py.get_state,
    logger, set_classification_model, set_anomaly_model, set_model_performance,
    set_is_trained, set_self, get_self, call; simpl.

(** *** A loop of training rounds

    Each round returns; it registers the estimator under its name exactly
    when the fit returned, and logs the failure it met. *)

Section Loop.

Variable Obj : Type.
Variable T : Type.
Variable reg : Bank Obj -> dict Obj.
Variable others : Bank Obj -> T.
Variable round : string * Estimator -> meth Obj unit.
Variable fitting : Estimator -> result exn Obj.
Variable failing : Estimator -> exn -> Prop.
Variable failure : string -> exn -> log_record.

Hypothesis round_spec : forall name est (st : State Obj),
  exists st',
    round (name, est) st = (Ok tt, st')
    /\ fs st' = fs st
    /\ others (self st') = others (self st)
    /\ (exists added, log st' = (log st ++ added)%list)
    /\ (forall fitted, fitting est = Ok fitted ->
          reg (self st') = Py.set (reg (self st)) name fitted)
    /\ (forall e, fitting est = Raise e -> reg (self st') = reg (self st))
    /\ (forall e, failing est e -> In (failure name e) (log st')).

Lemma rounds cfg : forall st : State Obj,
  NoDup (map fst cfg) ->
  exists st',
    Py.for_each cfg round st = (Ok tt, st')
    /\ fs st' = fs st
    /\ others (self st') = others (self st)
    /\ (exists added, log st' = (log st ++ added)%list)
    /\ (forall name est fitted,
           In (name, est) cfg -> fitting est = Ok fitted ->
           Py.get (reg (self st')) name = Some fitted)
    /\ (forall name est e,
           In (name, est) cfg -> fitting est = Raise e ->
           Py.get (reg (self st')) name = Py.get (reg (self st)) name)
    /\ (forall name est e,
           In (name, est) cfg -> failing est e -> In (failure name e) (log st'))
    /\ (forall name, ~ In name (map fst cfg) ->
           Py.get (reg (self st')) name = Py.get (reg (self st)) name)
    /\ ((forall name, In name (map fst cfg) -> ~ In name (Py.keys (reg (self st)))) ->
        Py.keys (reg (self st'))
        = (Py.keys (reg (self st))
           ++ map fst (filter (fun item => is_ok (fitting (snd item))) cfg))%list).
Proof.
  induction cfg as [|[name est] cfg IH]; intros st Hnd.
  - exists st. simpl. repeat split; try tauto.
    + exists []. now rewrite app_nil_r.
    + intros _. now rewrite app_nil_r.
  - inversion Hnd as [|? ? Hname Hnd']; subst.
    destruct (round_spec name est st)
      as [st1 [Hrun [Hfs [Hoth [[l1 Hlog1] [Hfit [Hraise Hfail]]]]]]].
    destruct (IH st1 Hnd')
      as [st' [Hloop [Hfs' [Hoth' [[l2 Hlog2] [Hok [Hkept [Hlogged [Hother Hkeys]]]]]]]]].
    exists st'. rewrite for_each_cons, Hrun.
    split; [exact Hloop|]. split; [congruence|]. split; [congruence|].
    split; [exists (l1 ++ l2)%list; now rewrite Hlog2, Hlog1, app_assoc|].
    assert (Hstep : forall n, n <> name ->
               Py.get (reg (self st1)) n = Py.get (reg (self st)) n).
    { intros n Hn. destruct (fitting est) as [fitted|e] eqn:Ef.
      - rewrite (Hfit fitted eq_refl). apply get_set_other. congruence.
      - now rewrite (Hraise e eq_refl). }
    split; [|split; [|split; [|split]]].
    + intros n e' fitted [Heq|Hin] Hf.
      * injection Heq as <- <-. rewrite Hother by exact Hname.
        rewrite (Hfit fitted Hf). apply get_set_same.
      * eapply Hok; eauto.
    + intros n e' e [Heq|Hin] Hf.
      * injection Heq as <- <-. rewrite Hother by exact Hname.
        now rewrite (Hraise e Hf).
      * rewrite (Hkept n e' e Hin Hf). apply Hstep. intros ->. apply Hname.
        apply (in_map fst) in Hin. exact Hin.
    + intros n e' e [Heq|Hin] Hf.
      * injection Heq as <- <-. rewrite Hlog2. apply in_or_app. left. now apply Hfail.
      * eapply Hlogged; eauto.
    + intros n Hn. simpl in Hn. rewrite Hother by tauto. apply Hstep. intuition.
    + intros Hfresh.
      assert (Hrest : forall n, In n (map fst cfg) -> ~ In n (Py.keys (reg (self st1)))).
      { intros n Hn Hin. destruct (fitting est) as [fitted|e] eqn:Ef.
        - rewrite (Hfit fitted eq_refl) in Hin. apply in_keys_set in Hin.
          destruct Hin as [->|Hin]; [contradiction|].
          apply (Hfresh n); [now right | exact Hin].
        - rewrite (Hraise e eq_refl) in Hin.
          apply (Hfresh n); [now right | exact Hin]. }
      rewrite (Hkeys Hrest). simpl.
      destruct (fitting est) as [fitted|e] eqn:Ef; simpl.
      * rewrite (Hfit fitted eq_refl), keys_set_absent by (apply Hfresh; now left).
        now rewrite <- app_assoc.
      * now rewrite (Hraise e eq_refl).
Qed.

End Loop.

(** *** Detectors *)

Section Detectors.

Variables ndarray Obj : Type.
Variable fit_detector : Estimator -> ndarray -> result exn Obj.
Variable has_decision_function : Obj -> bool.
Variable decision_function : Obj -> ndarray -> result exn ndarray.
Variable X_train : ndarray.

Lemma train_detector_round name est (st : State Obj) :
  exists st',
    train_detector fit_detector has_decision_function decision_function X_train
      (name, est) st = (Ok tt, st')
    /\ fs st' = fs st
    /\ (classification_models (self st'), model_performance (self st'), is_trained (self st'))
       = (classification_models (self st), model_performance (self st), is_trained (self st))
    /\ (exists added, log st' = (log st ++ added)%list)
    /\ (forall fitted, fit_detector est X_train = Ok fitted ->
          anomaly_models (self st') = Py.set (anomaly_models (self st)) name fitted)
    /\ (forall e, fit_detector est X_train = Raise e ->
          anomaly_models (self st') = anomaly_models (self st))
    /\ (forall e,
          fit_detector est X_train = Raise e
          \/ (exists fitted, fit_detector est X_train = Ok fitted
                             /\ has_decision_function fitted = true
                             /\ decision_function fitted X_train = Raise e) ->
          In (detector_failure name e) (log st')).
Proof.
  unfold train_detector. run.
  destruct (fit_detector est X_train) as [fitted|e] eqn:Ef; simpl.
  - destruct (has_decision_function fitted) eqn:Eh; simpl.
    + destruct (decision_function fitted X_train) as [scores|e] eqn:Ed; simpl;
        eexists; (split; [reflexivity|]); simpl; repeat split;
        try discriminate; try (rewrite <- app_assoc; eexists; reflexivity);
        try (intros f Hf; injection Hf as <-; reflexivity).
      * intros e [H|[f [Hf [_ Hd]]]]; [discriminate|].
        injection Hf as <-. rewrite Ed in Hd. discriminate.
      * intros e' [H|[f [Hf [_ Hd]]]]; [discriminate|].
        injection Hf as <-. rewrite Ed in Hd. injection Hd as <-.
        apply in_or_app. right. now left.
    + eexists. split; [reflexivity|]. simpl. repeat split; try discriminate.
      * eexists; reflexivity.
      * intros f Hf. now injection Hf as <-.
      * intros e [H|[f [Hf [Hh _]]]]; [discriminate|].
        injection Hf as <-. congruence.
  - eexists. split; [reflexivity|]. simpl. repeat split; try discriminate.
    + rewrite <- app_assoc. eexists; reflexivity.
    + intros e' [H|[f [Hf _]]]; [|discriminate].
      injection H as <-. apply in_or_app. right. now left.
Qed.

Lemma configured_detectors_distinct : NoDup (map fst configured_detectors).
Proof.
  simpl. repeat constructor; simpl; intuition discriminate.
Qed.

(** X18. [train_anomaly_detection_models] returns without raising,
    whatever [fit] and [decision_function] do, and what it returns is the
    registry of detectors.  A detector whose [fit] raised is logged as a
    failure and its registry entry is as before the call; a detector whose
    [fit] returned is registered, and it stays registered when scoring the
    training data raises afterwards, although that too is logged as a
    failure to train.  No other name, attribute or file changes. *)
Theorem detector_training_isolates_failures (st : State Obj) :
  exists trained st',
    train_anomaly_detection_models fit_detector has_decision_function decision_function
      X_train st = (Ok trained, st')
    /\ trained = anomaly_models (self st')
    /\ fs st' = fs st
    /\ classification_models (self st') = classification_models (self st)
    /\ model_performance (self st') = model_performance (self st)
    /\ is_trained (self st') = is_trained (self st)
    /\ (forall name est fitted,
           In (name, est) configured_detectors ->
           fit_detector est X_train = Ok fitted ->
           Py.get trained name = Some fitted)
    /\ (forall name est e,
           In (name, est) configured_detectors ->
           fit_detector est X_train = Raise e ->
           Py.get trained name = Py.get (anomaly_models (self st)) name
           /\ In (detector_failure name e) (log st'))
    /\ (forall name est fitted e,
           In (name, est) configured_detectors ->
           fit_detector est X_train = Ok fitted ->
           has_decision_function fitted = true ->
           decision_function fitted X_train = Raise e ->
           Py.get trained name = Some fitted
           /\ In (detector_failure name e) (log st'))
    /\ (forall name, ~ In name (Py.keys configured_detectors) ->
           Py.get trained name = Py.get (anomaly_models (self st)) name)
    /\ (anomaly_models (self st) = [] ->
        Py.keys trained
        = map fst (filter (fun item => is_ok (fit_detector (snd item) X_train))
                          configured_detectors)).
Proof.
  destruct (@rounds Obj _ (@anomaly_models Obj)
              (fun b => (classification_models b, model_performance b, is_trained b))
              (train_detector fit_detector has_decision_function decision_function X_train)
              (fun est => fit_detector est X_train)
              (fun est e =>
                 fit_detector est X_train = Raise e
                 \/ (exists fitted, fit_detector est X_train = Ok fitted
                                    /\ has_decision_function fitted = true
                                    /\ decision_function fitted X_train = Raise e))
              detector_failure train_detector_round configured_detectors
              {| self := self st; fs := fs st;
                 log := (log st ++ [(INFO, [Lit "Training anomaly detection models..."])])%list |}
              configured_detectors_distinct)
    as [st' [Hloop [Hfs [Hoth [[added Hlog] [Hok [Hkept [Hlogged [Hother Hkeys]]]]]]]]].
  exists (anomaly_models (self st')), st'.
  split.
  { cbv beta iota delta [train_anomaly_detection_models Py.bind logger Py.modify
                            Py.items get_self Py.ret].
    match goal with
    | |- context [Py.for_each ?c ?b ?s] =>
        replace (Py.for_each c b s) with (@Ok exn unit tt, st') by (symmetry; exact Hloop)
    end.
    reflexivity. }
  simpl in Hoth. injection Hoth as Hcls Hperf Htr.
  split; [reflexivity|]. split; [exact Hfs|]. split; [exact Hcls|].
  split; [exact Hperf|]. split; [exact Htr|].
  split; [exact Hok|].
  split; [intros name est e Hin Hf; split;
          [exact (Hkept name est e Hin Hf) | apply (Hlogged name est e Hin); now left]|].
  split; [intros name est fitted e Hin Hf Hh Hd; split;
          [exact (Hok name est fitted Hin Hf)
          | apply (Hlogged name est e Hin); right; eauto]|].
  split; [exact Hother|].
  intros Hempty. rewrite Hkeys.
  - simpl. now rewrite Hempty.
  - intros name _. simpl. rewrite Hempty. tauto.
Qed.

End Detectors.

(** *** Classifiers whose cross-validation fails *)

Section CrossValidation.

Variables ndarray Obj : Type.
Variable fit : Estimator -> ndarray -> ndarray -> result exn Obj.
Variable cross_val_score : Obj -> ndarray -> ndarray -> result exn ndarray.
Variables X_train y_train : ndarray.

Lemma train_one_logged name est (st : State Obj) :
  exists st',
    train_one fit cross_val_score X_train y_train (name, est) st = (Ok tt, st')
    /\ fs st' = fs st
    /\ (anomaly_models (self st'), model_performance (self st'), is_trained (self st'))
       = (anomaly_models (self st), model_performance (self st), is_trained (self st))
    /\ (exists added, log st' = (log st ++ added)%list)
    /\ (forall fitted, fit est X_train y_train = Ok fitted ->
          classification_models (self st')
          = Py.set (classification_models (self st)) name fitted)
    /\ (forall e, fit est X_train y_train = Raise e ->
          classification_models (self st') = classification_models (self st))
    /\ (forall e,
          (exists fitted, fit est X_train y_train = Ok fitted
                          /\ cross_val_score fitted X_train y_train = Raise e) ->
          In (train_failure name e) (log st')).
Proof.
  unfold train_one. run.
  destruct (fit est X_train y_train) as [fitted|e] eqn:Ef; simpl.
  - destruct (cross_val_score fitted X_train y_train) as [scores|e] eqn:Ec; simpl;
      eexists; (split; [reflexivity|]); simpl; repeat split;
      try discriminate; try (rewrite <- app_assoc; eexists; reflexivity);
      try (intros f Hf; injection Hf as <-; reflexivity).
    + intros e [f [Hf Hc]]. injection Hf as <-. rewrite Ec in Hc. discriminate.
    + intros e' [f [Hf Hc]]. injection Hf as <-. rewrite Ec in Hc. injection Hc as <-.
      apply in_or_app. right. now left.
  - eexists. split; [reflexivity|]. simpl. repeat split; try discriminate.
    + rewrite <- app_assoc. eexists; reflexivity.
    + intros e' [f [Hf _]]. discriminate.
Qed.

(** X19. A classifier whose [fit] returned but whose cross-validation
    raised is in the map [train_classification_models] returns, and is
    logged as having failed to train all the same: the estimator is
    registered before [cross_val_score] runs. *)
Theorem failed_cross_validation_keeps_the_model (st : State Obj) name est fitted e :
  In (name, est) configured_classifiers ->
  fit est X_train y_train = Ok fitted ->
  cross_val_score fitted X_train y_train = Raise e ->
  exists trained st',
    train_classification_models fit cross_val_score X_train y_train st = (Ok trained, st')
    /\ Py.get trained name = Some fitted
    /\ In (train_failure name e) (log st').
Proof.
  intros Hin Hfit Hcv.
  destruct (@rounds Obj _ (@classification_models Obj)
              (fun b => (anomaly_models b, model_performance b, is_trained b))
              (train_one fit cross_val_score X_train y_train)
              (fun est => fit est X_train y_train)
              (fun est e =>
                 exists fitted, fit est X_train y_train = Ok fitted
                                /\ cross_val_score fitted X_train y_train = Raise e)
              train_failure train_one_logged configured_classifiers
              {| self := self st; fs := fs st;
                 log := (log st ++ [(INFO, [Lit "Training classification models..."])])%list |}
              (BankSpec.configured_names_distinct))
    as [st' [Hloop [_ [_ [_ [Hok [_ [Hlogged _]]]]]]]].
  exists (classification_models (self st')), st'.
  split.
  { cbv beta iota delta [train_classification_models Py.bind logger Py.modify
                            Py.items get_self Py.ret].
    match goal with
    | |- context [Py.for_each ?c ?b ?s] =>
        replace (Py.for_each c b s) with (@Ok exn unit tt, st') by (symmetry; exact Hloop)
    end.
    reflexivity. }
  split; [exact (Hok name est fitted Hin Hfit)|].
  apply (Hlogged name est e Hin). eauto.
Qed.

End CrossValidation.

(** *** Evaluation loops *)

Section Each.

Variable Obj : Type.
Variable R : Type.
Variable evaluate : string * Obj -> meth Obj R.
Variable entry_of : string * Obj -> R -> list log_record -> Prop.

Hypothesis entry_grows : forall item entry added more,
  entry_of item entry added -> entry_of item entry (added ++ more)%list.
Hypothesis entry_later : forall item entry added before,
  entry_of item entry added -> entry_of item entry (before ++ added)%list.

Hypothesis evaluate_spec : forall item (st : State Obj),
  exists entry added,
    evaluate item st
    = (Ok entry, {| self := self st; fs := fs st; log := (log st ++ added)%list |})
    /\ entry_of item entry added.

Lemma evaluations registry : forall (results : dict R) (st : State Obj),
  NoDup (Py.keys registry) ->
  exists results' added,
    evaluate_each evaluate registry results st
    = (Ok results', {| self := self st; fs := fs st; log := (log st ++ added)%list |})
    /\ (forall name model,
           In (name, model) registry ->
           exists entry, Py.get results' name = Some entry
                         /\ entry_of (name, model) entry added)
    /\ (forall name, ~ In name (Py.keys registry) ->
           Py.get results' name = Py.get results name)
    /\ ((forall name, In name (Py.keys registry) -> ~ In name (Py.keys results)) ->
        Py.keys results' = (Py.keys results ++ Py.keys registry)%list).
Proof.
  induction registry as [|[name model] registry IH]; intros results st Hnd.
  - exists results, []. simpl. unfold Py.ret. rewrite app_nil_r.
    split; [now destruct st|]. split; [intros ? ? []|].
    split; [reflexivity|]. intros _. now rewrite app_nil_r.
  - simpl in Hnd. inversion Hnd as [|? ? Hname Hnd']; subst.
    destruct (evaluate_spec (name, model) st) as [entry [added1 [Hrun Hentry]]].
    destruct (IH (Py.set results name entry)
                {| self := self st; fs := fs st; log := (log st ++ added1)%list |} Hnd')
      as [results' [added2 [Hloop [Hin [Hout Hkeys]]]]].
    exists results', (added1 ++ added2)%list.
    split; [|split; [|split]].
    + cbn [evaluate_each]. unfold Py.bind. rewrite Hrun. cbn [fst].
      rewrite Hloop. cbn [self fs log]. now rewrite app_assoc.
    + intros n m [Heq|Hreg].
      * injection Heq as <- <-. exists entry. split.
        -- rewrite (Hout name Hname). apply get_set_same.
        -- now apply entry_grows.
      * destruct (Hin n m Hreg) as [en [Hget Hen]]. exists en.
        split; [exact Hget | now apply entry_later].
    + intros n Hn. simpl in Hn. rewrite Hout by tauto.
      apply get_set_other. intuition.
    + intros Hfresh. rewrite Hkeys.
      * rewrite keys_set_absent by (apply Hfresh; now left).
        simpl. now rewrite <- app_assoc.
      * intros n Hn Hk. apply in_keys_set in Hk. destruct Hk as [->|Hk].
        -- contradiction.
        -- apply (Hfresh n); [now right | exact Hk].
Qed.

End Each.

(** Settle equations between outcomes of the same call. *)
Ltac settle :=
  repeat match goal with
         | H : Ok _ = Raise _ |- _ => discriminate H
         | H : Raise _ = Ok _ |- _ => discriminate H
         | H : true = false |- _ => discriminate H
         | H : false = true |- _ => discriminate H
         | H : Ok _ = Ok _ |- _ => inversion H; subst; clear H
         | H : Raise _ = Raise _ |- _ => inversion H; subst; clear H
         | H1 : ?x = Ok _, H2 : ?x = _ |- _ => rewrite H1 in H2
         | H1 : ?x = Raise _, H2 : ?x = _ |- _ => rewrite H1 in H2
         | H1 : ?x = Ok _ |- context [match ?x with _ => _ end] => rewrite H1
         | H1 : ?x = Raise _ |- context [match ?x with _ => _ end] => rewrite H1
         end.

(** One outcome of a round: the run, then what the entry is. *)
Ltac leaf :=
  do 2 eexists; split; [rewrite <- ?app_assoc; reflexivity|]; split;
  [ intros; settle; try (split; [reflexivity | right; now left])
  | intros; settle; try (split; intros; settle; try reflexivity) ].

Section Evaluation.

Variables ndarray Obj : Type.
Variable predict : Obj -> ndarray -> result exn ndarray.
Variable has_predict_proba : Obj -> bool.
Variable predict_proba : Obj -> ndarray -> result exn ndarray.
Variable has_decision_function : Obj -> bool.
Variable decision_function : Obj -> ndarray -> result exn ndarray.
Variable accuracy_score : ndarray -> ndarray -> result exn ndarray.
Variable precision_recall_fscore_support :
  ndarray -> ndarray -> result exn (ndarray * ndarray * ndarray).
Variable roc_auc_score : ndarray -> ndarray -> result exn ndarray.
Variable confusion_matrix : ndarray -> ndarray -> result exn ndarray.
Variable classification_report : ndarray -> ndarray -> result exn Obj.
Variable anomaly_ratio : ndarray -> ndarray.
Variable num_anomalies : ndarray -> ndarray.
Variable as_object : dict (performance_entry ndarray Obj) -> Obj.
Variables X_test y_test : ndarray.

(** What the entry of a classifier is, and what has been logged. *)
Let classifier_entry (item : string * Obj) (entry : performance_entry ndarray Obj)
    (added : list log_record) : Prop :=
  (forall e, predict (snd item) X_test = Raise e ->
             entry = EvaluationError ndarray Obj (str_exn e)
             /\ In (evaluation_failure (fst item) e) added)
  /\ (forall y_pred accuracy p r f confusion report,
         predict (snd item) X_test = Ok y_pred ->
         accuracy_score y_test y_pred = Ok accuracy ->
         precision_recall_fscore_support y_test y_pred = Ok (p, r, f) ->
         confusion_matrix y_test y_pred = Ok confusion ->
         classification_report y_test y_pred = Ok report ->
         (has_predict_proba (snd item) = false ->
          entry = Metrics accuracy p r f None confusion report)
         /\ (forall proba,
                has_predict_proba (snd item) = true ->
                predict_proba (snd item) X_test = Ok proba ->
                entry = Metrics accuracy p r f
                          match roc_auc_score y_test proba with
                          | Ok auc => Some auc
                          | Raise _ => None
                          end confusion report)).

Lemma evaluate_classifier_round item (st : State Obj) :
  exists entry added,
    evaluate_classifier predict has_predict_proba predict_proba accuracy_score
      precision_recall_fscore_support roc_auc_score confusion_matrix classification_report
      X_test y_test item st
    = (Ok entry, {| self := self st; fs := fs st; log := (log st ++ added)%list |})
    /\ classifier_entry item entry added.
Proof.
  destruct item as [name model]. unfold classifier_entry, evaluate_classifier, auc_of.
  cbn [fst snd]. run.
  destruct (predict model X_test) as [y_pred|e1] eqn:Ep; simpl; [|leaf].
  destruct (has_predict_proba model) eqn:Eh; simpl;
    [destruct (predict_proba model X_test) as [proba|e2] eqn:Epp; simpl; [|leaf]|];
    (destruct (accuracy_score y_test y_pred) as [accuracy|e3] eqn:Ea; simpl; [|leaf]);
    (destruct (precision_recall_fscore_support y_test y_pred) as [[[p r] f]|e4] eqn:Ef;
     simpl; [|leaf]);
    [destruct (roc_auc_score y_test proba) as [auc|e5] eqn:Er; simpl|];
    (destruct (confusion_matrix y_test y_pred) as [confusion|e6] eqn:Ec; simpl; [|leaf]);
    (destruct (classification_report y_test y_pred) as [report|e7] eqn:Erep; simpl; [|leaf]);
    leaf.
Qed.

Lemma classifier_entry_grows item entry added more :
  classifier_entry item entry added -> classifier_entry item entry (added ++ more)%list.
Proof.
  intros [H1 H2]. split; [|exact H2].
  intros e He. destruct (H1 e He) as [Hen Hin]. split; [exact Hen|].
  apply in_or_app. now left.
Qed.

Lemma classifier_entry_later item entry added before :
  classifier_entry item entry added -> classifier_entry item entry (before ++ added)%list.
Proof.
  intros [H1 H2]. split; [|exact H2].
  intros e He. destruct (H1 e He) as [Hen Hin]. split; [exact Hen|].
  apply in_or_app. now right.
Qed.

Lemma evaluate_classification_models_run (st : State Obj) :
  NoDup (Py.keys (classification_models (self st))) ->
  exists performance added,
    evaluate_classification_models predict has_predict_proba predict_proba accuracy_score
      precision_recall_fscore_support roc_auc_score confusion_matrix classification_report
      as_object X_test y_test st
    = (Ok performance,
       {| self := {| classification_models := classification_models (self st);
                     anomaly_models := anomaly_models (self st);
                     model_performance := as_object performance;
                     is_trained := is_trained (self st) |};
          fs := fs st;
          log := (log st ++ added)%list |})
    /\ Py.keys performance = Py.keys (classification_models (self st))
    /\ (forall name model,
           In (name, model) (classification_models (self st)) ->
           exists entry, Py.get performance name = Some entry
                         /\ classifier_entry (name, model) entry added).
Proof.
  intros Hnd.
  destruct (@evaluations Obj _
              (evaluate_classifier predict has_predict_proba predict_proba accuracy_score
                 precision_recall_fscore_support roc_auc_score confusion_matrix
                 classification_report X_test y_test)
              classifier_entry classifier_entry_grows classifier_entry_later
              evaluate_classifier_round
              (classification_models (self st)) []
              {| self := self st; fs := fs st;
                 log := (log st ++ [(INFO, [Lit "Evaluating classification models..."])])%list |}
              Hnd)
    as [performance [added [Hloop [Hin [_ Hkeys]]]]].
  exists performance, ((INFO, [Lit "Evaluating classification models..."]) :: added).
  split; [|split].
  - cbv beta iota delta [evaluate_classification_models Py.bind logger Py.modify
                            Py.items get_self Py.ret set_model_performance set_self].
    cbn [self fs log] in *.
    match goal with
    | |- context [evaluate_each ?ev ?reg ?res ?s] =>
        replace (evaluate_each ev reg res s) with
          (@Ok exn _ performance,
           {| self := self st; fs := fs st;
              log := ((log st ++ [(INFO, [Lit "Evaluating classification models..."])])
                      ++ added)%list |}) by (symmetry; exact Hloop)
    end.
    cbn [self fs log]. now rewrite <- app_assoc.
  - rewrite Hkeys; [reflexivity | intros name _ []].
  - intros name model Hreg. destruct (Hin name model Hreg) as [entry [Hget Hentry]].
    exists entry. split; [exact Hget|].
    now apply (@classifier_entry_later _ _ _ [(INFO, [Lit "Evaluating classification models..."])]).
Qed.

(** X20. On a registry of distinct names, as the keys of a dict are,
    [evaluate_classification_models] returns without raising, whatever the
    models and the metrics do.  The report it returns has one entry for each
    registered classifier, in the order of the registry; it replaces the
    report the bank held, and the registries, [is_trained] and the files
    are as before the call. *)
Theorem evaluation_reports_every_classifier (st : State Obj) :
  NoDup (Py.keys (classification_models (self st))) ->
  exists performance st',
    evaluate_classification_models predict has_predict_proba predict_proba accuracy_score
      precision_recall_fscore_support roc_auc_score confusion_matrix classification_report
      as_object X_test y_test st = (Ok performance, st')
    /\ Py.keys performance = Py.keys (classification_models (self st))
    /\ model_performance (self st') = as_object performance
    /\ classification_models (self st') = classification_models (self st)
    /\ anomaly_models (self st') = anomaly_models (self st)
    /\ is_trained (self st') = is_trained (self st)
    /\ fs st' = fs st.
Proof.
  intros Hnd.
  destruct (evaluate_classification_models_run st Hnd) as [performance [added [Hrun [Hkeys _]]]].
  exists performance. eexists. split; [exact Hrun|]. split; [exact Hkeys|].
  repeat split.
Qed.

(** X21. The entry of a classifier in the report of
    [evaluate_classification_models].  When [predict] raises, the entry is
    the error message and the failure is logged.  When the predictions and
    the other metrics are computed, a [roc_auc_score] that raises is
    swallowed: the entry holds the metrics with [auc] None, as it does for a
    model without [predict_proba]. *)
Theorem failed_auc_is_swallowed (st : State Obj) name model :
  NoDup (Py.keys (classification_models (self st))) ->
  In (name, model) (classification_models (self st)) ->
  exists performance st',
    evaluate_classification_models predict has_predict_proba predict_proba accuracy_score
      precision_recall_fscore_support roc_auc_score confusion_matrix classification_report
      as_object X_test y_test st = (Ok performance, st')
    /\ (forall e,
           predict model X_test = Raise e ->
           Py.get performance name = Some (EvaluationError ndarray Obj (str_exn e))
           /\ In (evaluation_failure name e) (log st'))
    /\ (forall y_pred accuracy p r f confusion report,
           predict model X_test = Ok y_pred ->
           accuracy_score y_test y_pred = Ok accuracy ->
           precision_recall_fscore_support y_test y_pred = Ok (p, r, f) ->
           confusion_matrix y_test y_pred = Ok confusion ->
           classification_report y_test y_pred = Ok report ->
           (has_predict_proba model = false ->
            Py.get performance name = Some (Metrics accuracy p r f None confusion report))
           /\ (forall proba e,
                  has_predict_proba model = true ->
                  predict_proba model X_test = Ok proba ->
                  roc_auc_score y_test proba = Raise e ->
                  Py.get performance name
                  = Some (Metrics accuracy p r f None confusion report))
           /\ (forall proba auc,
                  has_predict_proba model = true ->
                  predict_proba model X_test = Ok proba ->
                  roc_auc_score y_test proba = Ok auc ->
                  Py.get performance name
                  = Some (Metrics accuracy p r f (Some auc) confusion report))).
Proof.
  intros Hnd Hreg.
  destruct (evaluate_classification_models_run st Hnd) as [performance [added [Hrun [_ Hin]]]].
  destruct (Hin name model Hreg) as [entry [Hget [Hfail Hok]]]. cbn [fst snd] in *.
  exists performance. eexists. split; [exact Hrun|]. split.
  - intros e He. destruct (Hfail e He) as [-> Hlog]. split; [exact Hget|].
    cbn [log]. apply in_or_app. now right.
  - intros y_pred accuracy p r f confusion report Hy Ha Hp Hc Hr.
    destruct (Hok y_pred accuracy p r f confusion report Hy Ha Hp Hc Hr) as [Hnone Hsome].
    split; [|split].
    + intros Hh. now rewrite Hget, (Hnone Hh).
    + intros proba e Hh Hpp Hroc. rewrite Hget, (Hsome proba Hh Hpp). now rewrite Hroc.
    + intros proba auc Hh Hpp Hroc. rewrite Hget, (Hsome proba Hh Hpp). now rewrite Hroc.
Qed.

(** *** Detectors *)

Let detector_entry (item : string * Obj) (entry : anomaly_entry ndarray)
    (added : list log_record) : Prop :=
  (forall e, predict (snd item) X_test = Raise e ->
             entry = DetectionError ndarray (str_exn e)
             /\ In (evaluation_failure (fst item) e) added)
  /\ (forall anomaly_pred,
         predict (snd item) X_test = Ok anomaly_pred ->
         (has_decision_function (snd item) = false ->
          entry = Detection anomaly_pred None (anomaly_ratio anomaly_pred)
                    (num_anomalies anomaly_pred))
         /\ (forall scores,
                has_decision_function (snd item) = true ->
                decision_function (snd item) X_test = Ok scores ->
                entry = Detection anomaly_pred (Some scores) (anomaly_ratio anomaly_pred)
                          (num_anomalies anomaly_pred))
         /\ (forall e,
                has_decision_function (snd item) = true ->
                decision_function (snd item) X_test = Raise e ->
                entry = DetectionError ndarray (str_exn e)
                /\ In (evaluation_failure (fst item) e) added)).

Lemma evaluate_detector_round item (st : State Obj) :
  exists entry added,
    evaluate_detector predict has_decision_function decision_function anomaly_ratio
      num_anomalies X_test item st
    = (Ok entry, {| self := self st; fs := fs st; log := (log st ++ added)%list |})
    /\ detector_entry item entry added.
Proof.
  destruct item as [name model]. unfold detector_entry, evaluate_detector.
  cbn [fst snd]. run.
  destruct (predict model X_test) as [anomaly_pred|e1] eqn:Ep; simpl; [|leaf].
  destruct (has_decision_function model) eqn:Eh; simpl;
    [destruct (decision_function model X_test) as [scores|e2] eqn:Ed; simpl|];
    do 2 eexists; (split; [rewrite <- ?app_assoc; reflexivity|]);
    (split; [intros; settle|]);
    intros pred Hp; settle; (split; [intros; settle; try reflexivity|]);
    (split; [intros; settle; try reflexivity|]);
    intros; settle; try (split; [reflexivity | right; now left]).
Qed.

Lemma detector_entry_grows item entry added more :
  detector_entry item entry added -> detector_entry item entry (added ++ more)%list.
Proof.
  intros [H1 H2]. split.
  - intros e He. destruct (H1 e He) as [Hen Hin]. split; [exact Hen|].
    apply in_or_app. now left.
  - intros pred Hp. destruct (H2 pred Hp) as [Ha [Hb Hc]].
    split; [exact Ha|]. split; [exact Hb|].
    intros e Hh Hd. destruct (Hc e Hh Hd) as [Hen Hin]. split; [exact Hen|].
    apply in_or_app. now left.
Qed.

Lemma detector_entry_later item entry added before :
  detector_entry item entry added -> detector_entry item entry (before ++ added)%list.
Proof.
  intros [H1 H2]. split.
  - intros e He. destruct (H1 e He) as [Hen Hin]. split; [exact Hen|].
    apply in_or_app. now right.
  - intros pred Hp. destruct (H2 pred Hp) as [Ha [Hb Hc]].
    split; [exact Ha|]. split; [exact Hb|].
    intros e Hh Hd. destruct (Hc e Hh Hd) as [Hen Hin]. split; [exact Hen|].
    apply in_or_app. now right.
Qed.

(** X22. On a registry of distinct names, as the keys of a dict are,
    [evaluate_anomaly_models] returns without raising and changes neither
    the bank (it does not store its results) nor the files.  The
    dict it returns has one entry for each registered detector, in the
    order of the registry: the error message when [predict] or
    [decision_function] raised, which is then logged, and otherwise the
    predictions with their anomaly count and ratio, the scores being None
    for a detector without [decision_function]. *)
Theorem detector_evaluation_reads_only (st : State Obj) :
  NoDup (Py.keys (anomaly_models (self st))) ->
  exists results st',
    evaluate_anomaly_models predict has_decision_function decision_function anomaly_ratio
      num_anomalies X_test st = (Ok results, st')
    /\ Py.keys results = Py.keys (anomaly_models (self st))
    /\ self st' = self st
    /\ fs st' = fs st
    /\ (forall name model,
           In (name, model) (anomaly_models (self st)) ->
           (forall e,
               predict model X_test = Raise e ->
               Py.get results name = Some (DetectionError ndarray (str_exn e))
               /\ In (evaluation_failure name e) (log st'))
           /\ (forall anomaly_pred,
                  predict model X_test = Ok anomaly_pred ->
                  (has_decision_function model = false ->
                   Py.get results name
                   = Some (Detection anomaly_pred None (anomaly_ratio anomaly_pred)
                             (num_anomalies anomaly_pred)))
                  /\ (forall scores,
                         has_decision_function model = true ->
                         decision_function model X_test = Ok scores ->
                         Py.get results name
                         = Some (Detection anomaly_pred (Some scores)
                                   (anomaly_ratio anomaly_pred)
                                   (num_anomalies anomaly_pred)))
                  /\ (forall e,
                         has_decision_function model = true ->
                         decision_function model X_test = Raise e ->
                         Py.get results name = Some (DetectionError ndarray (str_exn e))
                         /\ In (evaluation_failure name e) (log st')))).
Proof.
  intros Hnd.
  destruct (@evaluations Obj _
              (evaluate_detector predict has_decision_function decision_function
                 anomaly_ratio num_anomalies X_test)
              detector_entry detector_entry_grows detector_entry_later
              evaluate_detector_round
              (anomaly_models (self st)) []
              {| self := self st; fs := fs st;
                 log := (log st ++ [(INFO, [Lit "Evaluating anomaly detection models..."])])%list |}
              Hnd)
    as [results [added [Hloop [Hin [_ Hkeys]]]]].
  exists results. eexists. split.
  { cbv beta iota delta [evaluate_anomaly_models Py.bind logger Py.modify
                            Py.items get_self Py.ret].
    cbn [self fs log] in *. exact Hloop. }
  split; [rewrite Hkeys; [reflexivity | intros name _ []]|].
  split; [reflexivity|]. split; [reflexivity|].
  intros name model Hreg. destruct (Hin name model Hreg) as [entry [Hget [Hfail Hok]]].
  cbn [fst snd log] in *. split.
  - intros e He. destruct (Hfail e He) as [-> Hlog]. split; [exact Hget|].
    apply in_or_app. now right.
  - intros pred Hp. destruct (Hok pred Hp) as [Ha [Hb Hc]].
    split; [|split].
    + intros Hh. now rewrite Hget, (Ha Hh).
    + intros scores Hh Hd. now rewrite Hget, (Hb scores Hh Hd).
    + intros e Hh Hd. destruct (Hc e Hh Hd) as [-> Hlog]. split; [exact Hget|].
      apply in_or_app. now right.
Qed.

End Evaluation.

(** *** Tuning *)

Section Tuning.

Variables ndarray Obj : Type.
Variable grid_search_fit :
  Estimator -> list (string * list pval) -> ndarray -> ndarray
  -> result exn (list (string * pval) * ndarray * Obj).
Variables X_train y_train : ndarray.

(** X23. For random_forest and logistic_regression,
    [hyperparameter_tuning] returns without raising, whatever the grid
    search does.  When the search returns, the best estimator is registered
    under the name followed by _tuned and the result holds the best
    parameters, score and model; when it raises, the result is the empty
    dict, the bank is unchanged and the failure is logged.  Either way the
    model registered under the untuned name, the other attributes and the
    files are as before. *)
Theorem tuned_model_is_registered_beside_the_original
  (st : State Obj) (model_name : string) (base : Estimator)
  (grid : list (string * list pval)) :
  (model_name = "random_forest"
   /\ base = RandomForestClassifier [("random_state", PInt 42); ("n_jobs", PInt (-1))]
   /\ grid = rf_grid)
  \/ (model_name = "logistic_regression"
      /\ base = LogisticRegression [("max_iter", PInt 1000); ("random_state", PInt 42)]
      /\ grid = lr_grid) ->
  exists result st',
    hyperparameter_tuning grid_search_fit X_train y_train model_name st = (Ok result, st')
    /\ fs st' = fs st
    /\ anomaly_models (self st') = anomaly_models (self st)
    /\ model_performance (self st') = model_performance (self st)
    /\ is_trained (self st') = is_trained (self st)
    /\ Py.get (classification_models (self st')) model_name
       = Py.get (classification_models (self st)) model_name
    /\ (forall best_params best_score best_estimator,
           grid_search_fit base grid X_train y_train
           = Ok (best_params, best_score, best_estimator) ->
           result = [ ("best_params", BestParams ndarray Obj best_params);
                      ("best_score", BestScore Obj best_score);
                      ("best_model", BestModel ndarray best_estimator) ]
           /\ classification_models (self st')
              = Py.set (classification_models (self st)) (model_name ++ "_tuned")
                  best_estimator)
    /\ (forall e,
           grid_search_fit base grid X_train y_train = Raise e ->
           result = []
           /\ self st' = self st
           /\ In (ERROR, [Lit "Hyperparameter tuning failed for "; Interp model_name;
                          Lit ": "; Nested (str_exn e)]) (log st')).
Proof.
  intros [[-> [-> ->]]|[-> [-> ->]]]; unfold hyperparameter_tuning, tune_with;
    cbn [String.eqb Ascii.eqb Bool.eqb]; cbv iota;
    match goal with
    | |- context [grid_search_fit ?b ?g X_train y_train] =>
        generalize (grid_search_fit b g X_train y_train)
    end; intros outcome; run;
    destruct outcome as [[[best_params best_score] best_estimator]|e]; simpl;
    do 2 eexists; (split; [reflexivity|]); simpl;
    repeat split; try discriminate; try reflexivity;
    try (apply get_set_other; discriminate);
    try match goal with
        | H : Ok _ = Ok _ |- _ => inversion H; subst; reflexivity
        | H : Raise _ = Raise _ |- _ =>
            inversion H; subst; apply in_or_app; right; now left
        end.
Qed.

End Tuning.

(** *** Scoring *)

Section Scoring.

Variables ndarray Obj : Type.
Variable predict : Obj -> ndarray -> result exn ndarray.
Variable has_predict_proba : Obj -> bool.
Variable predict_proba : Obj -> ndarray -> result exn ndarray.
Variable has_decision_function : Obj -> bool.
Variable decision_function : Obj -> ndarray -> result exn ndarray.

(** X24. [predict_log_level] never changes the bank, the files or the
    log, whether it returns or raises.  When it returns, the predictions
    are those of the model registered under the name, and the probabilities
    are those of its [predict_proba], or None exactly when the model has no
    such method.  It catches nothing: what [predict] or [predict_proba]
    raises reaches the caller. *)
Theorem scoring_leaves_the_bank_alone
  (st : State Obj) (features : ndarray) (model_name : string) :
  snd (predict_log_level predict has_predict_proba predict_proba features model_name st) = st
  /\ (forall predictions probabilities,
         fst (predict_log_level predict has_predict_proba predict_proba features model_name st)
         = Ok (predictions, probabilities) ->
         exists model,
           Py.get (classification_models (self st)) model_name = Some model
           /\ predict model features = Ok predictions
           /\ (probabilities = None <-> has_predict_proba model = false)
           /\ (forall p, probabilities = Some p -> predict_proba model features = Ok p))
  /\ (forall model e,
         Py.get (classification_models (self st)) model_name = Some model ->
         predict model features = Raise e
         \/ (has_predict_proba model = true /\ is_ok (predict model features) = true
             /\ predict_proba model features = Raise e) ->
         fst (predict_log_level predict has_predict_proba predict_proba features model_name st)
         = Raise e).
Proof.
  unfold predict_log_level. run.
  destruct (Py.get (classification_models (self st)) model_name) as [model|] eqn:Eg; simpl.
  - destruct (predict model features) as [predictions|e1] eqn:Ep; simpl.
    + destruct (has_predict_proba model) eqn:Eh; simpl.
      * destruct (predict_proba model features) as [p|e2] eqn:Epp; simpl.
        -- split; [reflexivity|]. split.
           ++ intros ? ? H. injection H as <- <-. exists model.
              split; [reflexivity|]. split; [assumption|].
              split; [split; congruence|].
              intros q Hq. injection Hq as <-. assumption.
           ++ intros m e Hm [H|[_ [_ H]]]; injection Hm as <-; congruence.
        -- split; [reflexivity|]. split; [discriminate|].
           intros m e Hm [H|[_ [_ H]]]; injection Hm as <-; congruence.
      * split; [reflexivity|]. split.
        -- intros ? ? H. injection H as <- <-. exists model.
           split; [reflexivity|]. split; [assumption|].
           split; [split; congruence|]. discriminate.
        -- intros m e Hm [H|[H _]]; injection Hm as <-; congruence.
    + split; [reflexivity|]. split; [discriminate|].
      intros m e Hm [H|[_ [H _]]]; injection Hm as <-; [congruence|].
      rewrite Ep in H. discriminate.
  - split; [reflexivity|]. split; discriminate.
Qed.

(** X25. [detect_anomalies] never changes the bank, the files or the
    log, whether it returns or raises.  When it returns, the predictions
    are those of the detector registered under the name, and the scores are
    those of its [decision_function], or None exactly when the detector has
    no such method.  It catches nothing: what [predict] or
    [decision_function] raises reaches the caller. *)
Theorem detection_leaves_the_bank_alone
  (st : State Obj) (features : ndarray) (model_name : string) :
  snd (detect_anomalies predict has_decision_function decision_function features
         model_name st) = st
  /\ (forall anomaly_predictions anomaly_scores,
         fst (detect_anomalies predict has_decision_function decision_function features
                model_name st)
         = Ok (anomaly_predictions, anomaly_scores) ->
         exists model,
           Py.get (anomaly_models (self st)) model_name = Some model
           /\ predict model features = Ok anomaly_predictions
           /\ (anomaly_scores = None <-> has_decision_function model = false)
           /\ (forall s, anomaly_scores = Some s -> decision_function model features = Ok s))
  /\ (forall model e,
         Py.get (anomaly_models (self st)) model_name = Some model ->
         predict model features = Raise e
         \/ (has_decision_function model = true /\ is_ok (predict model features) = true
             /\ decision_function model features = Raise e) ->
         fst (detect_anomalies predict has_decision_function decision_function features
                model_name st)
         = Raise e).
Proof.
  unfold detect_anomalies. run.
  destruct (Py.get (anomaly_models (self st)) model_name) as [model|] eqn:Eg; simpl.
  - destruct (predict model features) as [predictions|e1] eqn:Ep; simpl.
    + destruct (has_decision_function model) eqn:Eh; simpl.
      * destruct (decision_function model features) as [p|e2] eqn:Epp; simpl.
        -- split; [reflexivity|]. split.
           ++ intros ? ? H. injection H as <- <-. exists model.
              split; [reflexivity|]. split; [assumption|].
              split; [split; congruence|].
              intros q Hq. injection Hq as <-. assumption.
           ++ intros m e Hm [H|[_ [_ H]]]; injection Hm as <-; congruence.
        -- split; [reflexivity|]. split; [discriminate|].
           intros m e Hm [H|[_ [_ H]]]; injection Hm as <-; congruence.
      * split; [reflexivity|]. split.
        -- intros ? ? H. injection H as <- <-. exists model.
           split; [reflexivity|]. split; [assumption|].
           split; [split; congruence|]. discriminate.
        -- intros m e Hm [H|[H _]]; injection Hm as <-; congruence.
    + split; [reflexivity|]. split; [discriminate|].
      intros m e Hm [H|[_ [H _]]]; injection Hm as <-; [congruence|].
      rewrite Ep in H. discriminate.
  - split; [reflexivity|]. split; discriminate.
Qed.

End Scoring.

(** *** Runs on the example bank *)

(** Both detectors fit; scoring the training data fails for the one-class
    SVM, which stays registered. *)
Lemma detector_training_isolates_failures_witness :
  exists trained st',
    train_anomaly_detection_models BankRun.fit_detector BankRun.has_method
      BankRun.decision_function_but_svm BankRun.X BankRun.fresh = (Ok trained, st')
    /\ Py.get trained "one_class_svm" = Some "OneClassSVM"
    /\ In (detector_failure "one_class_svm" (LibraryError "MemoryError")) (log st').
Proof.
  destruct (@detector_training_isolates_failures _ _ BankRun.fit_detector BankRun.has_method
              BankRun.decision_function_but_svm BankRun.X BankRun.fresh)
    as [trained [st' [Hrun [_ [_ [_ [_ [_ [_ [_ [Hscore _]]]]]]]]]]].
  exists trained, st'. split; [exact Hrun|].
  apply (Hscore "one_class_svm"
           (OneClassSVM [("nu", PFloat "0.1"); ("kernel", PStr "rbf"); ("gamma", PStr "scale")])
           "OneClassSVM" (LibraryError "MemoryError"));
    [right; left; reflexivity | reflexivity | reflexivity | reflexivity].
Defined.

(** Three samples, five folds: the random forest is fitted, registered and
    reported as failed. *)
Lemma failed_cross_validation_keeps_the_model_witness :
  exists trained st',
    train_classification_models BankRun.fit_all BankRun.cross_val_too_few
      BankRun.X BankRun.y BankRun.fresh = (Ok trained, st')
    /\ Py.get trained "random_forest" = Some "RandomForestClassifier"
    /\ In (train_failure "random_forest"
             (ValueError [Lit "Cannot have number of splits n_splits=5 greater than the number of samples: n_samples=3."]))
          (log st').
Proof.
  apply (@failed_cross_validation_keeps_the_model _ _ BankRun.fit_all
           BankRun.cross_val_too_few BankRun.X BankRun.y BankRun.fresh "random_forest"
           (RandomForestClassifier
              [("n_estimators", PInt 200); ("max_depth", PInt 15);
               ("min_samples_split", PInt 5); ("min_samples_leaf", PInt 2);
               ("random_state", PInt 42); ("n_jobs", PInt (-1))]));
    [left; reflexivity | reflexivity | reflexivity].
Defined.

Lemma trained_classifiers_distinct :
  NoDup (Py.keys (classification_models (self BankRun.trained))).
Proof.
  simpl. repeat constructor; simpl; intuition discriminate.
Defined.

Lemma trained_detectors_distinct :
  NoDup (Py.keys (anomaly_models (self BankRun.trained))).
Proof.
  simpl. repeat constructor; simpl; intuition discriminate.
Defined.

(** The report of the example bank has its three classifiers, also when
    [predict] fails for one of them. *)
Lemma evaluation_reports_every_classifier_witness :
  exists performance st',
    evaluate_classification_models BankRun.predict_but_mlp BankRun.has_method
      BankRun.predict BankRun.metric BankRun.precision_recall_fscore_support
      BankRun.roc_auc_undefined BankRun.metric BankRun.classification_report
      BankRun.as_object BankRun.X BankRun.y BankRun.trained = (Ok performance, st')
    /\ Py.keys performance = ["random_forest"; "logistic_regression"; "mlp_classifier"]
    /\ model_performance (self st') = BankRun.as_object performance.
Proof.
  destruct (@evaluation_reports_every_classifier _ _ BankRun.predict_but_mlp
              BankRun.has_method BankRun.predict BankRun.metric
              BankRun.precision_recall_fscore_support BankRun.roc_auc_undefined
              BankRun.metric BankRun.classification_report BankRun.as_object
              BankRun.X BankRun.y BankRun.trained trained_classifiers_distinct)
    as [performance [st' [Hrun [Hkeys [Hperf _]]]]].
  exists performance, st'. split; [exact Hrun|]. split; [exact Hkeys | exact Hperf].
Defined.

(** The area under the curve is undefined on the example labels: the
    random forest is reported with its other metrics. *)
Lemma failed_auc_is_swallowed_witness :
  exists performance st',
    evaluate_classification_models BankRun.predict_but_mlp BankRun.has_method
      BankRun.predict BankRun.metric BankRun.precision_recall_fscore_support
      BankRun.roc_auc_undefined BankRun.metric BankRun.classification_report
      BankRun.as_object BankRun.X BankRun.y BankRun.trained = (Ok performance, st')
    /\ Py.get performance "random_forest"
       = Some (Metrics [1]%Z [1]%Z [1]%Z [1]%Z None [1]%Z "{'accuracy': 1.0}").
Proof.
  destruct (@failed_auc_is_swallowed _ _ BankRun.predict_but_mlp
              BankRun.has_method BankRun.predict BankRun.metric
              BankRun.precision_recall_fscore_support BankRun.roc_auc_undefined
              BankRun.metric BankRun.classification_report BankRun.as_object
              BankRun.X BankRun.y BankRun.trained "random_forest" "RandomForestClassifier"
              trained_classifiers_distinct (or_introl eq_refl))
    as [performance [st' [Hrun [_ Hok]]]].
  exists performance, st'. split; [exact Hrun|].
  destruct (Hok [0; 0; 0]%Z [1]%Z [1]%Z [1]%Z [1]%Z [1]%Z "{'accuracy': 1.0}"
              eq_refl eq_refl eq_refl eq_refl eq_refl) as [_ [Hswallowed _]].
  exact (Hswallowed [0; 0; 0]%Z
           (ValueError [Lit "Only one class present in y_true. ROC AUC score is not defined in that case."])
           eq_refl eq_refl eq_refl).
Defined.

(** The two detectors of the example bank: scoring fails for the one-class
    SVM. *)
Lemma detector_evaluation_reads_only_witness :
  exists results st',
    evaluate_anomaly_models BankRun.predict BankRun.has_method
      BankRun.decision_function_but_svm BankRun.count BankRun.count BankRun.X
      BankRun.trained = (Ok results, st')
    /\ Py.keys results = ["isolation_forest"; "one_class_svm"]
    /\ self st' = self BankRun.trained
    /\ Py.get results "isolation_forest"
       = Some (Detection [0; 0; 0]%Z (Some [1; 1; 1]%Z) [3]%Z [3]%Z)
    /\ Py.get results "one_class_svm" = Some (DetectionError BankRun.ndarray [Interp "MemoryError"]).
Proof.
  destruct (@detector_evaluation_reads_only _ _ BankRun.predict BankRun.has_method
              BankRun.decision_function_but_svm BankRun.count BankRun.count BankRun.X
              BankRun.trained trained_detectors_distinct)
    as [results [st' [Hrun [Hkeys [Hself [_ Hentries]]]]]].
  exists results, st'. split; [exact Hrun|]. split; [exact Hkeys|]. split; [exact Hself|].
  split.
  - destruct (Hentries "isolation_forest" "IsolationForest" (or_introl eq_refl))
      as [_ Hok].
    destruct (Hok [0; 0; 0]%Z eq_refl) as [_ [Hscores _]].
    exact (Hscores [1; 1; 1]%Z eq_refl eq_refl).
  - destruct (Hentries "one_class_svm" "OneClassSVM" (or_intror (or_introl eq_refl)))
      as [_ Hok].
    destruct (Hok [0; 0; 0]%Z eq_refl) as [_ [_ Hfail]].
    exact (proj1 (Hfail (LibraryError "MemoryError") eq_refl eq_refl)).
Defined.

(** Tuning the random forest of the example bank, with a grid search that
    runs out of memory. *)
Lemma tuned_model_is_registered_beside_the_original_witness :
  exists result st',
    hyperparameter_tuning BankRun.grid_search_fails BankRun.X BankRun.y "random_forest"
      BankRun.trained = (Ok result, st')
    /\ result = []
    /\ self st' = self BankRun.trained.
Proof.
  destruct (@tuned_model_is_registered_beside_the_original _ _ BankRun.grid_search_fails
              BankRun.X BankRun.y BankRun.trained "random_forest"
              (RandomForestClassifier [("random_state", PInt 42); ("n_jobs", PInt (-1))])
              rf_grid (or_introl (conj eq_refl (conj eq_refl eq_refl))))
    as [result [st' [Hrun [_ [_ [_ [_ [_ [_ Hfail]]]]]]]]].
  exists result, st'. split; [exact Hrun|].
  destruct (Hfail (LibraryError "MemoryError") eq_refl) as [Hres [Hself _]].
  split; [exact Hres | exact Hself].
Defined.

(** Scoring with the random forest of the example bank. *)
Lemma scoring_leaves_the_bank_alone_witness :
  snd (predict_log_level BankRun.predict BankRun.has_method BankRun.predict BankRun.X
         "random_forest" BankRun.trained) = BankRun.trained.
Proof.
  exact (proj1 (@scoring_leaves_the_bank_alone _ _ BankRun.predict BankRun.has_method
                  BankRun.predict BankRun.trained BankRun.X "random_forest")).
Defined.

(** The one-class SVM of the example bank cannot score: the error reaches
    the caller. *)
Lemma detection_leaves_the_bank_alone_witness :
  fst (detect_anomalies BankRun.predict BankRun.has_method
         BankRun.decision_function_but_svm BankRun.X "one_class_svm" BankRun.trained)
  = Raise (LibraryError "MemoryError").
Proof.
  destruct (@detection_leaves_the_bank_alone _ _ BankRun.predict BankRun.has_method
              BankRun.decision_function_but_svm BankRun.trained BankRun.X "one_class_svm")
    as [_ [_ Hraise]].
  apply (Hraise "OneClassSVM"); [reflexivity|].
  right. split; [reflexivity|]. split; reflexivity.
Defined.

End BankRounds.

(* ================================================================== *)
(** ** The artifact store when saving or loading fails *)

Module StoreRounds.

Import ModelBank.
Import PyFacts.
Open Scope string_scope.

Section Saving.

Variable Obj : Type.

(** What every step of [save_models] keeps: the bank, the log, the
    permissions, the files that exist and the content of the files that
    cannot be written. *)
Let saving (st st' : State Obj) : Prop :=
  self st' = self st
  /\ log st' = log st
  /\ denied (fs st') = denied (fs st)
  /\ (forall p, In p (Py.keys (files (fs st))) -> In p (Py.keys (files (fs st'))))
  /\ (forall p, denied (fs st) p = true ->
                Py.get (files (fs st')) p = Py.get (files (fs st)) p).

Lemma saving_refl st : saving st st.
Proof. unfold saving. auto. Qed.

Lemma saving_trans st1 st2 st3 : saving st1 st2 -> saving st2 st3 -> saving st1 st3.
Proof.
  intros [A1 [B1 [C1 [D1 E1]]]] [A2 [B2 [C2 [D2 E2]]]].
  split; [congruence|]. split; [congruence|]. split; [congruence|].
  split; [auto|].
  intros p Hp. rewrite E2; [auto | now rewrite C1].
Qed.

Lemma write_file_saving path content (st : State Obj) :
  exists r st', write_file path content st = (r, st') /\ saving st st'.
Proof.
  unfold write_file. destruct (denied (fs st) path) eqn:Ed.
  - do 2 eexists. split; [reflexivity | apply saving_refl].
  - do 2 eexists. split; [reflexivity|]. unfold saving. simpl.
    split; [reflexivity|]. split; [reflexivity|]. split; [reflexivity|]. split.
    + intros p Hp. apply in_keys_set. now right.
    + intros p Hp. apply get_set_other. intros ->. congruence.
Qed.

Lemma dump_saving path (registry : dict Obj) : forall st : State Obj,
  exists r st',
    Py.for_each (Py.items registry)
      (fun item => write_file (path (fst item)) (Pickle (snd item))) st = (r, st')
    /\ saving st st'.
Proof.
  unfold Py.items.
  induction registry as [|[n m] registry IH]; intros st.
  - do 2 eexists. split; [reflexivity | apply saving_refl].
  - rewrite for_each_cons.
    destruct (write_file_saving (path n) (Pickle m) st) as [r1 [st1 [Hw Hs1]]].
    cbn [fst snd]. rewrite Hw. destruct r1 as [u|e].
    + destruct (IH st1) as [r [st' [Hloop Hs]]].
      exists r, st'. split; [exact Hloop | eapply saving_trans; eauto].
    + do 2 eexists. split; [reflexivity | exact Hs1].
Qed.

(** The loop of dumps, when the paths of the registry can be opened. *)
Lemma dump_loop_open path (registry : dict Obj) : forall st : State Obj,
  (forall n, In n (Py.keys registry) -> denied (fs st) (path n) = false) ->
  Py.for_each (Py.items registry)
    (fun item => write_file (path (fst item)) (Pickle (snd item))) st
  = (Ok tt,
     {| self := self st;
        fs := {| files := written path registry (files (fs st));
                 denied := denied (fs st) |};
        log := log st |}).
Proof.
  unfold Py.items.
  induction registry as [|[n m] registry IH]; intros st Hw.
  - simpl. unfold Py.ret. destruct st as [b [f d] l]. reflexivity.
  - rewrite for_each_cons. unfold write_file at 1. cbn [fst snd].
    rewrite (Hw n) by now left.
    rewrite IH; [reflexivity|].
    intros n' Hn'. cbn [fs denied]. apply Hw. now right.
Qed.

(** X26. [save_models] returns without raising, whatever can or cannot
    be written, and never changes the bank.  It logs one record: the
    success, or the failure with the error it met.  No file that existed
    disappears, and a file that cannot be written keeps its content. *)
Theorem saving_never_raises_nor_changes_the_bank prefix (st : State Obj) :
  exists st',
    save_models prefix st = (Ok tt, st')
    /\ self st' = self st
    /\ denied (fs st') = denied (fs st)
    /\ (forall p, In p (Py.keys (files (fs st))) -> In p (Py.keys (files (fs st'))))
    /\ (forall p, denied (fs st) p = true ->
                  Py.get (files (fs st')) p = Py.get (files (fs st)) p)
    /\ (log st' = (log st ++ [(INFO, [Lit "All models saved successfully"])])%list
        \/ exists e,
             log st'
             = (log st ++ [(ERROR, [Lit "Failed to save models: "; Nested (str_exn e)])])%list).
Proof.
  assert (Hlogged : forall (s : State Obj) lv msg,
             saving st s ->
             exists st',
               logger lv msg s = (Ok tt, st')
               /\ self st' = self st
               /\ denied (fs st') = denied (fs st)
               /\ (forall p, In p (Py.keys (files (fs st)))
                             -> In p (Py.keys (files (fs st'))))
               /\ (forall p, denied (fs st) p = true ->
                             Py.get (files (fs st')) p = Py.get (files (fs st)) p)
               /\ log st' = (log st ++ [(lv, msg)])%list).
  { intros s lv msg [A [B [C [D E]]]]. eexists.
    split; [reflexivity|]. simpl. rewrite B. auto. }
  unfold save_models, Py.try_except, Py.bind at 1, get_self.
  unfold Py.bind at 1.
  destruct (dump_saving (classification_path prefix) (classification_models (self st)) st)
    as [r1 [st1 [H1 S1]]].
  rewrite H1. destruct r1 as [u1|e1].
  2:{ destruct (Hlogged st1 ERROR [Lit "Failed to save models: "; Nested (str_exn e1)] S1)
        as [st' [Hl [A [C [D [E L]]]]]].
      exists st'. split; [exact Hl|]. repeat (split; [assumption|]). right. now exists e1. }
  unfold Py.bind at 1.
  destruct (dump_saving (anomaly_path prefix) (anomaly_models (self st)) st1)
    as [r2 [st2 [H2 S2]]].
  rewrite H2. assert (S12 := saving_trans S1 S2). destruct r2 as [u2|e2].
  2:{ destruct (Hlogged st2 ERROR [Lit "Failed to save models: "; Nested (str_exn e2)] S12)
        as [st' [Hl [A [C [D [E L]]]]]].
      exists st'. split; [exact Hl|]. repeat (split; [assumption|]). right. now exists e2. }
  unfold Py.bind at 1.
  destruct (write_file_saving (performance_path prefix) (Pickle (model_performance (self st)))
              st2) as [r3 [st3 [H3 S3]]].
  rewrite H3. assert (S13 := saving_trans S12 S3). destruct r3 as [u3|e3].
  2:{ destruct (Hlogged st3 ERROR [Lit "Failed to save models: "; Nested (str_exn e3)] S13)
        as [st' [Hl [A [C [D [E L]]]]]].
      exists st'. split; [exact Hl|]. repeat (split; [assumption|]). right. now exists e3. }
  destruct (Hlogged st3 INFO [Lit "All models saved successfully"] S13)
    as [st' [Hl [A [C [D [E L]]]]]].
  exists st'. rewrite Hl. split; [reflexivity|]. repeat (split; [assumption|]). now left.
Qed.

(** X27. Saving is not atomic.  When every model file can be written
    and the performance file cannot, [save_models] returns after logging
    the failure, and the model files it wrote before stay: every registered
    classifier and detector has its file, while the performance file is as
    it was before the call. *)
Theorem failed_save_leaves_the_model_files prefix (st : State Obj) :
  (forall n, In n (Py.keys (classification_models (self st))) ->
             denied (fs st) (classification_path prefix n) = false) ->
  (forall n, In n (Py.keys (anomaly_models (self st))) ->
             denied (fs st) (anomaly_path prefix n) = false) ->
  denied (fs st) (performance_path prefix) = true ->
  exists st',
    save_models prefix st = (Ok tt, st')
    /\ log st'
       = (log st ++ [(ERROR, [Lit "Failed to save models: ";
                              Nested (str_exn (OSError (performance_path prefix)))])])%list
    /\ (forall n, In n (Py.keys (classification_models (self st))) ->
                  In (classification_path prefix n) (Py.keys (files (fs st'))))
    /\ (forall n, In n (Py.keys (anomaly_models (self st))) ->
                  In (anomaly_path prefix n) (Py.keys (files (fs st'))))
    /\ Py.get (files (fs st')) (performance_path prefix)
       = Py.get (files (fs st)) (performance_path prefix).
Proof.
  intros Hc Ha Hp.
  unfold save_models, Py.try_except, Py.bind at 1, get_self.
  unfold Py.bind at 1. rewrite dump_loop_open by exact Hc.
  unfold Py.bind at 1. rewrite dump_loop_open by exact Ha.
  unfold Py.bind at 1, write_file. cbn [fs denied self]. rewrite Hp.
  eexists. split; [reflexivity|]. cbn [log fs files].
  split; [reflexivity|]. split; [|split].
  - intros n Hn. apply StoreSpec.in_keys_written. left.
    apply StoreSpec.in_keys_written. right. now exists n.
  - intros n Hn. apply StoreSpec.in_keys_written. right. now exists n.
  - rewrite !StoreSpec.get_written_other; [reflexivity| |].
    + intros n _ E. symmetry in E.
      now apply (proj1 (StoreSpec.performance_is_no_model prefix n)).
    + intros n _ E. symmetry in E.
      now apply (proj2 (StoreSpec.performance_is_no_model prefix n)).
Qed.

End Saving.

Section Loading.

Variable Obj : Type.
Variable scandir : list string -> list string.
Variable class_match : string -> ascii -> bool.

Section Loop.

Variable sep : string.
Variable R : Type.
Variable reg : Bank Obj -> dict Obj.
Variable rest : Bank Obj -> R.
Variable register : string -> Obj -> meth Obj unit.

Hypothesis register_spec : forall n m (st : State Obj),
  exists st',
    register n m st = (Ok tt, st')
    /\ fs st' = fs st /\ log st' = log st
    /\ reg (self st') = Py.set (reg (self st)) n m
    /\ rest (self st') = rest (self st).

(** The loading loop, whatever the listed files hold. *)
Lemma load_frame listed : forall st : State Obj,
  exists r st',
    Py.for_each listed (load_one sep register) st = (r, st')
    /\ fs st' = fs st /\ log st' = log st
    /\ rest (self st') = rest (self st)
    /\ (forall x, In x (Py.keys (reg (self st))) -> In x (Py.keys (reg (self st'))))
    /\ (listed = [] -> r = Ok tt /\ st' = st).
Proof.
  induction listed as [|p listed IH]; intros st.
  - exists (Ok tt), st. simpl. unfold Py.ret. repeat split; auto.
  - rewrite for_each_cons. unfold load_one at 1, Py.bind, call.
    destruct (name_of_path sep p) as [n|e] eqn:En.
    2:{ do 2 eexists. split; [reflexivity|]. repeat split; auto; discriminate. }
    unfold read_pickle.
    destruct (Py.get (files (fs st)) p) as [[m|]|] eqn:Ef.
    2,3: do 2 eexists; (split; [reflexivity|]); repeat split; auto; discriminate.
    destruct (register_spec n m st) as [st1 [Hreg [Hfs1 [Hlog1 [Hreg1 Hrest1]]]]].
    rewrite Hreg.
    destruct (IH st1) as [r [st' [Hloop [Hfs [Hlog [Hrest [Hkeys _]]]]]]].
    exists r, st'. split; [exact Hloop|].
    split; [congruence|]. split; [congruence|]. split; [congruence|]. split.
    + intros x Hx. apply Hkeys. rewrite Hreg1. apply in_keys_set. now right.
    + discriminate.
Qed.

End Loop.

(** X28. [load_models] returns without raising, whatever the files
    hold, and never changes a file.  Either it logs the success and the
    bank is marked as trained, after a warning when the performance file is
    missing, in which case the report is as before; or it logs the failure
    with the error it met, and [is_trained] and the report are as before.
    In both cases every name that was registered before the call still
    is. *)
Theorem loading_never_raises_nor_changes_a_file prefix (st : State Obj) :
  exists st',
    load_models scandir class_match prefix st = (Ok tt, st')
    /\ fs st' = fs st
    /\ (forall x, In x (Py.keys (classification_models (self st))) ->
                  In x (Py.keys (classification_models (self st'))))
    /\ (forall x, In x (Py.keys (anomaly_models (self st))) ->
                  In x (Py.keys (anomaly_models (self st'))))
    /\ ((is_trained (self st') = true
         /\ (log st' = (log st ++ [(INFO, [Lit "All models loaded successfully"])])%list
             \/ (log st'
                 = (log st ++ [(WARNING, [Lit "Performance metrics file not found"]);
                               (INFO, [Lit "All models loaded successfully"])])%list
                 /\ model_performance (self st') = model_performance (self st))))
        \/ (is_trained (self st') = is_trained (self st)
            /\ model_performance (self st') = model_performance (self st)
            /\ exists e,
                 log st'
                 = (log st
                    ++ [(ERROR, [Lit "Failed to load models: "; Nested (str_exn e)])])%list)).
Proof.
  unfold load_models, Py.try_except at 1, Py.bind at 1, glob_files.
  unfold Py.bind at 1.
  destruct (@load_frame "_classification_" _ (@classification_models Obj)
              (fun b => (anomaly_models b, model_performance b, is_trained b))
              (@set_classification_model Obj) (@StoreSpec.register_classification Obj)
              (PyStr.glob class_match (prefix ++ "_classification_*.pkl")
                 (scandir (Py.keys (files (fs st))))) st)
    as [r1 [st1 [H1 [F1 [L1 [R1 [K1 _]]]]]]].
  rewrite H1. injection R1 as A1 P1 T1. destruct r1 as [u1|e1].
  2:{ eexists. split; [reflexivity|]. simpl. split; [exact F1|]. split; [exact K1|].
      split; [now rewrite A1|]. right. rewrite T1, P1, L1. eauto. }
  unfold Py.bind at 1. unfold Py.bind at 1.
  destruct (@load_frame "_anomaly_" _ (@anomaly_models Obj)
              (fun b => (classification_models b, model_performance b, is_trained b))
              (@set_anomaly_model Obj) (@StoreSpec.register_anomaly Obj)
              (PyStr.glob class_match (prefix ++ "_anomaly_*.pkl")
                 (scandir (Py.keys (files (fs st1))))) st1)
    as [r2 [st2 [H2 [F2 [L2 [R2 [K2 _]]]]]]].
  rewrite H2. injection R2 as C2 P2 T2. destruct r2 as [u2|e2].
  2:{ eexists. split; [reflexivity|]. simpl. split; [congruence|].
      split; [intros x Hx; rewrite C2; now apply K1|].
      split; [intros x Hx; apply K2; now rewrite A1|].
      right. rewrite T2, T1, P2, P1, L2, L1. eauto. }
  unfold Py.bind at 1, Py.try_except at 1, Py.bind at 1, read_pickle.
  assert (Hc : forall x, In x (Py.keys (classification_models (self st))) ->
                         In x (Py.keys (classification_models (self st2))))
    by (intros x Hx; rewrite C2; now apply K1).
  assert (Ha : forall x, In x (Py.keys (anomaly_models (self st))) ->
                         In x (Py.keys (anomaly_models (self st2))))
    by (intros x Hx; apply K2; now rewrite A1).
  assert (Hf : fs st2 = fs st) by congruence.
  assert (Hl : log st2 = log st) by congruence.
  assert (Hp : model_performance (self st2) = model_performance (self st)) by congruence.
  assert (Ht : is_trained (self st2) = is_trained (self st)) by congruence.
  destruct (Py.get (files (fs st2)) (performance_path prefix)) as [[perf|]|] eqn:Ef.
  - eexists. split; [reflexivity|]. simpl. split; [exact Hf|].
    split; [exact Hc|]. split; [exact Ha|]. left. split; [reflexivity|]. left.
    now rewrite Hl.
  - eexists. split; [reflexivity|]. simpl. split; [exact Hf|].
    split; [exact Hc|]. split; [exact Ha|]. right. rewrite Ht, Hp, Hl.
    split; [reflexivity|]. split; [reflexivity|].
    now exists (UnpicklingError (performance_path prefix)).
  - eexists. split; [reflexivity|]. simpl. split; [exact Hf|].
    split; [exact Hc|]. split; [exact Ha|]. left. split; [reflexivity|]. right.
    rewrite Hl, <- app_assoc. split; [reflexivity | exact Hp].
Qed.

Hypothesis scandir_lists_all : forall l, Permutation (scandir l) l.



End Loading.

(** *** Runs on the example bank *)

(** Saving the example bank into a directory where nothing can be
    written. *)
Lemma saving_never_raises_nor_changes_the_bank_witness :
  exists st',
    save_models "enhanced_models" BankRun.read_only = (Ok tt, st')
    /\ self st' = self BankRun.read_only.
Proof.
  destruct (@saving_never_raises_nor_changes_the_bank _ "enhanced_models" BankRun.read_only)
    as [st' [Hrun [Hself _]]].
  exists st'. split; [exact Hrun | exact Hself].
Defined.

(** The example bank, in a directory where only the performance file
    cannot be written: the five model files are there afterwards. *)
Lemma failed_save_leaves_the_model_files_witness :
  exists st',
    save_models "enhanced_models" BankRun.report_locked = (Ok tt, st')
    /\ log st'
       = [(ERROR, [Lit "Failed to save models: ";
                   Nested (str_exn (OSError (performance_path "enhanced_models")))])]
    /\ In "enhanced_models_classification_random_forest.pkl" (Py.keys (files (fs st')))
    /\ In "enhanced_models_classification_logistic_regression.pkl" (Py.keys (files (fs st')))
    /\ In "enhanced_models_classification_mlp_classifier.pkl" (Py.keys (files (fs st')))
    /\ In "enhanced_models_anomaly_isolation_forest.pkl" (Py.keys (files (fs st')))
    /\ In "enhanced_models_anomaly_one_class_svm.pkl" (Py.keys (files (fs st')))
    /\ Py.get (files (fs st')) "enhanced_models_performance.pkl" = None.
Proof.
  destruct (@failed_save_leaves_the_model_files _ "enhanced_models" BankRun.report_locked)
    as [st' [Hrun [Hlog [Hc [Ha Hp]]]]].
  - intros n [<-|[<-|[<-|[]]]]; reflexivity.
  - intros n [<-|[<-|[]]]; reflexivity.
  - reflexivity.
  - exists st'. split; [exact Hrun|]. split; [exact Hlog|].
    split; [apply (Hc "random_forest"); simpl; tauto|].
    split; [apply (Hc "logistic_regression"); simpl; tauto|].
    split; [apply (Hc "mlp_classifier"); simpl; tauto|].
    split; [apply (Ha "isolation_forest"); simpl; tauto|].
    split; [apply (Ha "one_class_svm"); simpl; tauto|].
    exact Hp.
Defined.

(** Loading next to a file that is no pickle of a model name. *)
Lemma loading_never_raises_nor_changes_a_file_witness :
  exists st',
    load_models BankRun.listing BankRun.no_class "enhanced_models"
      BankRun.trained_beside_old_file = (Ok tt, st')
    /\ fs st' = fs BankRun.trained_beside_old_file.
Proof.
  destruct (@loading_never_raises_nor_changes_a_file _ BankRun.listing BankRun.no_class
              "enhanced_models" BankRun.trained_beside_old_file)
    as [st' [Hrun [Hfs _]]].
  exists st'. split; [exact Hrun | exact Hfs].
Defined.


End StoreRounds.
